(** * projgen: a scaffolding tool for C and C++ projects

    A shallow embedding of [main.go] and the properties of its
    specification.  The program is a straight line of validation,
    one probe of the build tool, filesystem writes and a few
    subprocesses; it is modelled as a state-and-exit monad over a
    small world (filesystem, standard output, log of spawned
    processes), with the environment (outcome of every subprocess,
    content of standard input) as a parameter. *)

From Stdlib Require Import Ascii String ZArith Lia Bool.
From stdpp Require Import gmap strings list fin_maps.

Local Open Scope string_scope.
Local Open Scope list_scope.
Local Open Scope bool_scope.

(** ** Strings

    Go strings are byte sequences; they are modelled by [string], whose
    characters are bytes. *)

Module Str.

Definition quote : string := String (ascii_of_nat 34) "".
Definition nl : ascii := ascii_of_nat 10.
Definition slash : ascii := "/"%char.

(** [strings.HasPrefix s p]. *)
Fixpoint has_prefix (p s : string) : bool :=
  match p, s with
  | "", _ => true
  | String _ _, "" => false
  | String a p', String b s' => Ascii.eqb a b && has_prefix p' s'
  end.

(** [strings.Contains s sub]. *)
Fixpoint contains (sub s : string) : bool :=
  has_prefix sub s ||
  match s with
  | "" => false
  | String _ s' => contains sub s'
  end.

(** [s] has a line that starts with [p]. *)
Definition has_line_starting (p s : string) : bool :=
  has_prefix p s || contains (String nl p) s.

(** Membership of a byte in a string. *)
Fixpoint mem (c : ascii) (s : string) : bool :=
  match s with
  | "" => false
  | String a s' => Ascii.eqb c a || mem c s'
  end.

(** Every byte of [s] satisfies [f]. *)
Fixpoint all (f : ascii -> bool) (s : string) : bool :=
  match s with
  | "" => true
  | String a s' => f a && all f s'
  end.

(** Some non-empty suffix of [p] is a proper prefix of [sub]: an
    occurrence of [sub] could begin in [p] and run past its end. *)
Fixpoint overhang (sub p : string) : bool :=
  match p with
  | "" => false
  | String _ p' =>
      (has_prefix p sub && negb (has_prefix sub p)) || overhang sub p'
  end.

(** [strings.ToLower], as far as the program can tell.  Go maps every
    rune to its lower case and rewrites invalid UTF-8; bytes below 0x80
    are mapped as here.  The program only compares the trimmed result
    with "y" and "yes", and no rune outside ASCII has "y", "e" or "s"
    as its lower case, so leaving the other bytes alone does not change
    what the program does. *)
Definition lower (c : ascii) : ascii :=
  let n := nat_of_ascii c in
  if (65 <=? n)%nat && (n <=? 90)%nat then ascii_of_nat (n + 32) else c.

Fixpoint ToLower (s : string) : string :=
  match s with
  | "" => ""
  | String c s' => String (lower c) (ToLower s')
  end.

(** White space as [unicode.IsSpace] has it, in UTF-8.  One byte:
    tab, line feed, vertical tab, form feed, carriage return, space. *)
Definition is_space (c : ascii) : bool :=
  let n := nat_of_ascii c in
  ((9 <=? n)%nat && (n <=? 13)%nat) || (n =? 32)%nat.

(** Two bytes: U+0085 and U+00A0. *)
Definition is_space2 (c1 c2 : ascii) : bool :=
  let n1 := nat_of_ascii c1 in
  let n2 := nat_of_ascii c2 in
  (n1 =? 194)%nat && ((n2 =? 133)%nat || (n2 =? 160)%nat).

(** Three bytes: U+1680, U+2000 to U+200A, U+2028, U+2029, U+202F,
    U+205F and U+3000. *)
Definition is_space3 (c1 c2 c3 : ascii) : bool :=
  let n1 := nat_of_ascii c1 in
  let n2 := nat_of_ascii c2 in
  let n3 := nat_of_ascii c3 in
  ((n1 =? 225)%nat && (n2 =? 154)%nat && (n3 =? 128)%nat)
  || ((n1 =? 226)%nat && (n2 =? 128)%nat
      && (((128 <=? n3)%nat && (n3 <=? 138)%nat)
          || (n3 =? 168)%nat || (n3 =? 169)%nat || (n3 =? 175)%nat))
  || ((n1 =? 226)%nat && (n2 =? 129)%nat && (n3 =? 159)%nat)
  || ((n1 =? 227)%nat && (n2 =? 128)%nat && (n3 =? 128)%nat).

(** The white-space runes at the head of [s] removed, one rune at a
    time; [sp2] and [sp3] recognise the encodings of two and three
    bytes, taking the bytes in the order they are met.  A byte that
    begins no such encoding ends the run, as a rune that is not white
    space, or an invalid byte, does in Go. *)
Fixpoint trim_with (sp2 : ascii -> ascii -> bool)
  (sp3 : ascii -> ascii -> ascii -> bool) (s : string) : string :=
  match s with
  | "" => ""
  | String c1 s1 =>
      if is_space c1 then trim_with sp2 sp3 s1
      else
        match s1 with
        | "" => s
        | String c2 s2 =>
            if sp2 c1 c2 then trim_with sp2 sp3 s2
            else
              match s2 with
              | "" => s
              | String c3 s3 =>
                  if sp3 c1 c2 c3 then trim_with sp2 sp3 s3 else s
              end
        end
  end.

Fixpoint rev_onto (s acc : string) : string :=
  match s with
  | "" => acc
  | String c s' => rev_onto s' (String c acc)
  end.

Definition rev (s : string) : string := rev_onto s "".

Definition trim_left (s : string) : string := trim_with is_space2 is_space3 s.

(** The same from the end: the bytes are met last one first. *)
Definition trim_right (s : string) : string :=
  rev (trim_with (fun a b => is_space2 b a) (fun a b c => is_space3 c b a)
         (rev s)).

(** [strings.TrimSpace]: all leading and trailing white space
    removed, as defined by Unicode. *)
Definition TrimSpace (s : string) : string := trim_right (trim_left s).

(** [bufio.Reader.ReadString('\n')] on a reader holding [s]: the
    bytes up to and including the first line feed, or all of [s]
    when there is none (the error is then [io.EOF], which the
    program ignores). *)
Fixpoint ReadString_nl (s : string) : string :=
  match s with
  | "" => ""
  | String c s' =>
      if Ascii.eqb c nl then String c "" else String c (ReadString_nl s')
  end.

Definition is_digit (c : ascii) : bool :=
  let n := nat_of_ascii c in (48 <=? n)%nat && (n <=? 57)%nat.

(** The longest run of digits at the head of [s], and what follows. *)
Fixpoint span_digits (s : string) : string * string :=
  match s with
  | "" => ("", "")
  | String c s' =>
      if is_digit c
      then let '(d, r) := span_digits s' in (String c d, r)
      else ("", s)
  end.

Fixpoint strip_prefix (p s : string) : option string :=
  match p, s with
  | "", _ => Some s
  | String _ _, "" => None
  | String a p', String b s' =>
      if Ascii.eqb a b then strip_prefix p' s' else None
  end.

(** Concatenation of a list of strings. *)
Definition cat (l : list string) : string := fold_right String.append "" l.

(** Components of a slash-separated path, empty ones included. *)
Fixpoint split_slash (s : string) : list string :=
  match s with
  | "" => [""]
  | String c s' =>
      if Ascii.eqb c slash then "" :: split_slash s'
      else match split_slash s' with
           | h :: t => String c h :: t
           | [] => [String c ""]
           end
  end.

End Str.

(** ** The regular expression of [getCMakeVersion]

    [regexp.MustCompile(`cmake version (\d+\.\d+\.\d+)`)] and
    [FindStringSubmatch]: the leftmost match, each [\d+] greedy.  Digits
    and dots are disjoint, so greedy matching never has to give a digit
    back and the match at a position is unique. *)

Module Re.

(** [\d+\.\d+\.\d+] anchored at the head of [s]: the matched text. *)
Definition match_semver (s : string) : option string :=
  match Str.span_digits s with
  | ("", _) => None
  | (a, String "." r1) =>
      match Str.span_digits r1 with
      | ("", _) => None
      | (b, String "." r2) =>
          match Str.span_digits r2 with
          | ("", _) => None
          | (c, _) => Some (a +:+ "." +:+ b +:+ "." +:+ c)
          end
      | _ => None
      end
  | _ => None
  end.

(** The whole pattern anchored at the head of [s]: capture group 1. *)
Definition match_here (s : string) : option string :=
  match Str.strip_prefix "cmake version " s with
  | Some r => match_semver r
  | None => None
  end.

(** [re.FindStringSubmatch(s)], reduced to its element of index 1;
    [None] stands for the nil slice. *)
Fixpoint FindStringSubmatch (s : string) : option string :=
  match match_here s with
  | Some v => Some v
  | None =>
      match s with
      | "" => None
      | String _ s' => FindStringSubmatch s'
      end
  end.

End Re.

(** ** Paths

    A cleaned path: whether it is rooted, and its components from the
    leaf up to the root, so that the parent of a path is the tail of its
    components.  ["demo/src/main.c"] is [(false, ["main.c"; "src";
    "demo"])]; [(false, [])] is ["."] and [(true, [])] is ["/"].  Paths
    are compared as [filepath.Clean] leaves them (Unix separator);
    symbolic links are outside the model. *)

Abbreviation path := (bool * list string)%type.

Definition is_rooted (s : string) : bool :=
  match s with
  | String c _ => Ascii.eqb c Str.slash
  | "" => false
  end.

(** One component in [filepath.Clean]: empty and ["."] components
    vanish, [".."] removes the component before it, is dropped at the
    root and is kept at the head of a relative path. *)
Definition clean_step (rooted : bool) (stack : list string) (c : string)
  : list string :=
  if String.eqb c "" || String.eqb c "." then stack
  else if String.eqb c ".." then
    match stack with
    | top :: rest => if String.eqb top ".." then c :: stack else rest
    | [] => if rooted then [] else [c]
    end
  else c :: stack.

Definition filepath_Clean (s : string) : path :=
  (is_rooted s, fold_left (clean_step (is_rooted s)) (Str.split_slash s) []).

(** [filepath.Join]: the non-empty elements joined by the separator,
    then cleaned.  (With no non-empty element Go returns the empty
    string; the program never calls it so, its first element being the
    validated name.) *)
Definition filepath_Join (elems : list string) : path :=
  filepath_Clean
    (String.concat "/" (List.filter (fun e => negb (String.eqb e "")) elems)).

Definition parent (p : path) : path := (p.1, tail p.2).

(** ** The filesystem *)

(** A JSON value handed to [json.MarshalIndent]; the file holds its
    encoding, which is the library's business and is not modelled. *)
#[local] Set Warnings "-register-all".

Inductive json : Type :=
  | JString (s : string)
  | JNumber (n : Z)
  | JArray (items : list json)
  | JObject (members : list (string * json)).

Inductive content : Type :=
  | Bytes (s : string)
  | MarshalIndent (v : json) (pfx indent : string).

Inductive node : Type :=
  | Dir
  | File (c : content).

Abbreviation FS := (gmap path node).

(** A word of a command line: a literal, a path made by
    [filepath.Join], or such a path with a literal appended. *)
Inductive word : Type :=
  | W (s : string)
  | WPath (p : path)
  | WPathCat (p : path) (s : string).

Record Cmd : Type := Command
  { cmd_name : word; cmd_args : list word; cmd_Dir : string }.

Inductive error : Type :=
  | ENOENT (p : path)
  | ENOTDIR (p : path)
  | EISDIR (p : path)
  | EEXIST (p : path)
  | ExitError (c : Cmd)
  | ErrorString (s : string).

(** [os.Stat]: the working directory and the root always exist; every
    other path is what the map says, [None] being "does not exist".
    (Below a file Go reports ENOTDIR instead; the program only stats
    below a directory it has just made.) *)
Definition os_Stat (fs : FS) (p : path) : option node :=
  match p.2 with
  | [] => Some Dir
  | _ :: _ => fs !! p
  end.

Definition os_Mkdir (p : path) (fs : FS) : error + FS :=
  match os_Stat fs p with
  | Some _ => inl (EEXIST p)
  | None =>
      match os_Stat fs (parent p) with
      | Some Dir => inr (<[p := Dir]> fs)
      | Some (File _) => inl (ENOTDIR p)
      | None => inl (ENOENT p)
      end
  end.

(** [os.MkdirAll], by recursion on the components: an existing directory
    is success, an existing file an error; otherwise the parent is made
    first (when there is one) and then the directory itself. *)
Fixpoint MkdirAll_from (rooted : bool) (cs : list string) (fs : FS)
  : error + FS :=
  match os_Stat fs (rooted, cs) with
  | Some Dir => inr fs
  | Some (File _) => inl (ENOTDIR (rooted, cs))
  | None =>
      match cs with
      | [] => inr fs
      | _ :: up =>
          match
            match up with
            | [] => inr fs
            | _ :: _ => MkdirAll_from rooted up fs
            end
          with
          | inl e => inl e
          | inr fs1 =>
              match os_Mkdir (rooted, cs) fs1 with
              | inr fs2 => inr fs2
              | inl e =>
                  match os_Stat fs1 (rooted, cs) with
                  | Some Dir => inr fs1
                  | _ => inl e
                  end
              end
          end
      end
  end.

Definition os_MkdirAll (p : path) (fs : FS) : error + FS :=
  MkdirAll_from p.1 p.2 fs.

(** [os.Create] (and the open of [os.WriteFile]): creates or truncates
    the file; fails on a directory and when the parent is missing or is
    not a directory. *)
Definition os_Create (p : path) (fs : FS) : error + FS :=
  match os_Stat fs p with
  | Some Dir => inl (EISDIR p)
  | _ =>
      match os_Stat fs (parent p) with
      | Some Dir => inr (<[p := File (Bytes "")]> fs)
      | Some (File _) => inl (ENOTDIR p)
      | None => inl (ENOENT p)
      end
  end.

(** ** Processes, output and the world *)

Inductive value : Type :=
  | VStr (s : string)
  | VPath (p : path)
  | VErr (e : error).

(** What [fmt] was asked to print; formatting is not modelled. *)
Inductive output : Type :=
  | Print (s : string)
  | Println (s : string)
  | Printf (format : string) (args : list value).

Record World : Type := mkWorld
  { fs : FS;
    stdout : list output;
    procs : list Cmd }.

(** The environment of a run: for each command, its standard output if
    it exits with status 0 and [None] if it cannot be started or exits
    otherwise; and what standard input holds. *)
Record Env : Type := mkEnv
  { cmd_result : Cmd -> option string;
    stdin : string }.

(** A tool that makes a directory makes its parents too, and leaves
    alone what is there. *)
Definition ensure_dir (p : path) (fs : FS) : FS :=
  match os_MkdirAll p fs with
  | inr fs' => fs'
  | inl _ => fs
  end.

Definition word_is (s : string) (w : word) : bool :=
  match w with
  | W s' => String.eqb s s'
  | _ => false
  end.

(** What a successful command leaves behind, as far as the program
    looks: [git clone <url> <dir>] makes [<dir>], [git init] makes
    [.git] in its working directory. *)
Definition tool_target (c : Cmd) : option path :=
  if word_is "git" (cmd_name c) then
    match cmd_args c with
    | [sub; _; WPath target] =>
        if word_is "clone" sub then Some target else None
    | [sub] =>
        if word_is "init" sub
        then Some (filepath_Join [cmd_Dir c; ".git"])
        else None
    | _ => None
    end
  else None.

Definition tool_effect (c : Cmd) (fs : FS) : FS :=
  match tool_target c with
  | Some p => ensure_dir p fs
  | None => fs
  end.

Inductive result (A : Type) : Type :=
  | Ret (a : A) (w : World)
  | Exit (code : Z) (w : World).
Arguments Ret {A} a w.
Arguments Exit {A} code w.

Definition M (A : Type) : Type := World -> result A.

#[export] Instance M_ret : MRet M := fun A a w => Ret a w.
#[export] Instance M_bind : MBind M := fun A B k m w =>
  match m w with
  | Ret a w' => k a w'
  | Exit code w' => Exit code w'
  end.

Definition os_Exit {A : Type} (code : Z) : M A := fun w => Exit code w.

Definition emit (o : output) : M unit := fun w =>
  Ret tt (mkWorld (fs w) (stdout w ++ [o]) (procs w)).

Definition lift_fs (op : FS -> error + FS) : M (option error) := fun w =>
  match op (fs w) with
  | inl e => Ret (Some e) w
  | inr fs' => Ret None (mkWorld fs' (stdout w) (procs w))
  end.

(** A write through the handle of a file just created or truncated:
    the file gets the content. *)
Definition write (p : path) (c : content) : M unit := fun w =>
  match fs w !! p with
  | Some (File _) => Ret tt (mkWorld (<[p := File c]> (fs w)) (stdout w) (procs w))
  | _ => Ret tt w
  end.

Definition stat (p : path) : M (option node) := fun w =>
  Ret (os_Stat (fs w) p) w.

Definition LF : string := String Str.nl "".

(** The final status of the process: [main] returning is status 0. *)
Definition exit_code {A : Type} (r : result A) : Z :=
  match r with
  | Ret _ _ => 0
  | Exit code _ => code
  end.

Definition final {A : Type} (r : result A) : World :=
  match r with
  | Ret _ w => w
  | Exit _ w => w
  end.

(** ** The program *)

(** [ProjectData] holds information about the project. *)
Record ProjectData : Type := mkProjectData
  { ProjectName : string;
    Type_ : string;
    Lang : string;
    Standard : string;
    CMakeVersion : string;
    CMakeLang : string;
    FileExt : string;
    PackageMgr : string }.

(** *** Templates

    A parsed [text/template]: literal text, a field of the data, and
    [{{if eq .F "lit"}} ... {{else}} ... {{end}}]; [{{else if ...}}] is
    an [if] alone in the else branch, as the template parser makes it. *)

Inductive field : Type :=
  | FProjectName | FType | FLang | FStandard
  | FCMakeVersion | FCMakeLang | FFileExt | FPackageMgr.

Definition field_value (f : field) (d : ProjectData) : string :=
  match f with
  | FProjectName => ProjectName d
  | FType => Type_ d
  | FLang => Lang d
  | FStandard => Standard d
  | FCMakeVersion => CMakeVersion d
  | FCMakeLang => CMakeLang d
  | FFileExt => FileExt d
  | FPackageMgr => PackageMgr d
  end.

Inductive tnode : Type :=
  | TText (s : string)
  | TField (f : field)
  | TIfEq (f : field) (lit : string) (thn els : list tnode).

(** The chunks executing a node writes, in order: the engine writes
    each text node and each printed value to the file as it goes. *)
Fixpoint exec_node (d : ProjectData) (n : tnode) : list string :=
  match n with
  | TText s => [s]
  | TField f => [field_value f d]
  | TIfEq f lit thn els =>
      if String.eqb (field_value f d) lit
      then flat_map (exec_node d) thn
      else flat_map (exec_node d) els
  end.

Definition chunks (t : list tnode) (d : ProjectData) : list string :=
  flat_map (exec_node d) t.

(** [tmpl.Execute(file, data)]: the text written. *)
Definition Execute (t : list tnode) (d : ProjectData) : string :=
  Str.cat (chunks t d).

(** Template for the CMakeLists.txt. *)
Definition cmakeTemplate : list tnode :=
  [
    TText "
cmake_minimum_required(VERSION ";
    TField FCMakeVersion;
    TText ")

# Set the project name and language
project(";
    TField FProjectName;
    TText " LANGUAGES ";
    TField FCMakeLang;
    TText ")

# Set the project language standard
";
    TIfEq FLang "cpp"
      [
        TText "
set(CMAKE_CXX_STANDARD ";
        TField FStandard;
        TText ")
"
      ]
      [
        TIfEq FLang "c"
          [
            TText "
set(CMAKE_C_STANDARD ";
            TField FStandard;
            TText ")
"
          ]
          []
      ];
    TText "

# Enable precompiled headers
";
    TIfEq FLang "cpp"
      [
        TText "
set(CMAKE_PCH_ENABLED ON)
"
      ]
      [];
    TText "

# Add the executable or library
";
    TIfEq FType "executable"
      [
        TText "
add_executable(";
        TField FProjectName;
        TText " src/main.";
        TField FFileExt;
        TText ")
"
      ]
      [
        TIfEq FType "library"
          [
            TText "
add_library(";
            TField FProjectName;
            TText " src/main.";
            TField FFileExt;
            TText ")
"
          ]
          []
      ];
    TText "

# Add precompiled header
";
    TIfEq FLang "cpp"
      [
        TText "
target_precompile_headers(";
        TField FProjectName;
        TText " PRIVATE include/pch.hpp)
"
      ]
      [];
    TText "
"
  ].

(** Template for a basic main.cpp file. *)
Definition cppMainTemplate : string :=
  "
#include " +:+ Str.quote +:+ "pch.hpp" +:+ Str.quote +:+ "

int main() {
    std::cout << " +:+ Str.quote +:+ "Hello, World!" +:+ Str.quote +:+ " << std::endl;
    return 0;
}
".

(** Template for the precompiled header. *)
Definition pchTemplate : string :=
  "
#ifndef PCH_HPP
#define PCH_HPP

#include <iostream>

#endif
".

(** The .gitignore template. *)
Definition gitignoreTemplate : string :=
  "
# Compiled Object files
*.o
*.obj

# Precompiled Headers
*.gch
*.pch

# Compiled Dynamic libraries
*.so
*.dylib
*.dll

# Compiled Static libraries
*.lib
*.a

# Executable files
*.exe
*.out
*.app

# CMake Build
/build/
CMakeCache.txt
CMakeFiles/
cmake_install.cmake
Makefile

# IDE and editor files
.vscode/
*.swp
*.swo
*.idea/
*.vscode/
".

(** The .gitattributes template. *)
Definition gitattributesTemplate : string :=
  "
# Ensure consistent line endings
* text=auto

# Treat C and C++ files as text
*.c text
*.cpp text
*.h text
*.hpp text
".

(** *** Flags *)

(** The values of the five flag variables once [flag.Parse] is done. *)
Record Flags : Type := mkFlags
  { flag_name : string;
    flag_type : string;
    flag_lang : string;
    flag_std : string;
    flag_pkgmgr : string }.

(** The defaults the flags are defined with. *)
Definition default_flags : Flags :=
  {| flag_name := "";
     flag_type := "executable";
     flag_lang := "cpp";
     flag_std := "11";
     flag_pkgmgr := "vcpkg" |}.

Definition path_string (p : path) : string :=
  match p with
  | (false, []) => "."
  | (true, []) => "/"
  | (rooted, cs) => (if rooted then "/" else "") +:+ String.concat "/" (rev cs)
  end.

(** Lines 181-189 of [main]: "Set CMakeLang and file extension based
    on language".  Both variables start as the empty string. *)
Definition derive (lang : string) : string * string :=
  if String.eqb lang "cpp" then ("CXX", "cpp")
  else if String.eqb lang "c" then ("C", "c")
  else ("", "").

(** Lines 191-201 of [main]: "Set up the project data". *)
Definition newProjectData (f : Flags) (cmakeVersion : string) : ProjectData :=
  {| ProjectName := flag_name f;
     Type_ := flag_type f;
     Lang := flag_lang f;
     Standard := flag_std f;
     CMakeVersion := cmakeVersion;
     CMakeLang := (derive (flag_lang f)).1;
     FileExt := (derive (flag_lang f)).2;
     PackageMgr := flag_pkgmgr f |}.

Definition vcpkg_manifest : json :=
  JObject [("dependencies", JArray [])].

Definition toolchainPath (data : ProjectData) : string :=
  if String.eqb (PackageMgr data) "vcpkg"
  then path_string
         (filepath_Join ["vcpkg"; "scripts"; "buildsystems"; "vcpkg.cmake"])
  else "".

Definition presets (data : ProjectData) : json :=
  JObject
    [("version", JNumber 3);
     ("configurePresets",
      JArray
        [JObject
           [("name", JString (ProjectName data +:+ "-Debug"));
            ("generator", JString "Visual Studio 17 2022");
            ("binaryDir", JString "${sourceDir}/build/${presetName}");
            ("cacheVariables",
             JObject
               [("CMAKE_BUILD_TYPE", JString "Debug");
                ("CMAKE_TOOLCHAIN_FILE", JString (toolchainPath data))])]])].

Section Program.

Variable env : Env.

(** [cmd.Run()]: the command is spawned; on success its effect on the
    filesystem is applied and the error is nil. *)
Definition exec_Run (c : Cmd) : M (option error) := fun w =>
  match cmd_result env c with
  | Some _ =>
      Ret None (mkWorld (tool_effect c (fs w)) (stdout w) (procs w ++ [c]))
  | None =>
      Ret (Some (ExitError c)) (mkWorld (fs w) (stdout w) (procs w ++ [c]))
  end.

(** [cmd.Output()]. *)
Definition exec_Output (c : Cmd) : M (error + string) := fun w =>
  match cmd_result env c with
  | Some out =>
      Ret (inr out) (mkWorld (tool_effect c (fs w)) (stdout w) (procs w ++ [c]))
  | None =>
      Ret (inl (ExitError c)) (mkWorld (fs w) (stdout w) (procs w ++ [c]))
  end.

(** Helper function to retrieve the installed CMake version. *)
Definition getCMakeVersion : M (error + string) :=
  r ← exec_Output (Command (W "cmake") [W "--version"] "");
  match r with
  | inl err => mret (inl err)
  | inr out =>
      match Re.FindStringSubmatch out with
      | None => mret (inl (ErrorString "unable to parse CMake version"))
      | Some v => mret (inr v)
      end
  end.

(** Function to create a file and write contents to it.  (The write
    to the file just created does not fail in this model.) *)
Definition createFile (p : path) (text : string) : M unit :=
  err ← lift_fs (os_Create p);
  match err with
  | Some e =>
      emit (Printf ("Error creating file %s: %v" +:+ LF) [VPath p; VErr e]);;
      os_Exit 1
  | None => write p (Bytes text)
  end.

(** Function to generate the CMakeLists.txt file.  (The constant
    template parses, and executing it on a [ProjectData] cannot fail:
    both error branches are dead.) *)
Definition createCMakeLists (data : ProjectData) : M unit :=
  let p := filepath_Join [ProjectName data; "CMakeLists.txt"] in
  err ← lift_fs (os_Create p);
  match err with
  | Some e =>
      emit (Printf ("Error creating CMakeLists.txt file: %v" +:+ LF) [VErr e]);;
      os_Exit 1
  | None => write p (Bytes (Execute cmakeTemplate data))
  end.

(** Function to generate the CMakePresets.json.  ([json.MarshalIndent]
    does not fail on this value.) *)
Definition createCMakePresets (data : ProjectData) : M unit :=
  let p := filepath_Join [ProjectName data; "CMakePresets.json"] in
  err ← lift_fs (os_Create p);
  match err with
  | Some e =>
      emit (Printf ("Error writing CMakePresets.json: %v" +:+ LF) [VErr e]);;
      os_Exit 1
  | None => write p (MarshalIndent (presets data) "" "  ")
  end.

(** The loop over [dirs] in [createProjectStructure]. *)
Fixpoint createDirs (data : ProjectData) (dirs : list string) : M unit :=
  match dirs with
  | [] => mret tt
  | dir :: rest =>
      err ← lift_fs (os_MkdirAll (filepath_Join [ProjectName data; dir]));
      match err with
      | Some e =>
          emit (Printf ("Error creating directory %s: %v" +:+ LF)
                       [VStr dir; VErr e]);;
          os_Exit 1
      | None => createDirs data rest
      end
  end.

(** One external step of the vcpkg set-up: announce, run, exit with
    status 1 if the command fails.  (All three steps print the same
    "Error cloning vcpkg" on failure.) *)
Definition vcpkgStep (announce : string) (c : Cmd) : M unit :=
  emit (Println announce);;
  err ← exec_Run c;
  match err with
  | Some e =>
      emit (Printf ("Error cloning vcpkg: %v" +:+ LF) [VErr e]);;
      os_Exit 1
  | None => mret tt
  end.

(** "Clone vcpkg if it doesn't exist": clone, bootstrap and create
    the manifest, unless the vcpkg directory is there. *)
Definition fetchVcpkg (vcpkgPath : path) : M unit :=
  st ← stat vcpkgPath;
  match st with
  | None =>
      vcpkgStep "Cloning vcpkg..."
        (Command (W "git")
           [W "clone"; W "https://github.com/Microsoft/vcpkg.git";
            WPath vcpkgPath] "");;
      vcpkgStep "Bootstrapping vcpkg..."
        (Command (WPathCat vcpkgPath "\bootstrap-vcpkg.bat") [] "");;
      vcpkgStep "Creting vcpkg manifes..."
        (Command (WPathCat vcpkgPath "\vcpkg")
           [W "new"; W "--application"] "")
  | Some _ => mret tt
  end.

(** "Create vcpkg.json manifest".  ([json.MarshalIndent] does not fail
    on this value.) *)
Definition writeManifest (data : ProjectData) : M unit :=
  let p := filepath_Join [ProjectName data; "vcpkg.json"] in
  err ← lift_fs (os_Create p);
  match err with
  | Some e =>
      emit (Printf ("Error writing vcpkg manifest: %v" +:+ LF) [VErr e]);;
      os_Exit 1
  | None => write p (MarshalIndent vcpkg_manifest "" "  ")
  end.

(** The [if data.PackageMgr == "vcpkg"] block of
    [createProjectStructure]. *)
Definition setupVcpkg (data : ProjectData) : M unit :=
  fetchVcpkg (filepath_Join [ProjectName data; "vcpkg"]);;
  writeManifest data;;
  createCMakePresets data.

(** The starter files: "Create a basic main file depending on the
    language". *)
Definition createMain (data : ProjectData) : M unit :=
  if String.eqb (Lang data) "cpp" then
    createFile (filepath_Join [ProjectName data; "src"; "main.cpp"])
      cppMainTemplate;;
    createFile (filepath_Join [ProjectName data; "include"; "pch.hpp"])
      pchTemplate
  else if String.eqb (Lang data) "c" then
    createFile (filepath_Join [ProjectName data; "src"; "main.c"])
      cppMainTemplate
  else mret tt.

(** Function to create the project structure. *)
Definition createProjectStructure (data : ProjectData) : M unit :=
  createDirs data ["src"; "include"; "build"];;
  createCMakeLists data;;
  (if String.eqb (PackageMgr data) "vcpkg" then setupVcpkg data else mret tt);;
  createMain data;;
  emit (Printf ("Project %s created successfully." +:+ LF)
               [VStr (ProjectName data)]).

(** Function to prompt the user to initialize Git and execute git init. *)
Definition initializeVersionControl (projectPath : string) : M unit :=
  emit (Print "Do you want to initialize Git version control? (y/n): ");;
  let input := Str.TrimSpace (Str.ToLower (Str.ReadString_nl (stdin env))) in
  if String.eqb input "y" || String.eqb input "yes" then
    err ← exec_Run (Command (W "git") [W "init"] projectPath);
    match err with
    | Some e =>
        emit (Printf ("Error initializing Git repository: %v" +:+ LF) [VErr e])
    | None =>
        createFile (filepath_Join [projectPath; ".gitignore"])
          gitignoreTemplate;;
        createFile (filepath_Join [projectPath; ".gitattributes"])
          gitattributesTemplate;;
        err ← exec_Run
                (Command (W "git") [W "add"; W ".gitignore"; W ".gitattributes"]
                   projectPath);
        match err with
        | Some e =>
            emit (Printf ("Error adding .gitignore/.gitattributes to Git: %v"
                            +:+ LF) [VErr e])
        | None =>
            emit (Println "Git repository initialized successfully with .gitignore and .gitattributes.")
        end
    end
  else emit (Println "Skipped Git initialization.").

Definition msg_name_required : output :=
  Println "Error: Project name is required. Use -name to specify the project name.".
Definition msg_unsupported_lang : output :=
  Println "Error: Unsupported language. Supported options: cpp, c".
Definition msg_unsupported_pkgmgr : output :=
  Println "Error: Unsupported package manager. Only vcpkg is currently supported.".

(** The three checks at the head of [main], in order: the message of
    the first one that fails. *)
Definition validate (f : Flags) : option output :=
  if String.eqb (flag_name f) "" then Some msg_name_required
  else if negb (String.eqb (flag_lang f) "cpp")
          && negb (String.eqb (flag_lang f) "c")
  then Some msg_unsupported_lang
  else if negb (String.eqb (flag_pkgmgr f) "vcpkg")
  then Some msg_unsupported_pkgmgr
  else None.

Definition main (f : Flags) : M unit :=
  match validate f with
  | Some msg => emit msg;; os_Exit 1
  | None =>
      r ← getCMakeVersion;
      match r with
      | inl err =>
          emit (Printf ("Error retrieving CMake version: %v" +:+ LF) [VErr err]);;
          os_Exit 1
      | inr cmakeVersion =>
          let projectData := newProjectData f cmakeVersion in
          createProjectStructure projectData;;
          initializeVersionControl (ProjectName projectData)
      end
  end.

End Program.

(** The world a run starts in: what is on disk, nothing printed,
    nothing spawned. *)
Definition start (disk : FS) : World := mkWorld disk [] [].

(** ** Vocabulary of the properties *)

(** A chunk is harmless for [n], whose first byte is [a], when [n]
    neither occurs in it nor can straddle its end, or when it lacks [a]
    altogether. *)
Definition chunk_ok (n : string) (a : ascii) (x : string) : Prop :=
  (Str.contains n x = false /\ Str.overhang n x = false) \/
  Str.mem a x = false.

(** The chunks of a text are harmless for [n]: each is, and the last
    one need only not contain [n], nothing coming after it. *)
Fixpoint chunks_ok (n : string) (a : ascii) (l : list string) : Prop :=
  match l with
  | [] => True
  | [x] => Str.contains n x = false
  | x :: l' => chunk_ok n a x /\ chunks_ok n a l'
  end.

(** The three commands of the vcpkg set-up. *)
Definition vcpkg_commands (name : string) : list Cmd :=
  let vcpkgPath := filepath_Join [name; "vcpkg"] in
  [Command (W "git")
     [W "clone"; W "https://github.com/Microsoft/vcpkg.git"; WPath vcpkgPath]
     "";
   Command (WPathCat vcpkgPath "\bootstrap-vcpkg.bat") [] "";
   Command (WPathCat vcpkgPath "\vcpkg") [W "new"; W "--application"] ""].

(** No file anywhere, and every entry's parent is a directory. *)
Definition no_files (fs : FS) : Prop :=
  forall (q : path) c, fs !! q <> Some (File c).

Definition closed (fs : FS) : Prop :=
  forall (r : bool) (c : string) (up : list string),
    is_Some (fs !! (r, c :: up)) -> os_Stat fs (r, up) = Some Dir.

(** A byte of a version number: a digit or a dot. *)
Definition is_version_byte (c : ascii) : bool :=
  Str.is_digit c || Ascii.eqb c "."%char.

(** A path component that [filepath.Clean] keeps as it is. *)
Definition plain (x : string) : bool :=
  negb (String.eqb x "") && negb (String.eqb x ".")
  && negb (String.eqb x "..") && negb (Str.mem Str.slash x).

(** The path [xs] (root first) below the cleaned path [p]. *)
Definition under (p : path) (xs : list string) : path :=
  (p.1, rev xs ++ p.2).

(** The filesystem changed at most at the paths of [S]. *)
Definition only_at (S : path -> Prop) (fs fs' : FS) : Prop :=
  forall q, ~ S q -> fs' !! q = fs !! q.

(** What was a directory still is. *)
Definition keeps_dirs (fs fs' : FS) : Prop :=
  forall q, os_Stat fs q = Some Dir -> os_Stat fs' q = Some Dir.

(** Whatever the world and however the computation ends, the
    filesystems before and after are related by [R]. *)
Definition steps (R : FS -> FS -> Prop) {A : Type} (m : M A) : Prop :=
  forall w, R (fs w) (fs (final (m w))).

(** [q] is [p] or one of its ancestors (the working directory and the
    root apart). *)
Definition upto (p q : path) : Prop :=
  q.1 = p.1 /\ q.2 `suffix_of` p.2 /\ q.2 <> [].

(** The shape shared by every place where the program makes a file:
    create or truncate it, report and exit 1 on failure, else write
    the content. *)
Definition writing (p : path) (c : content) (report : error -> output)
  : M unit :=
  err ← lift_fs (os_Create p);
  match err with
  | Some e => emit (report e);; os_Exit 1
  | None => write p c
  end.

(** What a relation between filesystems must allow for a computation
    that makes directories at [dirs], files at [files], and runs tools
    that make [made], to step within it. *)
Record allows (R : FS -> FS -> Prop) (dirs files : list path) : Prop :=
  { allows_refl : forall fs, R fs fs;
    allows_trans : forall fs1 fs2 fs3, R fs1 fs2 -> R fs2 fs3 -> R fs1 fs3;
    allows_mkdir : forall p fs fs',
      In p dirs -> os_MkdirAll p fs = inr fs' -> R fs fs';
    allows_create : forall p fs fs',
      In p files -> os_Create p fs = inr fs' -> R fs fs';
    allows_write : forall p c c0 fs,
      In p files -> fs !! p = Some (File c0) -> R fs (<[p := File c]> fs) }.

(** The directories and files a run for [name] makes, or has its
    tools make. *)
Definition project_dirs (name : string) : list path :=
  [filepath_Join [name; "src"]; filepath_Join [name; "include"];
   filepath_Join [name; "build"]; filepath_Join [name; "vcpkg"]].

Definition main_files (name : string) : list path :=
  [filepath_Join [name; "src"; "main.cpp"];
   filepath_Join [name; "include"; "pch.hpp"];
   filepath_Join [name; "src"; "main.c"]].

Definition project_files (name : string) : list path :=
  [filepath_Join [name; "CMakeLists.txt"];
   filepath_Join [name; "vcpkg.json"];
   filepath_Join [name; "CMakePresets.json"]] ++ main_files name.

Definition vcs_dirs (name : string) : list path :=
  [filepath_Join [name; ".git"]].

Definition vcs_files (name : string) : list path :=
  [filepath_Join [name; ".gitignore"]; filepath_Join [name; ".gitattributes"]].

(** The answer read at the prompt, as [initializeVersionControl]
    compares it. *)
Definition answer (env : Env) : string :=
  Str.TrimSpace (Str.ToLower (Str.ReadString_nl (stdin env))).

Definition prompt : output :=
  Print "Do you want to initialize Git version control? (y/n): ".

Definition msg_skipped : output := Println "Skipped Git initialization.".

(** The world [w] with [os] printed after what it had. *)
Definition printed (w : World) (os : list output) : World :=
  mkWorld (fs w) (stdout w ++ os) (procs w).

(** The two version-control commands. *)
Definition git_init (projectPath : string) : Cmd :=
  Command (W "git") [W "init"] projectPath.

Definition git_add (projectPath : string) : Cmd :=
  Command (W "git") [W "add"; W ".gitignore"; W ".gitattributes"] projectPath.

Definition is_git_init (c : Cmd) : bool :=
  word_is "git" (cmd_name c) &&
  match cmd_args c with
  | [sub] => word_is "init" sub
  | _ => false
  end.

(** A sample environment: cmake answers with version 3.28.1, every
    command succeeds, and [input] is typed at the prompt. *)
Definition sample_env (input : string) : Env :=
  mkEnv (fun c => if word_is "cmake" (cmd_name c)
                  then Some ("cmake version 3.28.1" +:+ LF)
                  else Some "")
        input.

(** The same, but [git init] fails. *)
Definition no_git_env (input : string) : Env :=
  mkEnv (fun c => if is_git_init c then None
                  else cmd_result (sample_env input) c)
        input.

Definition demo (lang pkgmgr : string) : Flags :=
  mkFlags "demo" "executable" lang "17" pkgmgr.

(** Whenever the computation ends the process, the status is 1. *)
Definition exits_1 {A : Type} (m : M A) : Prop :=
  forall w code w', m w = Exit code w' -> code = 1%Z.

(** Whenever the computation returns, every process it has spawned
    satisfies [ok]. *)
Definition spawns (ok : Cmd -> Prop) {A : Type} (m : M A) : Prop :=
  forall w a w', m w = Ret a w' ->
    exists l, procs w' = procs w ++ l /\ Forall ok l.

(** A command that did not fail, unless it is one of [harmless]. *)
Definition fails_only (env : Env) (harmless : list Cmd) (c : Cmd) : Prop :=
  cmd_result env c = None -> In c harmless.

Definition cmake_version : Cmd := Command (W "cmake") [W "--version"] "".

(** ** Vocabulary of the further properties *)

(** A non-empty run of decimal digits. *)
Definition number (s : string) : Prop :=
  s <> "" /\ Str.all Str.is_digit s = true.

(** [s] does not begin with a digit. *)
Definition no_digit_ahead (s : string) : Prop :=
  match s with
  | "" => True
  | String c _ => Str.is_digit c = false
  end.

(** The message of [main] when the probe fails. *)
Definition msg_no_version (err : error) : output :=
  Printf ("Error retrieving CMake version: %v" +:+ LF) [VErr err].

(** The message of [createFile] for the error [e] at [p]. *)
Definition msg_create_file (p : path) (e : error) : output :=
  Printf ("Error creating file %s: %v" +:+ LF) [VPath p; VErr e].

(** The message of the directory loop for the error [e] at [dir]. *)
Definition msg_create_dir (dir : string) (e : error) : output :=
  Printf ("Error creating directory %s: %v" +:+ LF) [VStr dir; VErr e].

(** Every entry is still there and is of the kind it was: a directory
    stays a directory, a file stays a file. *)
Definition keeps_kinds (fs fs' : FS) : Prop :=
  forall q : path,
    match fs !! q with
    | Some Dir => fs' !! q = Some Dir
    | Some (File _) => exists c, fs' !! q = Some (File c)
    | None => True
    end.

(** [q] lies strictly below the directory [p]. *)
Definition inside (p q : path) : Prop :=
  q.1 = p.1 /\ p.2 `suffix_of` q.2 /\ q.2 <> p.2.

(** Outside the directory [p] nothing changes, but that [p] and
    directories above it may come into being. *)
Definition stays_inside (p : path) (fs fs' : FS) : Prop :=
  forall q : path,
    ~ inside p q ->
    fs' !! q = fs !! q \/
    (fs !! q = None /\ fs' !! q = Some Dir /\ upto p q).

(** An output that reports an error. *)
Definition is_error_message (o : output) : bool :=
  match o with
  | Print _ => false
  | Println s => Str.has_prefix "Error" s
  | Printf format _ => Str.has_prefix "Error" format
  end.

(** The computation only adds to the output, and when it ends the
    process the last thing it has printed is an error message. *)
Definition reports {A : Type} (m : M A) : Prop :=
  forall w,
    match m w with
    | Ret _ w' => exists os, stdout w' = stdout w ++ os
    | Exit _ w' =>
        exists os msg,
          stdout w' = stdout w ++ os ++ [msg] /\ is_error_message msg = true
    end.

(** However the computation ends, the processes it has spawned are, in
    order, some of [cmds]. *)
Definition spawns_of (cmds : list Cmd) {A : Type} (m : M A) : Prop :=
  forall w, exists l, procs (final (m w)) = procs w ++ l /\ l `sublist_of` cmds.

(** The commands of a whole run, in the order of the program text. *)
Definition all_commands (name : string) : list Cmd :=
  cmake_version :: vcpkg_commands name ++ [git_init name; git_add name].

(** The last message of [createProjectStructure]. *)
Definition msg_created (name : string) : output :=
  Printf ("Project %s created successfully." +:+ LF) [VStr name].

(** The two ways the prompt step ends once both files are written. *)
Definition msg_vcs_done : output :=
  Println "Git repository initialized successfully with .gitignore and .gitattributes.".

Definition msg_add_failed (e : error) : output :=
  Printf ("Error adding .gitignore/.gitattributes to Git: %v" +:+ LF) [VErr e].

(** The message printed when a command of the vcpkg set-up fails,
    whichever of the three it is. *)
Definition msg_vcpkg_failed (c : Cmd) : output :=
  Printf ("Error cloning vcpkg: %v" +:+ LF) [VErr (ExitError c)].

(** * Properties *)

(** ** Occurrences of a text in a concatenation *)

Lemma has_prefix_split n q r :
  Str.has_prefix n (q +:+ r) = true ->
  Str.has_prefix n q = true \/
  Str.has_prefix q n && negb (Str.has_prefix n q) = true.
Proof.
  revert n. induction q as [|b q IH]; intros n H.
  - destruct n; [by left | by right].
  - destruct n as [|a n]; [by left |].
    simpl in *. apply andb_true_iff in H as [Hab H].
    apply Ascii.eqb_eq in Hab as ->. rewrite !Ascii.eqb_refl. simpl.
    exact (IH _ H).
Qed.

Lemma contains_cons n b s :
  Str.contains n s = true -> Str.contains n (String b s) = true.
Proof. intros H. simpl. rewrite H. apply orb_true_r. Qed.

(** An occurrence in [p +:+ r] lies in [p] or in [r], unless it can
    straddle the end of [p]. *)
Lemma contains_app_inv n p r :
  Str.overhang n p = false ->
  Str.contains n (p +:+ r) = true ->
  Str.contains n p = true \/ Str.contains n r = true.
Proof.
  induction p as [|b p IH]; intros Hov H; [by right |].
  cbn [Str.overhang] in Hov. apply orb_false_iff in Hov as [Hhere Hov].
  change (Str.contains n (String b p +:+ r))
    with (Str.has_prefix n (String b p +:+ r) || Str.contains n (p +:+ r)) in H.
  apply orb_true_iff in H as [H | H].
  - apply has_prefix_split in H as [H | H]; [| congruence].
    left. cbn [Str.contains]. rewrite H. done.
  - destruct (IH Hov H) as [H' | H']; [left | by right].
    by apply contains_cons.
Qed.

(** No occurrence begins inside a text that lacks its first byte. *)
Lemma contains_skip a n x r :
  Str.mem a x = false ->
  Str.contains (String a n) (x +:+ r) = true ->
  Str.contains (String a n) r = true.
Proof.
  induction x as [|b x IH]; intros Hm H; [done |].
  cbn [Str.mem] in Hm. apply orb_false_iff in Hm as [Hab Hm].
  simpl in H. rewrite Hab in H. simpl in H. by apply IH.
Qed.

Lemma append_nil_r (s : string) : s +:+ "" = s.
Proof.
  induction s as [|c s IH]; [done |].
  change (String c (s +:+ "") = String c s). by rewrite IH.
Qed.

Lemma contains_cat_false a n l :
  chunks_ok (String a n) a l ->
  Str.contains (String a n) (Str.cat l) = false.
Proof.
  induction l as [|x l IH]; [done |].
  destruct l as [|y l].
  { cbn [chunks_ok Str.cat fold_right]. intros H. by rewrite append_nil_r. }
  intros [Hx Hl]. specialize (IH Hl).
  change (Str.cat (x :: y :: l)) with (x +:+ Str.cat (y :: l)).
  destruct (Str.contains (String a n) (x +:+ Str.cat (y :: l))) eqn:E;
    [| done].
  destruct Hx as [[Hc Ho] | Hm].
  - destruct (contains_app_inv _ _ _ Ho E); congruence.
  - apply contains_skip in E; congruence.
Qed.

Lemma contains_app_r n p s :
  Str.contains n s = true -> Str.contains n (p +:+ s) = true.
Proof.
  intros H. induction p as [|b p IH]; [done |].
  by apply contains_cons.
Qed.

Lemma all_app f s r :
  Str.all f (s +:+ r) = Str.all f s && Str.all f r.
Proof.
  induction s as [|c s IH]; [done |].
  simpl. rewrite IH. by rewrite andb_assoc.
Qed.

Lemma all_mem f c s :
  Str.all f s = true -> f c = false -> Str.mem c s = false.
Proof.
  intros Hs Hc. induction s as [|b s IH]; [done |].
  simpl in *. apply andb_true_iff in Hs as [Hb Hs].
  rewrite (IH Hs), orb_false_r.
  destruct (Ascii.eqb c b) eqn:E; [| done].
  apply Ascii.eqb_eq in E as ->. congruence.
Qed.

(** ** The version pattern *)

Lemma span_digits_all s : Str.all Str.is_digit (Str.span_digits s).1 = true.
Proof.
  induction s as [|c s IH]; [done |].
  simpl. destruct (Str.is_digit c) eqn:E; [| done].
  destruct (Str.span_digits s) as [d r]. simpl in *. by rewrite E.
Qed.

Lemma digits_version_bytes s :
  Str.all Str.is_digit s = true -> Str.all is_version_byte s = true.
Proof.
  induction s as [|c s IH]; [done |].
  simpl. intros [Hc Hs]%andb_true_iff.
  unfold is_version_byte at 1. rewrite Hc. simpl. by apply IH.
Qed.

Lemma match_semver_bytes s v :
  Re.match_semver s = Some v -> Str.all is_version_byte v = true.
Proof.
  unfold Re.match_semver.
  pose proof (span_digits_all s) as Ha.
  destruct (Str.span_digits s) as [a r1]. simpl in Ha.
  destruct a as [|a0 a]; [done |].
  destruct r1 as [|c1 r1]; [done |].
  destruct (Ascii.eqb_spec c1 "."%char) as [-> | Hne]; cycle 1.
  { intros H. exfalso. revert H.
    destruct c1 as [[] [] [] [] [] [] [] []]; try done. }
  pose proof (span_digits_all r1) as Hb.
  destruct (Str.span_digits r1) as [b r2]. simpl in Hb.
  destruct b as [|b0 b]; [done |].
  destruct r2 as [|c2 r2]; [done |].
  destruct (Ascii.eqb_spec c2 "."%char) as [-> | Hne]; cycle 1.
  { intros H. exfalso. revert H.
    destruct c2 as [[] [] [] [] [] [] [] []]; try done. }
  pose proof (span_digits_all r2) as Hc.
  destruct (Str.span_digits r2) as [c r3]. simpl in Hc.
  destruct c as [|c0 c]; [done |].
  intros [= <-].
  rewrite !all_app.
  rewrite (digits_version_bytes _ Ha), (digits_version_bytes _ Hb),
    (digits_version_bytes _ Hc).
  done.
Qed.

Lemma FindStringSubmatch_bytes s v :
  Re.FindStringSubmatch s = Some v -> Str.all is_version_byte v = true.
Proof.
  induction s as [|c s IH]; simpl.
  - unfold Re.match_here. simpl. done.
  - destruct (Re.match_here (String c s)) as [v'|] eqn:E.
    + intros [= <-]. unfold Re.match_here in E.
      destruct (Str.strip_prefix _ _) as [r|]; [| done].
      by apply match_semver_bytes in E.
    + exact IH.
Qed.

(** ** Paths below the project directory *)

Lemma split_slash_nonempty s : Str.split_slash s <> [].
Proof.
  destruct s as [|c s]; [done |]. simpl.
  destruct (Ascii.eqb c Str.slash); [done |].
  by destruct (Str.split_slash s).
Qed.

Lemma split_slash_app a b :
  Str.split_slash (a +:+ "/" +:+ b) = Str.split_slash a ++ Str.split_slash b.
Proof.
  change ("/" +:+ b) with (String "/"%char b).
  induction a as [|c a IH]; [done |].
  change (String c a +:+ String "/"%char b)
    with (String c (a +:+ String "/"%char b)).
  cbn [Str.split_slash]. rewrite IH.
  destruct (Ascii.eqb c Str.slash); [done |].
  pose proof (split_slash_nonempty a).
  by destruct (Str.split_slash a).
Qed.

Lemma split_slash_plain x :
  Str.mem Str.slash x = false -> Str.split_slash x = [x].
Proof.
  induction x as [|c x IH]; [done |].
  cbn [Str.mem Str.split_slash]. intros [Hc Hx]%orb_false_iff.
  rewrite Ascii.eqb_sym, Hc, (IH Hx). done.
Qed.

Lemma plain_inv x :
  plain x = true ->
  String.eqb x "" = false /\ String.eqb x "." = false /\
  String.eqb x ".." = false /\ Str.mem Str.slash x = false.
Proof.
  unfold plain. rewrite !andb_true_iff, !negb_true_iff. tauto.
Qed.

Lemma split_slash_concat xs :
  xs <> [] -> forallb plain xs = true ->
  Str.split_slash (String.concat "/" xs) = xs.
Proof.
  induction xs as [|x xs IH]; [done |]. intros _.
  cbn [forallb]. intros [Hx Hxs]%andb_true_iff.
  apply plain_inv in Hx as (_ & _ & _ & Hx).
  destruct xs as [|y xs]; [by apply split_slash_plain |].
  change (String.concat "/" (x :: y :: xs))
    with (x +:+ "/" +:+ String.concat "/" (y :: xs)).
  rewrite split_slash_app, (split_slash_plain _ Hx), IH; done.
Qed.

Lemma fold_clean_plain r xs stk :
  forallb plain xs = true ->
  fold_left (clean_step r) xs stk = rev xs ++ stk.
Proof.
  revert stk. induction xs as [|x xs IH]; intros stk; [done |].
  cbn [forallb]. intros [Hx Hxs]%andb_true_iff.
  apply plain_inv in Hx as (H1 & H2 & H3 & _).
  cbn [fold_left rev]. unfold clean_step at 2. rewrite H1, H2, H3. simpl.
  rewrite (IH _ Hxs), <- app_assoc. done.
Qed.

Lemma is_rooted_app a b : a <> "" -> is_rooted (a +:+ b) = is_rooted a.
Proof. by destruct a. Qed.

Lemma filter_plain xs :
  forallb plain xs = true ->
  List.filter (fun e => negb (String.eqb e "")) xs = xs.
Proof.
  induction xs as [|x xs IH]; [done |].
  cbn [forallb]. intros [Hx Hxs]%andb_true_iff.
  apply plain_inv in Hx as (H1 & _). simpl. rewrite H1. simpl.
  by rewrite IH.
Qed.

(** Joining a name with plain components puts them, as they are, below
    the cleaned name. *)
Lemma Join_under name xs :
  name <> "" -> xs <> [] -> forallb plain xs = true ->
  filepath_Join (name :: xs) = under (filepath_Clean name) xs.
Proof.
  intros Hname Hxs Hplain. unfold filepath_Join, filepath_Clean, under.
  cbn [List.filter]. assert (String.eqb name "" = false) as ->.
  { by apply String.eqb_neq. }
  cbn [negb]. rewrite (filter_plain _ Hplain).
  destruct xs as [|y xs]; [done |].
  change (String.concat "/" (name :: y :: xs))
    with (name +:+ "/" +:+ String.concat "/" (y :: xs)).
  rewrite (is_rooted_app _ _ Hname), split_slash_app, fold_left_app.
  rewrite split_slash_concat by done.
  by rewrite fold_clean_plain.
Qed.

(** ** The filesystem operations *)

Lemma Stat_insert_ne (fs : FS) (p q : path) n :
  p <> q -> os_Stat (<[p := n]> fs) q = os_Stat fs q.
Proof.
  intros Hne. unfold os_Stat. destruct q.2; [done |].
  by rewrite lookup_insert_ne.
Qed.

Lemma MkdirAll_unfold (r : bool) (c : string) (up : list string) (fs : FS) :
  MkdirAll_from r (c :: up) fs =
  match fs !! (r, c :: up) with
  | Some Dir => inr fs
  | Some (File _) => inl (ENOTDIR (r, c :: up))
  | None =>
      match MkdirAll_from r up fs with
      | inl e => inl e
      | inr fs1 =>
          match os_Mkdir (r, c :: up) fs1 with
          | inr fs2 => inr fs2
          | inl e =>
              match os_Stat fs1 (r, c :: up) with
              | Some Dir => inr fs1
              | _ => inl e
              end
          end
      end
  end.
Proof. destruct up; reflexivity. Qed.

Lemma Mkdir_inv (p : path) (fs fs' : FS) :
  os_Mkdir p fs = inr fs' ->
  fs' = <[p := Dir]> fs /\ os_Stat fs p = None /\
  os_Stat fs (parent p) = Some Dir.
Proof.
  unfold os_Mkdir. destruct (os_Stat fs p); [done |].
  destruct (os_Stat fs (parent p)) as [[|?]|]; [| done | done].
  by intros [= <-].
Qed.

(** [MkdirAll] only adds directories, at the path or above it. *)
Lemma MkdirAll_lookup (r : bool) (cs : list string) (fs fs' : FS) :
  MkdirAll_from r cs fs = inr fs' ->
  forall q : path, fs' !! q = fs !! q \/
            (fs !! q = None /\ fs' !! q = Some Dir /\ upto (r, cs) q).
Proof.
  revert fs fs'. induction cs as [|c up IH]; intros fs fs' H q.
  { simpl in H. injection H as <-. by left. }
  rewrite MkdirAll_unfold in H.
  destruct (fs !! (r, c :: up)) as [[|?]|] eqn:Ep; [| done |].
  { injection H as <-. by left. }
  destruct (MkdirAll_from r up fs) as [e|fs1] eqn:Eup; [done |].
  assert (fs1 !! q = fs !! q \/
          (fs !! q = None /\ fs1 !! q = Some Dir /\ upto (r, c :: up) q))
    as Hq1.
  { destruct (IH _ _ Eup q) as [? | (? & ? & ? & ? & ?)]; [by left |].
    right. repeat split; try done. by apply suffix_cons_r. }
  destruct (os_Mkdir (r, c :: up) fs1) as [e|fs2] eqn:Emk.
  { destruct (os_Stat fs1 (r, c :: up)) as [[|?]|]; [| done | done].
    by injection H as <-. }
  injection H as <-. apply Mkdir_inv in Emk as (-> & Hnone & _).
  destruct (decide ((r, c :: up) = q)) as [<- | Hne].
  - right. rewrite lookup_insert_eq. repeat split; done.
  - by rewrite lookup_insert_ne.
Qed.

Lemma MkdirAll_dir (r : bool) (cs : list string) (fs fs' : FS) :
  MkdirAll_from r cs fs = inr fs' -> os_Stat fs' (r, cs) = Some Dir.
Proof.
  destruct cs as [|c up]; [done |].
  rewrite MkdirAll_unfold.
  destruct (fs !! (r, c :: up)) as [[|?]|] eqn:Ep; [| done |].
  { by intros [= <-]. }
  destruct (MkdirAll_from r up fs) as [e|fs1]; [done |].
  destruct (os_Mkdir (r, c :: up) fs1) as [e|fs2] eqn:Emk.
  - destruct (os_Stat fs1 (r, c :: up)) as [[|?]|] eqn:E; [| done | done].
    by intros [= <-].
  - intros [= <-]. apply Mkdir_inv in Emk as (-> & _).
    simpl. apply lookup_insert_eq.
Qed.

Lemma cons_ne {A} (x : A) (l : list A) : x :: l <> l.
Proof.
  intros H. apply (f_equal length) in H. simpl in H. lia.
Qed.

Lemma not_suffix_cons {A} (x : A) (l : list A) : ~ (x :: l) `suffix_of` l.
Proof. intros H%suffix_length. simpl in H. lia. Qed.

(** [MkdirAll] succeeds unless a file is in the way. *)
Lemma MkdirAll_succeeds (r : bool) (cs : list string) (fs : FS) :
  (forall (q : path) c, upto (r, cs) q -> fs !! q <> Some (File c)) ->
  exists fs', MkdirAll_from r cs fs = inr fs'.
Proof.
  revert fs. induction cs as [|c up IH]; intros fs Hfree; [by eexists |].
  rewrite MkdirAll_unfold.
  destruct (fs !! (r, c :: up)) as [[|x]|] eqn:Ep; [by eexists | |].
  { exfalso. by apply (Hfree (r, c :: up) x). }
  destruct (IH fs) as [fs1 E1].
  { intros q x (? & ? & ?). apply Hfree. repeat split; try done.
    by apply suffix_cons_r. }
  rewrite E1. unfold os_Mkdir.
  assert (os_Stat fs1 (r, c :: up) = None) as ->.
  { change (fs1 !! (r, c :: up) = None).
    destruct (MkdirAll_lookup _ _ _ _ E1 (r, c :: up))
      as [-> | (_ & _ & _ & Hs & _)]; [done |].
    by apply not_suffix_cons in Hs. }
  change (parent (r, c :: up)) with (r, up).
  rewrite (MkdirAll_dir _ _ _ _ E1). by eexists.
Qed.

(** An existing directory is success, and nothing changes. *)
Lemma MkdirAll_existing (p : path) (fs : FS) :
  os_Stat fs p = Some Dir -> os_MkdirAll p fs = inr fs.
Proof.
  destruct p as [r cs]. unfold os_MkdirAll. simpl.
  intros H. destruct cs as [|c up]; [done |].
  rewrite MkdirAll_unfold. change (fs !! (r, c :: up) = Some Dir) in H.
  by rewrite H.
Qed.

Lemma Create_inv (p : path) (fs fs' : FS) :
  os_Create p fs = inr fs' ->
  fs' = <[p := File (Bytes "")]> fs /\ os_Stat fs p <> Some Dir /\
  os_Stat fs (parent p) = Some Dir.
Proof.
  unfold os_Create.
  destruct (os_Stat fs p) as [[|?]|]; [done | |];
    (destruct (os_Stat fs (parent p)) as [[|?]|]; [| done | done]);
    by intros [= <-].
Qed.

Lemma Create_ok (p : path) (fs : FS) :
  os_Stat fs p <> Some Dir -> os_Stat fs (parent p) = Some Dir ->
  os_Create p fs = inr (<[p := File (Bytes "")]> fs).
Proof.
  unfold os_Create. intros Hp ->.
  by destruct (os_Stat fs p) as [[|?]|].
Qed.

(** ** The monad *)

Lemma bind_unfold {A B} (m : M A) (k : A -> M B) w :
  (m ≫= k) w =
  match m w with
  | Ret a w' => k a w'
  | Exit code w' => Exit code w'
  end.
Proof. reflexivity. Qed.

Lemma bind_Ret_inv {A B} (m : M A) (k : A -> M B) w b w' :
  (m ≫= k) w = Ret b w' ->
  exists a w1, m w = Ret a w1 /\ k a w1 = Ret b w'.
Proof.
  rewrite bind_unfold. destruct (m w) as [a w1|]; [| done]. eauto.
Qed.

Lemma bind_Ret {A B} (m : M A) (k : A -> M B) w a w1 :
  m w = Ret a w1 -> (m ≫= k) w = k a w1.
Proof. intros H. by rewrite bind_unfold, H. Qed.

Lemma World_eta w : mkWorld (fs w) (stdout w) (procs w) = w.
Proof. by destruct w. Qed.

Section Steps.

Context (R : FS -> FS -> Prop).
Hypothesis R_refl : forall fs, R fs fs.
Hypothesis R_trans : forall fs1 fs2 fs3, R fs1 fs2 -> R fs2 fs3 -> R fs1 fs3.

Lemma steps_ret {A} (a : A) : steps R (mret a).
Proof. intros w. apply R_refl. Qed.

Lemma steps_exit {A} code : steps R (@os_Exit A code).
Proof. intros w. apply R_refl. Qed.

Lemma steps_emit o : steps R (emit o).
Proof. intros w. apply R_refl. Qed.

Lemma steps_stat p : steps R (stat p).
Proof. intros w. apply R_refl. Qed.

Lemma steps_bind {A B} (m : M A) (k : A -> M B) :
  steps R m -> (forall a, steps R (k a)) -> steps R (m ≫= k).
Proof.
  intros Hm Hk w. specialize (Hm w). rewrite bind_unfold.
  destruct (m w) as [a w1|code w1]; simpl in *; [| done].
  exact (R_trans _ _ _ Hm (Hk a w1)).
Qed.

Lemma steps_lift_fs op :
  (forall fs fs', op fs = inr fs' -> R fs fs') -> steps R (lift_fs op).
Proof.
  intros H w. unfold lift_fs.
  destruct (op (fs w)) as [e|fs'] eqn:E; simpl; [apply R_refl | by apply H].
Qed.

Lemma steps_write p c :
  (forall fs c0, fs !! p = Some (File c0) -> R fs (<[p := File c]> fs)) ->
  steps R (write p c).
Proof.
  intros H w. unfold write.
  destruct (fs w !! p) as [[|c0]|] eqn:E; simpl; try apply R_refl.
  by apply (H _ c0).
Qed.

Lemma steps_writing p c report :
  (forall fs fs', os_Create p fs = inr fs' -> R fs fs') ->
  (forall fs c0, fs !! p = Some (File c0) -> R fs (<[p := File c]> fs)) ->
  steps R (writing p c report).
Proof.
  intros Hc Hw. apply steps_bind; [by apply steps_lift_fs |].
  intros [e|]; [| by apply steps_write].
  apply steps_bind; [apply steps_emit | intros; apply steps_exit].
Qed.

Lemma steps_exec_Run env c :
  (forall fs, R fs (tool_effect c fs)) -> steps R (exec_Run env c).
Proof.
  intros H w. unfold exec_Run.
  destruct (cmd_result env c); simpl; [apply H | apply R_refl].
Qed.

Lemma steps_exec_Output env c :
  (forall fs, R fs (tool_effect c fs)) -> steps R (exec_Output env c).
Proof.
  intros H w. unfold exec_Output.
  destruct (cmd_result env c); simpl; [apply H | apply R_refl].
Qed.

End Steps.

(** ** How the program steps *)

Lemma allows_keeps_dirs dirs files : allows keeps_dirs dirs files.
Proof.
  split.
  - by intros fs q.
  - intros fs1 fs2 fs3 H12 H23 q Hq. by apply H23, H12.
  - intros [r cs] fs fs' _ H q Hq. unfold os_MkdirAll in H. simpl in H.
    unfold os_Stat in *. destruct q.2 eqn:Eq2; [done |].
    destruct (MkdirAll_lookup _ _ _ _ H q) as [-> | (Hn & _)]; congruence.
  - intros p fs fs' _ (-> & Hp & _)%Create_inv q Hq.
    rewrite Stat_insert_ne; [done | congruence].
  - intros p c c0 fs _ Hp q Hq.
    destruct (decide (p = q)) as [<- | Hne]; [| by rewrite Stat_insert_ne].
    unfold os_Stat in *. destruct p.2; [done | congruence].
Qed.

Lemma allows_only_at (S : path -> Prop) dirs files :
  (forall p q, In p dirs -> upto p q -> S q) ->
  (forall p, In p files -> S p) ->
  allows (only_at S) dirs files.
Proof.
  intros Hdirs Hfiles. split.
  - by intros fs q.
  - intros fs1 fs2 fs3 H12 H23 q Hq. by rewrite H23, H12.
  - intros [r cs] fs fs' Hin H q Hq. unfold os_MkdirAll in H. simpl in H.
    destruct (MkdirAll_lookup _ _ _ _ H q) as [-> | (_ & _ & Hup)]; [done |].
    destruct Hq. by apply (Hdirs (r, cs)).
  - intros p fs fs' Hin (-> & _)%Create_inv q Hq.
    rewrite lookup_insert_ne; [done |]. intros <-. by apply Hq, Hfiles.
  - intros p c c0 fs Hin _ q Hq.
    rewrite lookup_insert_ne; [done |]. intros <-. by apply Hq, Hfiles.
Qed.

Section ProgramSteps.

Context (env : Env) (R : FS -> FS -> Prop) (dirs files : list path).
Hypothesis HR : allows R dirs files.

Local Ltac structure :=
  repeat match goal with
    | |- steps _ (mret _) => apply (steps_ret R (allows_refl _ _ _ HR))
    | |- steps _ (os_Exit _) => apply (steps_exit R (allows_refl _ _ _ HR))
    | |- steps _ (emit _) => apply (steps_emit R (allows_refl _ _ _ HR))
    | |- steps _ (stat _) => apply (steps_stat R (allows_refl _ _ _ HR))
    | |- steps _ (_ ≫= _) =>
        apply (steps_bind R (allows_trans _ _ _ HR)); [| intros ?]
    | |- steps _ (match ?x with _ => _ end) => destruct x
    end.

Lemma steps_tool c :
  match tool_target c with Some p => In p dirs | None => True end ->
  forall fs, R fs (tool_effect c fs).
Proof.
  unfold tool_effect, ensure_dir. intros H fs.
  destruct (tool_target c) as [p|]; [| apply (allows_refl _ _ _ HR)].
  destruct (os_MkdirAll p fs) eqn:E; [apply (allows_refl _ _ _ HR) |].
  by apply (allows_mkdir _ _ _ HR p).
Qed.

Lemma steps_run c :
  match tool_target c with Some p => In p dirs | None => True end ->
  steps R (exec_Run env c).
Proof.
  intros H. by apply (steps_exec_Run R (allows_refl _ _ _ HR)), steps_tool.
Qed.

Lemma steps_writing_in p c report :
  In p files -> steps R (writing p c report).
Proof.
  intros Hin.
  apply (steps_writing R (allows_refl _ _ _ HR) (allows_trans _ _ _ HR)).
  - intros fs fs'. by apply (allows_create _ _ _ HR).
  - intros fs c0. by apply (allows_write _ _ _ HR).
Qed.

Lemma steps_create_in p :
  In p files -> steps R (lift_fs (os_Create p)).
Proof.
  intros Hin. apply (steps_lift_fs R (allows_refl _ _ _ HR)).
  intros fs fs'. by apply (allows_create _ _ _ HR).
Qed.

Lemma steps_write_in p c :
  In p files -> steps R (write p c).
Proof.
  intros Hin. apply (steps_write R (allows_refl _ _ _ HR)).
  intros fs c0. by apply (allows_write _ _ _ HR).
Qed.

Lemma steps_createFile p text :
  In p files -> steps R (createFile p text).
Proof. apply steps_writing_in. Qed.

Lemma steps_createCMakeLists data :
  In (filepath_Join [ProjectName data; "CMakeLists.txt"]) files ->
  steps R (createCMakeLists data).
Proof. apply steps_writing_in. Qed.

Lemma steps_createCMakePresets data :
  In (filepath_Join [ProjectName data; "CMakePresets.json"]) files ->
  steps R (createCMakePresets data).
Proof. apply steps_writing_in. Qed.

Local Ltac leaves Hd Hf :=
  first
    [ apply steps_createFile, Hf
    | apply steps_createCMakeLists, Hf
    | apply steps_createCMakePresets, Hf
    | apply steps_run;
      cbn [tool_target cmd_name cmd_args cmd_Dir word_is String.eqb
           Ascii.eqb Bool.eqb];
      first [exact I | apply Hd]
    | apply steps_writing_in, Hf
    | apply steps_create_in, Hf
    | apply steps_write_in, Hf ];
  unfold project_dirs, project_files, main_files, vcs_dirs, vcs_files;
  simpl; tauto.

Lemma steps_createDirs data ds :
  (forall x, In x ds -> In (filepath_Join [ProjectName data; x]) dirs) ->
  steps R (createDirs data ds).
Proof.
  induction ds as [|x ds IH]; intros Hin; simpl; structure.
  - apply (steps_lift_fs R (allows_refl _ _ _ HR)). intros fs fs'.
    apply (allows_mkdir _ _ _ HR). apply Hin. by left.
  - apply IH. intros y Hy. apply Hin. by right.
Qed.

Lemma steps_createMain data :
  incl (main_files (ProjectName data)) files ->
  steps R (createMain data).
Proof.
  intros Hf. unfold createMain. structure; leaves Hf Hf.
Qed.

Lemma steps_setupVcpkg data :
  incl (project_dirs (ProjectName data)) dirs ->
  incl (project_files (ProjectName data)) files ->
  steps R (setupVcpkg env data).
Proof.
  intros Hd Hf. unfold setupVcpkg, fetchVcpkg, writeManifest, vcpkgStep.
  structure; leaves Hd Hf.
Qed.

Lemma steps_createProjectStructure data :
  incl (project_dirs (ProjectName data)) dirs ->
  incl (project_files (ProjectName data)) files ->
  steps R (createProjectStructure env data).
Proof.
  intros Hd Hf. unfold createProjectStructure. structure.
  - apply steps_createDirs. intros x Hx. apply Hd.
    unfold project_dirs. simpl in *. intuition (subst; auto).
  - apply steps_createCMakeLists, Hf. by left.
  - by apply steps_setupVcpkg.
  - apply steps_createMain. intros p Hp. apply Hf.
    unfold project_files. apply in_or_app. by right.
Qed.

Lemma steps_initializeVersionControl name :
  incl (vcs_dirs name) dirs ->
  incl (vcs_files name) files ->
  steps R (initializeVersionControl env name).
Proof.
  intros Hd Hf. unfold initializeVersionControl. structure; leaves Hd Hf.
Qed.

Lemma steps_getCMakeVersion : steps R (getCMakeVersion env).
Proof.
  unfold getCMakeVersion. structure.
  by apply (steps_exec_Output R (allows_refl _ _ _ HR)), steps_tool.
Qed.

Lemma steps_main f :
  incl (project_dirs (flag_name f) ++ vcs_dirs (flag_name f)) dirs ->
  incl (project_files (flag_name f) ++ vcs_files (flag_name f)) files ->
  steps R (main env f).
Proof.
  intros Hd Hf. unfold main. structure.
  - apply steps_getCMakeVersion.
  - apply steps_createProjectStructure; cbn [newProjectData ProjectName].
    + intros p Hp. apply Hd, in_or_app. by left.
    + intros p Hp. apply Hf, in_or_app. by left.
  - apply steps_initializeVersionControl; cbn [newProjectData ProjectName].
    + intros p Hp. apply Hd, in_or_app. by right.
    + intros p Hp. apply Hf, in_or_app. by right.
Qed.

End ProgramSteps.

(** ** Validation *)

Lemma validate_None f :
  validate f = None <->
  flag_name f <> "" /\ (flag_lang f = "cpp" \/ flag_lang f = "c") /\
  flag_pkgmgr f = "vcpkg".
Proof.
  unfold validate.
  destruct (String.eqb_spec (flag_name f) "") as [Hn|Hn];
  destruct (String.eqb_spec (flag_lang f) "cpp") as [Hcpp|Hcpp];
  destruct (String.eqb_spec (flag_lang f) "c") as [Hc|Hc];
  destruct (String.eqb_spec (flag_pkgmgr f) "vcpkg") as [Hp|Hp];
  simpl; split; try done; try tauto; intros (? & ? & ?); tauto.
Qed.

Lemma main_invalid env f w msg :
  validate f = Some msg -> main env f w = Exit 1 (printed w [msg]).
Proof. intros H. unfold main. by rewrite H. Qed.

(** C6: an empty name, an unsupported language or an unsupported
    package manager ends the run with one of the three configuration
    error messages and exit code 1; the filesystem is as it was and no
    process has been spawned. *)
Theorem C6_config_error_before_any_write env f w :
  flag_name f = "" \/
  (flag_lang f <> "cpp" /\ flag_lang f <> "c") \/
  flag_pkgmgr f <> "vcpkg" ->
  exists msg,
    In msg [msg_name_required; msg_unsupported_lang; msg_unsupported_pkgmgr] /\
    main env f w = Exit 1 (mkWorld (fs w) (stdout w ++ [msg]) (procs w)).
Proof.
  intros H. destruct (validate f) as [msg|] eqn:E.
  - exists msg. split; [| by apply main_invalid].
    unfold validate in E. simpl.
    repeat match type of E with
           | (if ?b then _ else _) = _ => destruct b
           end; first [discriminate | injection E as <-; auto].
  - apply validate_None in E as (? & ? & ?). exfalso.
    destruct H as [? | [[? ?] | ?]]; try done. tauto.
Qed.

Lemma C6_witness :
  exists msg,
    In msg [msg_name_required; msg_unsupported_lang; msg_unsupported_pkgmgr] /\
    main (sample_env "") (mkFlags "" "executable" "cpp" "11" "vcpkg") (start ∅)
    = Exit 1 (mkWorld ∅ ([] ++ [msg]) []).
Proof.
  apply (C6_config_error_before_any_write (sample_env "")
           (mkFlags "" "executable" "cpp" "11" "vcpkg") (start ∅)).
  left. reflexivity.
Defined.

(** ** Derivation *)

(** C5: the build-system language tag and the file extension are a
    function of the language alone: "cpp" gives CXX and cpp, "c" gives
    C and c, whatever the type and the standard, which pass through
    unchanged; and a validated language is one of the two. *)
Theorem C5_derivation f v :
  (flag_lang f = "cpp" ->
   CMakeLang (newProjectData f v) = "CXX" /\
   FileExt (newProjectData f v) = "cpp") /\
  (flag_lang f = "c" ->
   CMakeLang (newProjectData f v) = "C" /\
   FileExt (newProjectData f v) = "c") /\
  (validate f = None -> flag_lang f = "cpp" \/ flag_lang f = "c") /\
  (CMakeLang (newProjectData f v), FileExt (newProjectData f v))
  = derive (Lang (newProjectData f v)) /\
  Type_ (newProjectData f v) = flag_type f /\
  Standard (newProjectData f v) = flag_std f.
Proof.
  cbn [newProjectData CMakeLang FileExt Lang Type_ Standard].
  split; [by intros -> |]. split; [by intros -> |].
  split; [intros H; apply validate_None in H; tauto |].
  by destruct (derive (flag_lang f)).
Qed.

Lemma C5_witness :
  (CMakeLang (newProjectData (demo "cpp" "vcpkg") "3.28.1") = "CXX" /\
   FileExt (newProjectData (demo "cpp" "vcpkg") "3.28.1") = "cpp") /\
  (CMakeLang (newProjectData (demo "c" "vcpkg") "3.28.1") = "C" /\
   FileExt (newProjectData (demo "c" "vcpkg") "3.28.1") = "c").
Proof.
  split.
  - apply (C5_derivation (demo "cpp" "vcpkg") "3.28.1"). reflexivity.
  - apply (C5_derivation (demo "c" "vcpkg") "3.28.1"). reflexivity.
Defined.

(** ** The version-control prompt *)

Lemma cons_app {A} (l : list A) (x y : A) : (l ++ [x]) ++ [y] = l ++ [x; y].
Proof. by rewrite <- app_assoc. Qed.

(** An answer other than "y" and "yes": the step prints the prompt
    and the skip message, and that is all. *)
Lemma initializeVersionControl_skipped env projectPath w :
  answer env <> "y" -> answer env <> "yes" ->
  initializeVersionControl env projectPath w
  = Ret tt (mkWorld (fs w) (stdout w ++ [prompt; msg_skipped]) (procs w)).
Proof.
  intros Hy Hyes. unfold initializeVersionControl. fold (answer env).
  apply String.eqb_neq in Hy, Hyes. rewrite Hy, Hyes. simpl.
  rewrite bind_unfold. simpl. unfold emit. simpl. by rewrite cons_app.
Qed.

(** C10: any answer that, lowercased and trimmed, is neither "y" nor
    "yes" skips the step: it returns having printed the prompt and the
    skip message, with the filesystem and the list of spawned processes
    as they were. *)
Theorem C10_other_answers_skip env projectPath w :
  answer env <> "y" -> answer env <> "yes" ->
  exists w',
    initializeVersionControl env projectPath w = Ret tt w' /\
    fs w' = fs w /\
    procs w' = procs w /\
    stdout w' = stdout w ++ [prompt; msg_skipped].
Proof.
  intros Hy Hyes. rewrite initializeVersionControl_skipped by done.
  eexists. split; [reflexivity |]. by repeat split.
Qed.

Lemma C10_witness :
  exists w',
    initializeVersionControl (sample_env "maybe") "demo" (start ∅)
    = Ret tt w' /\
    fs w' = fs (start ∅) /\
    procs w' = procs (start ∅) /\
    stdout w' = stdout (start ∅) ++ [prompt; msg_skipped].
Proof.
  apply (C10_other_answers_skip (sample_env "maybe") "demo" (start ∅));
    vm_compute; discriminate.
Defined.

(** ** Making a file *)

Lemma writing_Ret p c report w w' :
  writing p c report w = Ret tt w' ->
  w' = mkWorld (<[p := File c]> (fs w)) (stdout w) (procs w) /\
  os_Stat (fs w) p <> Some Dir /\
  os_Stat (fs w) (parent p) = Some Dir.
Proof.
  unfold writing. rewrite bind_unfold. unfold lift_fs.
  destruct (os_Create p (fs w)) as [e|fs'] eqn:E; [done |].
  apply Create_inv in E as (-> & Hp & Hup).
  unfold write. simpl. rewrite lookup_insert_eq. intros [= <-].
  by rewrite insert_insert_eq.
Qed.

Lemma writing_ok p c report w :
  os_Stat (fs w) p <> Some Dir ->
  os_Stat (fs w) (parent p) = Some Dir ->
  writing p c report w
  = Ret tt (mkWorld (<[p := File c]> (fs w)) (stdout w) (procs w)).
Proof.
  intros Hp Hup. unfold writing. rewrite bind_unfold. unfold lift_fs.
  rewrite (Create_ok _ _ Hp Hup). unfold write. simpl.
  by rewrite lookup_insert_eq, insert_insert_eq.
Qed.

(** ** The starter file *)

(** C1, at the failing input: for language "c" the file written to
    src/main.c is the C++ template, the very text written to
    src/main.cpp for "cpp": it streams to [std::cout] and includes
    pch.hpp. *)
Theorem C1_main_c_is_the_cpp_template data w w' :
  Lang data = "c" ->
  createMain data w = Ret tt w' ->
  fs w' !! filepath_Join [ProjectName data; "src"; "main.c"]
  = Some (File (Bytes cppMainTemplate)) /\
  Str.contains "std::cout" cppMainTemplate = true /\
  Str.contains "pch.hpp" cppMainTemplate = true.
Proof.
  intros HL H. unfold createMain in H. rewrite HL in H. simpl in H.
  apply writing_Ret in H as (-> & _). simpl.
  by rewrite lookup_insert_eq.
Qed.

Lemma C1_witness :
  fs (final (createMain (newProjectData (demo "c" "vcpkg") "3.28.1")
               (start {[ (false, ["src"; "demo"]) := Dir ]})))
    !! filepath_Join ["demo"; "src"; "main.c"]
  = Some (File (Bytes cppMainTemplate)) /\
  Str.contains "std::cout" cppMainTemplate = true /\
  Str.contains "pch.hpp" cppMainTemplate = true.
Proof.
  apply (C1_main_c_is_the_cpp_template
           (newProjectData (demo "c" "vcpkg") "3.28.1")
           (start {[ (false, ["src"; "demo"]) := Dir ]}));
    reflexivity.
Defined.

(** The whole run for language "c" in an empty directory: src/main.c
    holds the C++ template, and the header it includes is not there. *)
Example C1_run_for_c :
  let w := final (main (sample_env "n") (demo "c" "vcpkg") (start ∅)) in
  fs w !! (false, ["main.c"; "src"; "demo"])
  = Some (File (Bytes cppMainTemplate)) /\
  fs w !! (false, ["pch.hpp"; "include"; "demo"]) = None /\
  fs (final (main (sample_env "n") (demo "cpp" "vcpkg") (start ∅)))
    !! (false, ["main.cpp"; "src"; "demo"])
  = Some (File (Bytes cppMainTemplate)).
Proof. vm_compute. done. Qed.

(** ** The build manifest *)

Lemma cat_cons x l : Str.cat (x :: l) = x +:+ Str.cat l.
Proof. reflexivity. Qed.

Lemma version_lacks out v c :
  Re.FindStringSubmatch out = Some v ->
  is_version_byte c = false ->
  Str.mem c v = false.
Proof.
  intros H Hc. apply (all_mem is_version_byte); [| done].
  by apply FindStringSubmatch_bytes in H.
Qed.

(** Adjacent literal chunks taken together. *)
Local Ltac grouped l :=
  lazymatch l with
  | ?x :: ?y :: ?r =>
      lazymatch x with
      | String _ _ =>
          lazymatch y with
          | String _ _ =>
              let xy := eval vm_compute in (x +:+ y) in grouped (xy :: r)
          | _ => let r' := grouped (y :: r) in constr:(x :: r')
          end
      | _ => let r' := grouped (y :: r) in constr:(x :: r')
      end
  | _ => l
  end.

Local Ltac group_chunks :=
  lazymatch goal with
  | |- Str.contains _ (Str.cat ?l) = _ =>
      let l' := grouped l in change (Str.cat l) with (Str.cat l')
  end.

Local Ltac literal_chunks :=
  cbn [chunks_ok];
  repeat match goal with
    | |- _ /\ _ => split
    | |- chunk_ok _ _ (String _ _) => by left; vm_compute
    | |- chunk_ok _ _ _ => right
    | |- Str.contains _ (String _ _) = false => by vm_compute
    end.

(** C4: for name "demo", type executable and standard 17, with the
    version the probe found, the manifest for "cpp" has the line
    [set(CMAKE_CXX_STANDARD 17)] and the line
    [add_executable(demo src/main.cpp)]; the manifest for "c" mentions
    no CMAKE_CXX_STANDARD at all and has the line
    [set(CMAKE_C_STANDARD 17)]. *)
Theorem C4_manifest_of_demo out v :
  Re.FindStringSubmatch out = Some v ->
  let cpp := Execute cmakeTemplate (newProjectData (demo "cpp" "vcpkg") v) in
  let c := Execute cmakeTemplate (newProjectData (demo "c" "vcpkg") v) in
  Str.has_line_starting "set(CMAKE_CXX_STANDARD 17)" cpp = true /\
  Str.has_line_starting "add_executable(demo src/main.cpp)" cpp = true /\
  Str.contains "CMAKE_CXX_STANDARD" c = false /\
  Str.has_line_starting "set(CMAKE_C_STANDARD 17)" c = true.
Proof.
  intros Hv cpp c. subst cpp c. unfold Execute, Str.has_line_starting.
  set (lcpp := chunks _ _). set (lc := chunks _ _).
  vm_compute in lcpp, lc. subst lcpp lc.
  repeat split.
  - apply orb_true_iff. right. rewrite !cat_cons.
    apply contains_app_r, contains_app_r. by vm_compute.
  - apply orb_true_iff. right. rewrite !cat_cons.
    apply contains_app_r, contains_app_r. by vm_compute.
  - group_chunks.
    apply (contains_cat_false "C"%char "MAKE_CXX_STANDARD").
    literal_chunks. by apply (version_lacks out).
  - apply orb_true_iff. right. rewrite !cat_cons.
    apply contains_app_r, contains_app_r. by vm_compute.
Qed.

Lemma C4_witness :
  let cpp :=
    Execute cmakeTemplate (newProjectData (demo "cpp" "vcpkg") "3.28.1") in
  let c :=
    Execute cmakeTemplate (newProjectData (demo "c" "vcpkg") "3.28.1") in
  Str.has_line_starting "set(CMAKE_CXX_STANDARD 17)" cpp = true /\
  Str.has_line_starting "add_executable(demo src/main.cpp)" cpp = true /\
  Str.contains "CMAKE_CXX_STANDARD" c = false /\
  Str.has_line_starting "set(CMAKE_C_STANDARD 17)" c = true.
Proof.
  apply (C4_manifest_of_demo ("cmake version 3.28.1" +:+ LF) "3.28.1").
  reflexivity.
Defined.

(** ** Declining version control *)

Lemma Join1 name x :
  name <> "" -> plain x = true ->
  filepath_Join [name; x]
  = ((filepath_Clean name).1, x :: (filepath_Clean name).2).
Proof.
  intros Hn Hx. rewrite Join_under; [done | done | done |].
  simpl. by rewrite Hx.
Qed.

Lemma Join2 name x y :
  name <> "" -> plain x = true -> plain y = true ->
  filepath_Join [name; x; y]
  = ((filepath_Clean name).1, y :: x :: (filepath_Clean name).2).
Proof.
  intros Hn Hx Hy. rewrite Join_under; [done | done | done |].
  simpl. by rewrite Hx, Hy.
Qed.

Lemma upto_child (r : bool) (x : string) (rt : list string) (q : path) :
  upto (r, x :: rt) q ->
  q = (r, x :: rt) \/ (q.1 = r /\ q.2 `suffix_of` rt).
Proof.
  destruct q as [r' cs]. intros (Hr & Hs & Hne). simpl in *. subst r'.
  destruct cs as [|c cs]; [done |].
  apply suffix_cons_inv in Hs as [-> | Hs]; [by left | by right].
Qed.

Local Ltac joins Hn :=
  unfold project_dirs, project_files, main_files, vcs_dirs, vcs_files in *;
  rewrite ?(Join1 _ _ Hn), ?(Join2 _ _ _ Hn) in * by reflexivity.

(** The paths of the version-control step are none of those the
    generation makes or walks through. *)
Lemma vcs_paths_apart name (q : path) :
  name <> "" ->
  In q (vcs_files name ++ vcs_dirs name) ->
  (forall p, In p (project_dirs name) -> ~ upto p q) /\
  ~ In q (project_files name).
Proof.
  intros Hn Hq. joins Hn.
  destruct (filepath_Clean name) as [r rt]. simpl in *.
  split.
  - intros p Hp Hup.
    assert (exists x, p = (r, x :: rt) /\
                      In x ["src"; "include"; "build"; "vcpkg"])
      as (x & -> & Hx).
    { simpl. destruct Hp as [<- | [<- | [<- | [<- | []]]]]; eauto 10. }
    apply upto_child in Hup as [-> | [_ Hs]].
    + simpl in Hx. intuition congruence.
    + destruct Hq as [<- | [<- | [<- | []]]]; by apply not_suffix_cons in Hs.
  - intros Hin. intuition congruence.
Qed.

(** C8: when the answer at the prompt is "n", the whole run leaves
    .gitignore, .gitattributes and .git of the project as they were
    before it started (absent, in a new project), and the prompt step
    itself returns having only printed: the files generated before it
    are as written and no process was spawned by it. *)
Theorem C8_declining_creates_nothing env f w :
  answer env = "n" ->
  (forall p,
     In p (vcs_files (flag_name f) ++ vcs_dirs (flag_name f)) ->
     fs (final (main env f w)) !! p = fs w !! p) /\
  (forall w1,
     initializeVersionControl env (flag_name f) w1
     = Ret tt (mkWorld (fs w1) (stdout w1 ++ [prompt; msg_skipped])
                       (procs w1))).
Proof.
  intros Hans.
  assert (forall w1,
     initializeVersionControl env (flag_name f) w1
     = Ret tt (mkWorld (fs w1) (stdout w1 ++ [prompt; msg_skipped])
                       (procs w1))) as Hskip.
  { intros w1. apply initializeVersionControl_skipped; by rewrite Hans. }
  split; [| done]. intros p Hp.
  unfold main. destruct (validate f) as [msg|] eqn:Hval; [done |].
  apply validate_None in Hval as (Hn & _).
  destruct (vcs_paths_apart _ _ Hn Hp) as [Hdirs Hfiles].
  set (S := fun q : path => q <> p).
  assert (allows (only_at S) (project_dirs (flag_name f))
            (project_files (flag_name f))) as HS.
  { apply allows_only_at.
    - intros d q Hd Hup ->. by apply (Hdirs d).
    - by intros d Hd ->. }
  assert (~ S p) as HnS by (unfold S; tauto).
  rewrite bind_unfold.
  pose proof (steps_getCMakeVersion env _ _ _ HS w p HnS) as H1.
  destruct (getCMakeVersion env w) as [[e|v] w1|code w1];
    cbn [final fs] in H1; [done | | done].
  rewrite bind_unfold.
  pose proof (steps_createProjectStructure env _ _ _ HS
                (newProjectData f v) (incl_refl _) (incl_refl _) w1 p HnS)
    as H2.
  destruct (createProjectStructure env (newProjectData f v) w1)
    as [[] w2|code w2]; cbn [final fs] in H2 |- *; [| by rewrite H2].
  cbn [newProjectData ProjectName]. rewrite Hskip. cbn [final fs].
  by rewrite H2.
Qed.

Lemma C8_witness :
  (forall p,
     In p (vcs_files "demo" ++ vcs_dirs "demo") ->
     fs (final (main (sample_env ("n" +:+ LF)) (demo "cpp" "vcpkg") (start ∅)))
       !! p = (∅ : FS) !! p) /\
  (forall w1,
     initializeVersionControl (sample_env ("n" +:+ LF)) "demo" w1
     = Ret tt (mkWorld (fs w1) (stdout w1 ++ [prompt; msg_skipped])
                       (procs w1))).
Proof.
  apply (C8_declining_creates_nothing (sample_env ("n" +:+ LF))
           (demo "cpp" "vcpkg") (start ∅)).
  reflexivity.
Defined.

(** ** The package manager *)

Lemma emit_Ret o w a w' :
  emit o w = Ret a w' -> w' = mkWorld (fs w) (stdout w ++ [o]) (procs w).
Proof. by intros [= _ <-]. Qed.

Lemma main_files_apart name :
  name <> "" ->
  ~ In (filepath_Join [name; "vcpkg.json"]) (main_files name) /\
  ~ In (filepath_Join [name; "CMakePresets.json"]) (main_files name) /\
  ~ In (filepath_Join [name; "CMakeLists.txt"]) (main_files name) /\
  filepath_Join [name; "CMakePresets.json"]
  <> filepath_Join [name; "vcpkg.json"].
Proof.
  intros Hn. joins Hn. destruct (filepath_Clean name) as [r rt].
  simpl. intuition congruence.
Qed.

(** What [createMain] leaves alone. *)
Lemma createMain_frame data w p :
  ~ In p (main_files (ProjectName data)) ->
  fs (final (createMain data w)) !! p = fs w !! p.
Proof.
  intros Hp.
  assert (allows (only_at (fun q => In q (main_files (ProjectName data))))
            [] (main_files (ProjectName data))) as HS.
  { apply allows_only_at; [by intros ? ? [] | done]. }
  by apply (steps_createMain _ _ _ HS data (incl_refl _) w p).
Qed.

Lemma setupVcpkg_Ret env data w w' :
  ProjectName data <> "" ->
  setupVcpkg env data w = Ret tt w' ->
  fs w' !! filepath_Join [ProjectName data; "vcpkg.json"]
  = Some (File (MarshalIndent vcpkg_manifest "" "  ")) /\
  fs w' !! filepath_Join [ProjectName data; "CMakePresets.json"]
  = Some (File (MarshalIndent (presets data) "" "  ")).
Proof.
  intros Hn H. unfold setupVcpkg in H.
  apply bind_Ret_inv in H as ([] & w1 & _ & H).
  apply bind_Ret_inv in H as ([] & w2 & H2 & H3).
  apply writing_Ret in H2 as (-> & _).
  apply writing_Ret in H3 as (-> & _). simpl.
  destruct (main_files_apart _ Hn) as (_ & _ & _ & Hne).
  split; [| apply lookup_insert_eq].
  rewrite lookup_insert_ne by done. apply lookup_insert_eq.
Qed.

(** The run for package manager "none" stops at the third check. *)
Lemma C3_none_is_rejected :
  validate (demo "cpp" "none") = Some msg_unsupported_pkgmgr /\
  main (sample_env "n") (demo "cpp" "none") (start ∅)
  = Exit 1 (mkWorld ∅ [msg_unsupported_pkgmgr] []).
Proof. split; reflexivity. Qed.

(** C3, amended: the package manager is "vcpkg" or the run fails.
    With a name and a supported language, any other value, "none"
    included, prints the unsupported-package-manager error and exits
    with status 1, the filesystem untouched; with "vcpkg" (the flag's
    default) validation passes, and a generation that completes has
    written vcpkg.json and CMakePresets.json. *)
Theorem C3_only_vcpkg_is_accepted env f w :
  flag_name f <> "" ->
  flag_lang f = "cpp" \/ flag_lang f = "c" ->
  (flag_pkgmgr f <> "vcpkg" ->
   main env f w
   = Exit 1 (mkWorld (fs w) (stdout w ++ [msg_unsupported_pkgmgr]) (procs w)))
  /\
  (flag_pkgmgr f = "vcpkg" ->
   validate f = None /\
   forall v w1 w2,
     createProjectStructure env (newProjectData f v) w1 = Ret tt w2 ->
     fs w2 !! filepath_Join [flag_name f; "vcpkg.json"]
     = Some (File (MarshalIndent vcpkg_manifest "" "  ")) /\
     fs w2 !! filepath_Join [flag_name f; "CMakePresets.json"]
     = Some (File (MarshalIndent (presets (newProjectData f v)) "" "  "))).
Proof.
  intros Hn Hl. split.
  - intros Hp. apply main_invalid. unfold validate.
    apply String.eqb_neq in Hn, Hp. rewrite Hn, Hp.
    by destruct Hl as [-> | ->].
  - intros Hp. split; [by apply validate_None |].
    intros v w1 w2 H. unfold createProjectStructure in H.
    apply bind_Ret_inv in H as ([] & wa & _ & H).
    apply bind_Ret_inv in H as ([] & wb & _ & H).
    cbn [newProjectData PackageMgr] in H. rewrite Hp in H.
    change (String.eqb "vcpkg" "vcpkg") with true in H. cbv iota in H.
    apply bind_Ret_inv in H as ([] & wc & Hc & H).
    apply bind_Ret_inv in H as ([] & wd & Hd & H).
    apply emit_Ret in H as ->. cbn [fs].
    apply setupVcpkg_Ret in Hc as [Hm Hpre]; [| done].
    cbn [newProjectData ProjectName] in Hm, Hpre.
    destruct (main_files_apart _ Hn) as (H1 & H2 & _).
    pose proof (createMain_frame (newProjectData f v) wc) as Hfr.
    rewrite Hd in Hfr. cbn [final newProjectData ProjectName] in Hfr.
    rewrite !Hfr by done. done.
Qed.

Lemma C3_witness :
  (flag_pkgmgr (demo "cpp" "none") <> "vcpkg" ->
   main (sample_env "n") (demo "cpp" "none") (start ∅)
   = Exit 1 (mkWorld ∅ ([] ++ [msg_unsupported_pkgmgr]) []))
  /\
  (flag_pkgmgr (demo "cpp" "none") = "vcpkg" ->
   validate (demo "cpp" "none") = None /\
   forall v w1 w2,
     createProjectStructure (sample_env "n")
       (newProjectData (demo "cpp" "none") v) w1 = Ret tt w2 ->
     fs w2 !! filepath_Join ["demo"; "vcpkg.json"]
     = Some (File (MarshalIndent vcpkg_manifest "" "  ")) /\
     fs w2 !! filepath_Join ["demo"; "CMakePresets.json"]
     = Some (File (MarshalIndent
                     (presets (newProjectData (demo "cpp" "none") v))
                     "" "  "))).
Proof.
  apply (C3_only_vcpkg_is_accepted (sample_env "n") (demo "cpp" "none")
           (start ∅)).
  - discriminate.
  - left. reflexivity.
Defined.

(** ** Directory creation *)

Lemma createDirs_keeps data ds w :
  keeps_dirs (fs w) (fs (final (createDirs data ds w))).
Proof.
  apply (steps_createDirs keeps_dirs
           (map (fun x => filepath_Join [ProjectName data; x]) ds) []
           (allows_keeps_dirs _ _)).
  intros x Hx.
  exact (List.in_map (fun x => filepath_Join [ProjectName data; x]) ds x Hx).
Qed.

Lemma createDirs_Ret data ds w w' :
  createDirs data ds w = Ret tt w' ->
  forall x, In x ds ->
    os_Stat (fs w') (filepath_Join [ProjectName data; x]) = Some Dir.
Proof.
  revert w. induction ds as [|d ds IH]; intros w H x Hx; [done |].
  simpl in H. rewrite bind_unfold in H. unfold lift_fs in H.
  destruct (os_MkdirAll _ (fs w)) as [e|fs1] eqn:E; [done |].
  destruct Hx as [<- | Hx]; [| by apply (IH _ H)].
  pose proof (createDirs_keeps data ds (mkWorld fs1 (stdout w) (procs w)))
    as Hkeep.
  rewrite H in Hkeep. apply Hkeep. cbn [fs].
  destruct (filepath_Join [ProjectName data; d]) as [r cs].
  by apply MkdirAll_dir in E.
Qed.

Lemma createDirs_existing data ds w :
  (forall x, In x ds ->
     os_Stat (fs w) (filepath_Join [ProjectName data; x]) = Some Dir) ->
  createDirs data ds w = Ret tt w.
Proof.
  induction ds as [|d ds IH]; intros H; [done |].
  simpl. rewrite bind_unfold. unfold lift_fs.
  rewrite MkdirAll_existing by (apply H; by left).
  rewrite World_eta. apply IH. intros x Hx. apply H. by right.
Qed.

(** C7: making a directory that exists succeeds and changes nothing;
    so the directory loop, run again on the tree it has made, succeeds
    and changes nothing; and so does the directory loop of a second
    generation pass run on the tree a completed first pass has left. *)
Theorem C7_directory_creation_is_idempotent :
  (forall (p : path) (disk : FS),
     os_Stat disk p = Some Dir -> os_MkdirAll p disk = inr disk) /\
  (forall data ds w w1,
     createDirs data ds w = Ret tt w1 -> createDirs data ds w1 = Ret tt w1) /\
  (forall env data w w1,
     createProjectStructure env data w = Ret tt w1 ->
     createDirs data ["src"; "include"; "build"] w1 = Ret tt w1).
Proof.
  split; [exact MkdirAll_existing |]. split.
  - intros data ds w w1 H. apply createDirs_existing.
    by apply (createDirs_Ret _ _ _ _ H).
  - intros env data w w1 H. apply createDirs_existing. intros x Hx.
    unfold createProjectStructure in H.
    apply bind_Ret_inv in H as ([] & wa & Ha & H).
    pose proof (createDirs_Ret _ _ _ _ Ha x Hx) as Hdir.
    pose proof (steps_createProjectStructure env keeps_dirs _ _
                  (allows_keeps_dirs _ _) data (incl_refl _) (incl_refl _) wa)
      as Hkeep.
    unfold createProjectStructure in Hkeep.
    rewrite (bind_Ret _ _ wa tt wa) in Hkeep.
    + rewrite H in Hkeep. by apply Hkeep.
    + apply createDirs_existing. by apply (createDirs_Ret _ _ _ _ Ha).
Qed.

Lemma C7_witness :
  createDirs (newProjectData (demo "cpp" "vcpkg") "3.28.1")
    ["src"; "include"; "build"]
    (final (createProjectStructure (sample_env "n")
              (newProjectData (demo "cpp" "vcpkg") "3.28.1") (start ∅)))
  = Ret tt
      (final (createProjectStructure (sample_env "n")
                (newProjectData (demo "cpp" "vcpkg") "3.28.1") (start ∅))).
Proof.
  apply (proj2 (proj2 C7_directory_creation_is_idempotent) (sample_env "n")
           (newProjectData (demo "cpp" "vcpkg") "3.28.1") (start ∅)).
  vm_compute. reflexivity.
Defined.

(** ** Exit codes and failing commands *)

Local Ltac decompose_with Lret Lexit Lemit Lstat Lbind :=
  repeat match goal with
    | |- _ (mret _) => apply Lret
    | |- _ (os_Exit _) => apply Lexit
    | |- _ (emit _) => apply Lemit
    | |- _ (stat _) => apply Lstat
    | |- _ (_ ≫= _) => apply Lbind; [| intros ?]
    | |- _ (match ?x with _ => _ end) => destruct x
    end.

Lemma exits_1_ret {A} (a : A) : exits_1 (mret a).
Proof. by intros w code w'. Qed.

Lemma exits_1_exit {A} : exits_1 (@os_Exit A 1).
Proof. by intros w code w' [= <- _]. Qed.

Lemma exits_1_emit o : exits_1 (emit o).
Proof. by intros w code w'. Qed.

Lemma exits_1_stat p : exits_1 (stat p).
Proof. by intros w code w'. Qed.

Lemma exits_1_bind {A B} (m : M A) (k : A -> M B) :
  exits_1 m -> (forall a, exits_1 (k a)) -> exits_1 (m ≫= k).
Proof.
  intros Hm Hk w code w'. rewrite bind_unfold.
  destruct (m w) as [a w1|code1 w1] eqn:E.
  - apply Hk.
  - intros [= <- _]. by apply (Hm _ _ _ E).
Qed.

Lemma exits_1_lift_fs op : exits_1 (lift_fs op).
Proof. intros w code w'. unfold lift_fs. by destruct (op (fs w)). Qed.

Lemma exits_1_write p c : exits_1 (write p c).
Proof. intros w code w'. unfold write. by destruct (fs w !! p) as [[|?]|]. Qed.

Lemma exits_1_exec_Run env c : exits_1 (exec_Run env c).
Proof. intros w code w'. unfold exec_Run. by destruct (cmd_result env c). Qed.

Lemma exits_1_exec_Output env c : exits_1 (exec_Output env c).
Proof. intros w code w'. unfold exec_Output. by destruct (cmd_result env c). Qed.

Local Ltac exits :=
  decompose_with @exits_1_ret @exits_1_exit exits_1_emit exits_1_stat
                 @exits_1_bind;
  try first [ apply exits_1_lift_fs | apply exits_1_write
            | apply exits_1_exec_Run | apply exits_1_exec_Output ].

Lemma exits_1_createDirs data ds : exits_1 (createDirs data ds).
Proof. induction ds as [|d ds IH]; simpl; exits. apply IH. Qed.

Lemma exits_1_createProjectStructure env data :
  exits_1 (createProjectStructure env data).
Proof.
  unfold createProjectStructure, createCMakeLists, setupVcpkg, fetchVcpkg,
    vcpkgStep, writeManifest, createCMakePresets, createMain, createFile.
  exits. apply exits_1_createDirs.
Qed.

Lemma exits_1_initializeVersionControl env name :
  exits_1 (initializeVersionControl env name).
Proof. unfold initializeVersionControl, createFile. exits. Qed.

Lemma exits_1_main env f : exits_1 (main env f).
Proof.
  unfold main, getCMakeVersion. exits.
  - apply exits_1_createProjectStructure.
  - apply exits_1_initializeVersionControl.
Qed.

Section Spawns.

Context (env : Env) (harmless : list Cmd).

Local Abbreviation ok := (fails_only env harmless).

Lemma spawns_quiet {A} (m : M A) :
  (forall w a w', m w = Ret a w' -> procs w' = procs w) -> spawns ok m.
Proof.
  intros H w a w' E. exists []. rewrite app_nil_r. split; [| done].
  by apply (H _ _ _ E).
Qed.

Lemma spawns_ret {A} (a : A) : spawns ok (mret a).
Proof. apply spawns_quiet. by intros w b w' [= _ <-]. Qed.

Lemma spawns_exit {A} code : spawns ok (@os_Exit A code).
Proof. by intros w a w'. Qed.

Lemma spawns_emit o : spawns ok (emit o).
Proof. apply spawns_quiet. by intros w b w' [= _ <-]. Qed.

Lemma spawns_stat p : spawns ok (stat p).
Proof. apply spawns_quiet. by intros w b w' [= _ <-]. Qed.

Lemma spawns_lift_fs op : spawns ok (lift_fs op).
Proof.
  apply spawns_quiet. intros w b w'. unfold lift_fs.
  by destruct (op (fs w)); intros [= _ <-].
Qed.

Lemma spawns_write p c : spawns ok (write p c).
Proof.
  apply spawns_quiet. intros w b w'. unfold write.
  by destruct (fs w !! p) as [[|?]|]; intros [= _ <-].
Qed.

Lemma spawns_bind {A B} (m : M A) (k : A -> M B) :
  spawns ok m -> (forall a, spawns ok (k a)) -> spawns ok (m ≫= k).
Proof.
  intros Hm Hk w b w' H.
  apply bind_Ret_inv in H as (a & w1 & H1 & H2).
  destruct (Hm _ _ _ H1) as (l1 & E1 & F1).
  destruct (Hk _ _ _ _ H2) as (l2 & E2 & F2).
  exists (l1 ++ l2). split.
  - by rewrite E2, E1, app_assoc.
  - by apply Forall_app.
Qed.

(** A command whose failure is tolerated. *)
Lemma spawns_exec_Run c : In c harmless -> spawns ok (exec_Run env c).
Proof.
  intros Hc w a w' H. exists [c]. split.
  - unfold exec_Run in H. by destruct (cmd_result env c); injection H as _ <-.
  - apply List.Forall_cons; [by intros _ | apply List.Forall_nil].
Qed.

(** A command whose failure ends the run. *)
Lemma spawns_vcpkgStep announce c : spawns ok (vcpkgStep env announce c).
Proof.
  intros w a w' H. unfold vcpkgStep in H.
  apply bind_Ret_inv in H as ([] & w1 & ->%emit_Ret & H).
  rewrite bind_unfold in H. unfold exec_Run in H. cbn [procs fs stdout] in H.
  destruct (cmd_result env c) as [out|] eqn:E; [| done].
  injection H as _ <-. exists [c]. split; [done |].
  apply List.Forall_cons; [| apply List.Forall_nil].
  intros Hnone. congruence.
Qed.

Local Ltac quiet :=
  decompose_with @spawns_ret @spawns_exit spawns_emit spawns_stat
                 @spawns_bind;
  try first [ apply spawns_lift_fs | apply spawns_write
            | apply spawns_vcpkgStep ].

Lemma spawns_createDirs data ds : spawns ok (createDirs data ds).
Proof. induction ds as [|d ds IH]; simpl; quiet. apply IH. Qed.

Lemma spawns_createProjectStructure data :
  spawns ok (createProjectStructure env data).
Proof.
  unfold createProjectStructure, createCMakeLists, setupVcpkg, fetchVcpkg,
    writeManifest, createCMakePresets, createMain, createFile.
  quiet. apply spawns_createDirs.
Qed.

Lemma spawns_initializeVersionControl name :
  In (git_init name) harmless -> In (git_add name) harmless ->
  spawns ok (initializeVersionControl env name).
Proof.
  intros Hi Ha. unfold initializeVersionControl, createFile.
  quiet; by apply spawns_exec_Run.
Qed.

Lemma getCMakeVersion_Ret w v w' :
  getCMakeVersion env w = Ret (inr v) w' ->
  procs w' = procs w ++ [cmake_version] /\
  exists out, cmd_result env cmake_version = Some out /\
              Re.FindStringSubmatch out = Some v.
Proof.
  unfold getCMakeVersion. rewrite bind_unfold. unfold exec_Output.
  fold cmake_version.
  destruct (cmd_result env cmake_version) as [out|]; [| done].
  destruct (Re.FindStringSubmatch out) as [v'|] eqn:E; [| done].
  intros [= <- <-]. eauto.
Qed.

Lemma spawns_main f :
  In (git_init (flag_name f)) harmless ->
  In (git_add (flag_name f)) harmless ->
  spawns ok (main env f).
Proof.
  intros Hi Ha w a w' H. unfold main in H.
  destruct (validate f); [done |].
  apply bind_Ret_inv in H as ([e|v] & w1 & H1 & H); [done |].
  apply getCMakeVersion_Ret in H1 as (E1 & out & Hout & _).
  assert (spawns ok
            (createProjectStructure env (newProjectData f v);;
             initializeVersionControl env
               (ProjectName (newProjectData f v)))) as Hrest.
  { apply spawns_bind; [apply spawns_createProjectStructure |].
    intros _. by apply spawns_initializeVersionControl. }
  destruct (Hrest _ _ _ H) as (l & E & F).
  exists (cmake_version :: l). split.
  - rewrite E, E1. by rewrite <- app_assoc.
  - apply List.Forall_cons; [| done]. intros Hnone. congruence.
Qed.

End Spawns.


Lemma initializeVersionControl_failed_init env name w :
  cmd_result env (git_init name) = None ->
  exit_code (initializeVersionControl env name w) = 0%Z /\
  fs (final (initializeVersionControl env name w)) = fs w.
Proof.
  intros Hnone. unfold initializeVersionControl.
  destruct (_ || _); [| done].
  rewrite bind_unfold. cbn [emit]. rewrite bind_unfold.
  unfold exec_Run. fold (git_init name). rewrite Hnone. done.
Qed.

Lemma initializeVersionControl_add env env' name w :
  stdin env' = stdin env ->
  (forall c, c <> git_add name -> cmd_result env' c = cmd_result env c) ->
  exit_code (initializeVersionControl env' name w)
  = exit_code (initializeVersionControl env name w) /\
  fs (final (initializeVersionControl env' name w))
  = fs (final (initializeVersionControl env name w)).
Proof.
  intros Hin Hsame. unfold initializeVersionControl. rewrite Hin.
  destruct (_ || _); [| done].
  rewrite !(bind_unfold (emit _)). cbn [emit].
  rewrite !(bind_unfold (exec_Run _ _)). unfold exec_Run.
  fold (git_init name) (git_add name).
  rewrite (Hsame (git_init name)) by done.
  destruct (cmd_result env (git_init name)) as [out|];
    [| split; reflexivity].
  cbn [fs stdout procs].
  set (w1 := mkWorld _ _ _).
  rewrite !(bind_unfold (createFile _ _)).
  destruct (createFile _ gitignoreTemplate w1) as [[] w2|code w2];
    [| split; reflexivity].
  rewrite !(bind_unfold (createFile _ _)).
  destruct (createFile _ gitattributesTemplate w2) as [[] w3|code w3];
    [| split; reflexivity].
  rewrite !bind_unfold.
  destruct (cmd_result env' (git_add name)), (cmd_result env (git_add name));
    split; reflexivity.
Qed.



(** ** Generation in an empty directory *)

Lemma MkdirAll_no_files (r : bool) (cs : list string) (fs fs' : FS) :
  no_files fs -> MkdirAll_from r cs fs = inr fs' -> no_files fs'.
Proof.
  intros Hnf H q c Hq.
  destruct (MkdirAll_lookup _ _ _ _ H q) as [E | (_ & E & _)];
    [| congruence].
  rewrite E in Hq. by apply Hnf in Hq.
Qed.

Lemma MkdirAll_closed (r : bool) (cs : list string) (fs fs' : FS) :
  closed fs -> MkdirAll_from r cs fs = inr fs' -> closed fs'.
Proof.
  revert fs fs'. induction cs as [|c up IH]; intros fs fs' Hc H.
  { simpl in H. by injection H as <-. }
  rewrite MkdirAll_unfold in H.
  destruct (fs !! (r, c :: up)) as [[|?]|] eqn:Ep;
    [by injection H as <- | done |].
  destruct (MkdirAll_from r up fs) as [e|fs1] eqn:Eup; [done |].
  pose proof (IH _ _ Hc Eup) as Hc1.
  destruct (os_Mkdir (r, c :: up) fs1) as [e|fs2] eqn:Emk.
  { destruct (os_Stat fs1 (r, c :: up)) as [[|?]|]; [| done | done].
    by injection H as <-. }
  injection H as <-. apply Mkdir_inv in Emk as (-> & Hnone & Hpar).
  intros r' c' up' Hsome.
  destruct (decide ((r, c :: up) = (r', c' :: up'))) as [[= <- <- <-] | Hne].
  - rewrite Stat_insert_ne; [done |].
    intros [= E]. by apply cons_ne in E.
  - rewrite lookup_insert_ne in Hsome by done. apply Hc1 in Hsome.
    destruct (decide ((r, c :: up) = (r', up'))) as [<- | Hne'].
    + apply lookup_insert_eq.
    + by rewrite Stat_insert_ne.
Qed.

Lemma MkdirAll_fresh (p : path) (fs : FS) :
  no_files fs -> closed fs ->
  exists fs', os_MkdirAll p fs = inr fs' /\ no_files fs' /\ closed fs'.
Proof.
  intros Hnf Hc. destruct p as [r cs]. unfold os_MkdirAll. simpl.
  destruct (MkdirAll_succeeds r cs fs) as [fs' E].
  { intros q c _. apply Hnf. }
  exists fs'. split; [done |].
  split; [by apply (MkdirAll_no_files _ _ _ _ Hnf E)
         | by apply (MkdirAll_closed _ _ _ _ Hc E)].
Qed.

Lemma createDirs_fresh data ds w :
  no_files (fs w) -> closed (fs w) ->
  exists fs',
    createDirs data ds w = Ret tt (mkWorld fs' (stdout w) (procs w)) /\
    no_files fs' /\ closed fs'.
Proof.
  revert w. induction ds as [|d ds IH]; intros w Hnf Hc.
  { exists (fs w). by rewrite World_eta. }
  simpl. rewrite bind_unfold. unfold lift_fs.
  destruct (MkdirAll_fresh (filepath_Join [ProjectName data; d]) _ Hnf Hc)
    as (fs1 & -> & Hnf1 & Hc1).
  destruct (IH (mkWorld fs1 (stdout w) (procs w)) Hnf1 Hc1)
    as (fs' & E & ? & ?).
  by exists fs'.
Qed.

(** A tool making a directory where there is none, under a directory. *)
Lemma ensure_dir_fresh (r : bool) (c : string) (up : list string) (fs : FS) :
  fs !! (r, c :: up) = None ->
  os_Stat fs (r, up) = Some Dir ->
  ensure_dir (r, c :: up) fs = <[(r, c :: up) := Dir]> fs.
Proof.
  intros Hnone Hup. unfold ensure_dir, os_MkdirAll. simpl fst. simpl snd.
  rewrite MkdirAll_unfold, Hnone.
  pose proof (MkdirAll_existing (r, up) fs Hup) as E.
  unfold os_MkdirAll in E. simpl in E. rewrite E.
  unfold os_Mkdir. change (os_Stat fs (r, c :: up)) with (fs !! (r, c :: up)).
  rewrite Hnone. change (parent (r, c :: up)) with (r, up). by rewrite Hup.
Qed.

Lemma vcpkgStep_ok env announce c out w :
  cmd_result env c = Some out ->
  vcpkgStep env announce c w
  = Ret tt (mkWorld (tool_effect c (fs w)) (stdout w ++ [Println announce])
                    (procs w ++ [c])).
Proof.
  intros H. unfold vcpkgStep. rewrite bind_unfold. cbn [emit].
  rewrite bind_unfold. unfold exec_Run. by rewrite H.
Qed.

Lemma not_upto_sibling (r : bool) (d x : string) (rt : list string) :
  x <> d -> ~ upto (r, d :: rt) (r, x :: rt).
Proof.
  intros Hne [[= E] | [_ Hs]]%upto_child; [done |].
  by apply not_suffix_cons in Hs.
Qed.

Lemma not_upto_below (r : bool) (d x y : string) (rt : list string) :
  ~ upto (r, d :: rt) (r, y :: x :: rt).
Proof.
  intros [[= _ E] | [_ Hs]]%upto_child.
  - by apply cons_ne in E.
  - apply suffix_length in Hs. simpl in Hs. lia.
Qed.

Lemma createFile_eq p text :
  createFile p text
  = writing p (Bytes text)
      (fun e => Printf ("Error creating file %s: %v" +:+ LF) [VPath p; VErr e]).
Proof. reflexivity. Qed.

Lemma createCMakeLists_eq data :
  createCMakeLists data
  = writing (filepath_Join [ProjectName data; "CMakeLists.txt"])
      (Bytes (Execute cmakeTemplate data))
      (fun e => Printf ("Error creating CMakeLists.txt file: %v" +:+ LF)
                       [VErr e]).
Proof. reflexivity. Qed.

Lemma writeManifest_eq data :
  writeManifest data
  = writing (filepath_Join [ProjectName data; "vcpkg.json"])
      (MarshalIndent vcpkg_manifest "" "  ")
      (fun e => Printf ("Error writing vcpkg manifest: %v" +:+ LF) [VErr e]).
Proof. reflexivity. Qed.

Lemma createCMakePresets_eq data :
  createCMakePresets data
  = writing (filepath_Join [ProjectName data; "CMakePresets.json"])
      (MarshalIndent (presets data) "" "  ")
      (fun e => Printf ("Error writing CMakePresets.json: %v" +:+ LF) [VErr e]).
Proof. reflexivity. Qed.

Local Ltac apart :=
  let E := fresh in
  intros E;
  first [ congruence
        | injection E as E; apply (f_equal length) in E; simpl in E; lia ].

Local Ltac stat_to_lookup :=
  repeat match goal with
    | |- context [os_Stat ?fs (?r, ?c :: ?l)] =>
        change (os_Stat fs (r, c :: l)) with (fs !! (r, c :: l))
    end.

Local Ltac look :=
  cbn [fs stdout procs];
  repeat match goal with
    | |- context [parent (?r, ?c :: ?l)] =>
        change (parent (r, c :: l)) with (r, l)
    end;
  stat_to_lookup;
  rewrite ?lookup_insert_ne by apart;
  rewrite ?Stat_insert_ne by apart.

Lemma ret_unfold {A} (a : A) (w : World) : (mret a : M A) w = Ret a w.
Proof. reflexivity. Qed.

Local Ltac step :=
  rewrite ?bind_unfold, ?ret_unfold; cbv beta iota; cbn [fs stdout procs].

Lemma tool_effect_cat (p : path) (s : string) (args : list word) (dir : string) (disk : FS) :
  tool_effect (Command (WPathCat p s) args dir) disk = disk.
Proof. reflexivity. Qed.

Lemma tool_effect_clone (url : string) (p : path) (dir : string) (disk : FS) :
  tool_effect (Command (W "git") [W "clone"; W url; WPath p] dir) disk
  = ensure_dir p disk.
Proof. reflexivity. Qed.


(** In an empty directory, with a validated descriptor and the three
    vcpkg commands succeeding, the generation completes: the manifest
    holds the rendering of the template, the project directory is
    there, and the files of the version-control step are not. *)
Lemma createProjectStructure_fresh env f v out0 procs0 :
  validate f = None ->
  Forall (fun c => cmd_result env c <> None) (vcpkg_commands (flag_name f)) ->
  exists w9,
    createProjectStructure env (newProjectData f v) (mkWorld ∅ out0 procs0)
    = Ret tt w9 /\
    fs w9 !! filepath_Join [flag_name f; "CMakeLists.txt"]
    = Some (File (Bytes (Execute cmakeTemplate (newProjectData f v)))) /\
    os_Stat (fs w9) (filepath_Clean (flag_name f)) = Some Dir /\
    (forall p, In p (vcs_files (flag_name f)) -> fs w9 !! p = None).
Proof.
  intros Hval Hcmds. apply validate_None in Hval as (Hn & Hl & Hp).
  unfold createProjectStructure.
  destruct (createDirs_fresh (newProjectData f v) ["src"; "include"; "build"]
              (mkWorld ∅ out0 procs0)) as (fs3 & Hdirs & Hnf & Hcl).
  { intros q c. cbn [fs]. by rewrite lookup_empty. }
  { intros r c up [x Hx]. cbn [fs] in Hx. by rewrite lookup_empty in Hx. }
  pose proof (createDirs_Ret _ _ _ _ Hdirs) as HD. cbn [fs] in HD.
  pose proof (HD "src" ltac:(simpl; tauto)) as Hsrc.
  pose proof (HD "include" ltac:(simpl; tauto)) as Hinc. clear HD.
  assert (forall q : path,
            ~ upto (filepath_Join [flag_name f; "src"]) q ->
            ~ upto (filepath_Join [flag_name f; "include"]) q ->
            ~ upto (filepath_Join [flag_name f; "build"]) q ->
            fs3 !! q = None) as Hnone.
  { intros q H1 H2 H3.
    set (S := fun q : path =>
                exists x, In x ["src"; "include"; "build"] /\
                          upto (filepath_Join [flag_name f; x]) q).
    assert (allows (only_at S)
              (map (fun x => filepath_Join [flag_name f; x])
                   ["src"; "include"; "build"]) []) as HS.
    { apply allows_only_at; [| done].
      intros p q' (x & <- & Hx)%in_map_iff Hup. by exists x. }
    pose proof (steps_createDirs (only_at S) _ _ HS (newProjectData f v)
                  ["src"; "include"; "build"]) as Hst.
    cbn [newProjectData ProjectName] in Hst.
    specialize (Hst (fun x Hx => List.in_map
                        (fun x => filepath_Join [flag_name f; x]) _ x Hx)
                    (mkWorld ∅ out0 procs0) q).
    rewrite Hdirs in Hst. cbn [final fs] in Hst.
    rewrite Hst; [apply lookup_empty |].
    intros (x & [<- | [<- | [<- | []]]] & Hup); done. }
  rewrite (bind_Ret _ _ _ _ _ Hdirs). clear Hdirs.
  unfold vcpkg_commands in Hcmds.
  unfold setupVcpkg, fetchVcpkg, createMain, vcs_files.
  rewrite createCMakeLists_eq, writeManifest_eq, createCMakePresets_eq,
    !createFile_eq.
  cbn [newProjectData ProjectName PackageMgr Lang stdout procs] in *.
  rewrite ?(Join1 _ _ Hn), ?(Join2 _ _ _ Hn) in * by reflexivity.
  destruct (filepath_Clean (flag_name f)) as [r rt]. cbn [fst snd] in *.
  assert (forall x, ~ In x ["src"; "include"; "build"] ->
                    fs3 !! (r, x :: rt) = None) as Hfile1.
  { intros x Hx. apply Hnone; apply not_upto_sibling; intros ->;
      apply Hx; simpl; tauto. }
  assert (forall x y, fs3 !! (r, y :: x :: rt) = None) as Hfile2.
  { intros x y. apply Hnone; apply not_upto_below. }
  assert (os_Stat fs3 (r, rt) = Some Dir) as Hroot.
  { apply (Hcl r "src" rt). by exists Dir. }
  clear Hnone Hcl Hnf.
  rewrite Hp. change (String.eqb "vcpkg" "vcpkg") with true. cbv iota.
  apply Forall_cons in Hcmds as [Hclone Hcmds].
  apply Forall_cons in Hcmds as [Hboot Hcmds].
  apply Forall_cons in Hcmds as [Hnew _].
  destruct (cmd_result env _) as [o1|] eqn:E1 in Hclone; [clear Hclone | done].
  destruct (cmd_result env _) as [o2|] eqn:E2 in Hboot; [clear Hboot | done].
  destruct (cmd_result env _) as [o3|] eqn:E3 in Hnew; [clear Hnew | done].
  change (os_Stat fs3 (r, "src" :: rt)) with (fs3 !! (r, "src" :: rt)) in Hsrc.
  change (os_Stat fs3 (r, "include" :: rt))
    with (fs3 !! (r, "include" :: rt)) in Hinc.
  assert (forall x, ~ In x ["src"; "include"; "build"] ->
                    fs3 !! (r, x :: rt) <> Some Dir) as Hfile1'.
  { intros x Hx. by rewrite Hfile1. }
  assert (forall x y, fs3 !! (r, y :: x :: rt) <> Some Dir) as Hfile2'.
  { intros x y. by rewrite Hfile2. }
  (* CMakeLists.txt *)
  step. rewrite writing_ok;
    [| look; apply Hfile1'; simpl; intuition congruence | look; done ].
  step. unfold stat. look. rewrite Hfile1 by (simpl; intuition congruence).
  step. rewrite (vcpkgStep_ok _ _ _ _ _ E1). step.
  rewrite (vcpkgStep_ok _ _ _ _ _ E2). step.
  rewrite (vcpkgStep_ok _ _ _ _ _ E3). step.
  rewrite !tool_effect_cat, tool_effect_clone.
  rewrite ensure_dir_fresh;
    [| look; apply Hfile1; simpl; intuition congruence | look; done].
  rewrite writing_ok;
    [| look; apply Hfile1'; simpl; intuition congruence | look; done ].
  step.
  rewrite writing_ok;
    [| look; apply Hfile1'; simpl; intuition congruence | look; done ].
  step.
  destruct Hl as [-> | ->].
  - change (String.eqb "cpp" "cpp") with true. cbv iota. step.
    rewrite writing_ok; [| look; apply Hfile2' | look; done ].
    step.
    rewrite writing_ok; [| look; apply Hfile2' | look; done ].
    step. unfold emit. eexists. split; [reflexivity |].
    look. split; [apply lookup_insert_eq |]. split; [done |].
    intros p [<- | [<- | []]]; look; apply Hfile1; simpl; intuition congruence.
  - change (String.eqb "c" "cpp") with false.
    change (String.eqb "c" "c") with true. cbv iota. step.
    rewrite writing_ok; [| look; apply Hfile2' | look; done ].
    step. unfold emit. eexists. split; [reflexivity |].
    look. split; [apply lookup_insert_eq |]. split; [done |].
    intros p [<- | [<- | []]]; look; apply Hfile1; simpl; intuition congruence.
Qed.

Lemma ensure_dir_frame (p q : path) (disk : FS) :
  ~ upto p q -> ensure_dir p disk !! q = disk !! q.
Proof.
  intros Hq. unfold ensure_dir.
  destruct (os_MkdirAll p disk) as [e|fs'] eqn:E; [done |].
  destruct p as [r cs]. unfold os_MkdirAll in E. simpl in E.
  by destruct (MkdirAll_lookup _ _ _ _ E q) as [-> | (_ & _ & Hup)].
Qed.

Lemma ensure_dir_keeps (p : path) (disk : FS) :
  keeps_dirs disk (ensure_dir p disk).
Proof.
  unfold ensure_dir. destruct (os_MkdirAll p disk) as [e|fs'] eqn:E.
  - by intros q.
  - apply (allows_mkdir _ _ _ (allows_keeps_dirs [p] []) p); [by left | done].
Qed.

Lemma tool_effect_init (name : string) (disk : FS) :
  tool_effect (git_init name) disk
  = ensure_dir (filepath_Join [name; ".git"]) disk.
Proof. reflexivity. Qed.

(** With the project directory in place and no .gitignore or
    .gitattributes in it, the prompt step returns, whatever is answered
    and whatever git does. *)
Lemma initializeVersionControl_returns env name w :
  name <> "" ->
  os_Stat (fs w) (filepath_Clean name) = Some Dir ->
  (forall p, In p (vcs_files name) -> fs w !! p = None) ->
  exists w', initializeVersionControl env name w = Ret tt w'.
Proof.
  intros Hn Hroot Hfiles. unfold initializeVersionControl.
  destruct (_ || _); [| by eexists].
  step. unfold emit. step. unfold exec_Run. fold (git_init name) (git_add name).
  destruct (cmd_result env (git_init name)) as [o|]; [| by eexists].
  step. rewrite tool_effect_init.
  pose proof (Hfiles _ (or_introl eq_refl)) as Hi.
  pose proof (Hfiles _ (or_intror (or_introl eq_refl))) as Ha.
  pose proof (ensure_dir_keeps (filepath_Join [name; ".git"]) (fs w) _ Hroot)
    as Hroot'.
  rewrite <- (ensure_dir_frame (filepath_Join [name; ".git"])) in Hi, Ha.
  - revert Hi Ha Hroot'. generalize (ensure_dir (filepath_Join [name; ".git"]) (fs w)).
    intros disk. rewrite !createFile_eq.
    rewrite ?(Join1 _ _ Hn) by reflexivity.
    destruct (filepath_Clean name) as [r rt]. cbn [fst snd].
    intros Hi Ha Hroot'.
    rewrite writing_ok; [| look; by rewrite Hi | look; done].
    step. rewrite writing_ok; [| look; by rewrite Ha | look; done].
    step. destruct (cmd_result env (git_add name)); by eexists.
  - rewrite !(Join1 _ _ Hn) by reflexivity. by apply not_upto_sibling.
  - rewrite !(Join1 _ _ Hn) by reflexivity. by apply not_upto_sibling.
Qed.


(** With a type that is neither "executable" nor "library", no line of
    the manifest starts a target directive, the name and the standard
    being single-line texts. *)
Lemma manifest_without_target f v out :
  flag_lang f = "cpp" \/ flag_lang f = "c" ->
  Re.FindStringSubmatch out = Some v ->
  flag_type f <> "executable" -> flag_type f <> "library" ->
  Str.mem Str.nl (flag_name f) = false ->
  Str.mem Str.nl (flag_std f) = false ->
  Str.has_line_starting "add_executable("
    (Execute cmakeTemplate (newProjectData f v)) = false /\
  Str.has_line_starting "add_library("
    (Execute cmakeTemplate (newProjectData f v)) = false.
Proof.
  intros Hl Hv Hexe Hlib Hname Hstd.
  apply String.eqb_neq in Hexe, Hlib.
  pose proof (version_lacks out v Str.nl Hv eq_refl) as Hver.
  destruct f as [name ty lang std pkg]. cbn [flag_lang flag_type flag_name flag_std] in *.
  unfold Str.has_line_starting, Execute, chunks, cmakeTemplate.
  destruct Hl as [-> | ->];
  cbn [flat_map exec_node field_value newProjectData ProjectName Type_ Lang
       Standard CMakeVersion CMakeLang FileExt PackageMgr flag_lang flag_type
       flag_name flag_std flag_pkgmgr app];
  rewrite Hexe, Hlib;
  match goal with
  | |- context [Str.cat ?l] => set (chunks := l); vm_compute in chunks
  end; subst chunks;
  split; (apply orb_false_intro; [reflexivity |]);
  group_chunks;
  (apply (contains_cat_false Str.nl "add_executable(")
   || apply (contains_cat_false Str.nl "add_library("));
  literal_chunks; assumption.
Qed.



(** * Further properties of the code *)

(** ** The probe of the build tool *)

Lemma append_cons (c : ascii) (a b : string) :
  String c a +:+ b = String c (a +:+ b).
Proof. reflexivity. Qed.

Lemma append_nil_l (a : string) : "" +:+ a = a.
Proof. reflexivity. Qed.

Lemma append_assoc (a b c : string) : (a +:+ b) +:+ c = a +:+ b +:+ c.
Proof.
  induction a as [|x a IH]; [done |]. rewrite !append_cons. by rewrite IH.
Qed.

Lemma span_digits_split s :
  s = (Str.span_digits s).1 +:+ (Str.span_digits s).2 /\
  no_digit_ahead (Str.span_digits s).2.
Proof.
  induction s as [|c s [IH1 IH2]]; [done |].
  simpl. destruct (Str.is_digit c) eqn:E; [| done].
  destruct (Str.span_digits s) as [d r]. simpl in *.
  by rewrite append_cons, <- IH1.
Qed.

Lemma span_digits_app d r :
  Str.all Str.is_digit d = true -> no_digit_ahead r ->
  Str.span_digits (d +:+ r) = (d, r).
Proof.
  intros Hd Hr. induction d as [|c d IH]; simpl in *.
  - rewrite append_nil_l. destruct r as [|c r]; [done |].
    simpl in *. by rewrite Hr.
  - apply andb_true_iff in Hd as [Hc Hd]. by rewrite Hc, IH.
Qed.

Lemma span_digits_more d r :
  Str.all Str.is_digit d = true ->
  Str.span_digits (d +:+ r)
  = (d +:+ (Str.span_digits r).1, (Str.span_digits r).2).
Proof.
  intros Hd. induction d as [|c d IH]; simpl in *.
  - rewrite !append_nil_l. by destruct (Str.span_digits r).
  - apply andb_true_iff in Hd as [Hc Hd].
    by rewrite Hc, IH, append_cons.
Qed.

Lemma strip_prefix_Some p s r : Str.strip_prefix p s = Some r -> s = p +:+ r.
Proof.
  revert s. induction p as [|a p IH]; intros s; simpl.
  - by intros [= ->].
  - destruct s as [|b s]; [done |].
    destruct (Ascii.eqb_spec a b) as [-> | _]; [| done].
    by intros ->%IH.
Qed.

Lemma strip_prefix_app p r : Str.strip_prefix p (p +:+ r) = Some r.
Proof.
  induction p as [|a p IH]; [done |].
  rewrite ?append_cons. simpl. by rewrite Ascii.eqb_refl.
Qed.

(** What the anchored pattern matches: three runs of digits separated
    by dots, the last one as long as it can be. *)
Lemma match_semver_Some s v :
  Re.match_semver s = Some v ->
  exists a b c post,
    s = v +:+ post /\ v = a +:+ "." +:+ b +:+ "." +:+ c /\
    number a /\ number b /\ number c /\ no_digit_ahead post.
Proof.
  unfold Re.match_semver.
  pose proof (span_digits_all s) as Ha.
  destruct (span_digits_split s) as [Es _].
  destruct (Str.span_digits s) as [a r1]. simpl in Ha, Es.
  destruct a as [|a0 a]; [done |].
  destruct r1 as [|c1 r1]; [done |].
  destruct (Ascii.eqb_spec c1 "."%char) as [-> | Hne]; cycle 1.
  { intros H. exfalso. revert H.
    destruct c1 as [[] [] [] [] [] [] [] []]; try done. }
  pose proof (span_digits_all r1) as Hb.
  destruct (span_digits_split r1) as [Er1 _].
  destruct (Str.span_digits r1) as [b r2]. simpl in Hb, Er1.
  destruct b as [|b0 b]; [done |].
  destruct r2 as [|c2 r2]; [done |].
  destruct (Ascii.eqb_spec c2 "."%char) as [-> | Hne]; cycle 1.
  { intros H. exfalso. revert H.
    destruct c2 as [[] [] [] [] [] [] [] []]; try done. }
  pose proof (span_digits_all r2) as Hc.
  destruct (span_digits_split r2) as [Er2 Hpost].
  destruct (Str.span_digits r2) as [c r3]. simpl in Hc, Er2, Hpost.
  destruct c as [|c0 c]; [done |].
  intros [= <-].
  exists (String a0 a), (String b0 b), (String c0 c), r3.
  split; [| by repeat split].
  rewrite Es, Er1, Er2. by rewrite !append_assoc.
Qed.

Lemma match_semver_app a b c post :
  number a -> number b -> number c ->
  Re.match_semver (a +:+ "." +:+ b +:+ "." +:+ c +:+ post)
  = Some (a +:+ "." +:+ b +:+ "." +:+ c +:+ (Str.span_digits post).1).
Proof.
  intros [Na Da] [Nb Db] [Nc Dc]. unfold Re.match_semver.
  rewrite (span_digits_app a) by done.
  destruct a as [|a0 a]; [done |].
  change ("." +:+ b +:+ "." +:+ c +:+ post)
    with (String "." (b +:+ "." +:+ c +:+ post)).
  cbv iota beta.
  rewrite (span_digits_app b) by done.
  destruct b as [|b0 b]; [done |].
  change ("." +:+ c +:+ post) with (String "." (c +:+ post)).
  cbv iota beta.
  rewrite (span_digits_more c) by done.
  destruct c as [|c0 c]; [done |]. done.
Qed.

Lemma FindStringSubmatch_Some s v :
  Re.FindStringSubmatch s = Some v ->
  exists pre rest, s = pre +:+ "cmake version " +:+ rest /\
                   Re.match_semver rest = Some v.
Proof.
  induction s as [|c s IH].
  - done.
  - cbn [Re.FindStringSubmatch].
    destruct (Re.match_here (String c s)) as [v'|] eqn:E.
    + intros [= <-]. unfold Re.match_here in E.
      destruct (Str.strip_prefix _ _) as [r|] eqn:Er; [| done].
      apply strip_prefix_Some in Er. exists "", r. by rewrite Er.
    + intros (pre & rest & -> & Hm)%IH. by exists (String c pre), rest.
Qed.

Lemma FindStringSubmatch_here s v :
  Re.match_here s = Some v -> Re.FindStringSubmatch s = Some v.
Proof. intros E. destruct s; cbn [Re.FindStringSubmatch]; by rewrite E. Qed.

Lemma FindStringSubmatch_app pre rest v :
  Re.match_semver rest = Some v ->
  is_Some (Re.FindStringSubmatch (pre +:+ "cmake version " +:+ rest)).
Proof.
  intros Hm. induction pre as [|c pre IH].
  - exists v. rewrite append_nil_l. apply FindStringSubmatch_here.
    unfold Re.match_here. by rewrite strip_prefix_app.
  - rewrite append_cons. cbn [Re.FindStringSubmatch].
    by destruct (Re.match_here _).
Qed.

(** X1: the version the probe returns is read off the output of
    [cmake --version]: it follows the text "cmake version " there, it
    is three non-empty runs of digits separated by dots, and it is not
    cut short, what follows it not being a digit. *)
Theorem X1_probe_returns_a_version_of_the_output env w v w' :
  getCMakeVersion env w = Ret (inr v) w' ->
  exists out pre post a b c,
    cmd_result env cmake_version = Some out /\
    out = pre +:+ "cmake version " +:+ v +:+ post /\
    v = a +:+ "." +:+ b +:+ "." +:+ c /\
    number a /\ number b /\ number c /\ no_digit_ahead post.
Proof.
  intros (_ & out & Hout & Hre)%getCMakeVersion_Ret.
  apply FindStringSubmatch_Some in Hre as (pre & rest & -> & Hm).
  apply match_semver_Some in Hm as (a & b & c & post & -> & Hv & Hnum).
  by exists (pre +:+ "cmake version " +:+ v +:+ post), pre, post, a, b, c.
Qed.

Lemma X1_witness :
  exists out pre post a b c,
    cmd_result (sample_env "") cmake_version = Some out /\
    out = pre +:+ "cmake version " +:+ "3.28.1" +:+ post /\
    "3.28.1" = a +:+ "." +:+ b +:+ "." +:+ c /\
    number a /\ number b /\ number c /\ no_digit_ahead post.
Proof.
  apply (X1_probe_returns_a_version_of_the_output (sample_env "") (start ∅)
           "3.28.1" (mkWorld ∅ [] [cmake_version])).
  reflexivity.
Defined.

(** X2: the probe succeeds, spawning only [cmake --version] and
    leaving the filesystem and the output alone, whenever the output
    of the command holds "cmake version " followed by three runs of
    digits separated by dots; when the output begins so and no digit
    follows, the version returned is exactly that one. *)
Theorem X2_probe_finds_a_version env w out pre a b c post :
  cmd_result env cmake_version = Some out ->
  out = pre +:+ "cmake version " +:+ a +:+ "." +:+ b +:+ "." +:+ c +:+ post ->
  number a -> number b -> number c ->
  exists v,
    getCMakeVersion env w
    = Ret (inr v) (mkWorld (fs w) (stdout w) (procs w ++ [cmake_version])) /\
    (pre = "" -> no_digit_ahead post -> v = a +:+ "." +:+ b +:+ "." +:+ c).
Proof.
  intros Hout -> Ha Hb Hc.
  pose proof (match_semver_app a b c post Ha Hb Hc) as Hm.
  unfold getCMakeVersion. rewrite bind_unfold. unfold exec_Output.
  fold cmake_version. rewrite Hout.
  destruct (FindStringSubmatch_app pre _ _ Hm) as [v Hv].
  rewrite Hv. exists v. split; [done |].
  intros -> Hpost. rewrite append_nil_l in Hv.
  rewrite (FindStringSubmatch_here _ (a +:+ "." +:+ b +:+ "." +:+ c)) in Hv.
  - by injection Hv as <-.
  - unfold Re.match_here. rewrite strip_prefix_app, Hm.
    destruct post as [|x post]; simpl in *.
    + by rewrite append_nil_r.
    + by rewrite Hpost, append_nil_r.
Qed.

Lemma X2_witness :
  exists v,
    getCMakeVersion (sample_env "") (start ∅)
    = Ret (inr v) (mkWorld ∅ [] ([] ++ [cmake_version])) /\
    ("" = "" -> no_digit_ahead LF -> v = "3" +:+ "." +:+ "28" +:+ "." +:+ "1").
Proof.
  apply (X2_probe_finds_a_version (sample_env "") (start ∅)
           ("cmake version 3.28.1" +:+ LF) "" "3" "28" "1" LF);
    first [reflexivity | by split].
Defined.

(** X3: when validation passes and the probe fails, the command
    failing or its output holding no version, the run ends with
    status 1 having spawned [cmake --version] and nothing else, printed
    the one message that carries the error, and written nothing. *)
Theorem X3_no_version_no_project env f w :
  validate f = None ->
  (forall out, cmd_result env cmake_version = Some out ->
               Re.FindStringSubmatch out = None) ->
  exists err,
    main env f w
    = Exit 1 (mkWorld (fs w) (stdout w ++ [msg_no_version err])
                      (procs w ++ [cmake_version])) /\
    (err = ExitError cmake_version \/
     err = ErrorString "unable to parse CMake version").
Proof.
  intros Hval Hprobe. unfold main. rewrite Hval.
  unfold getCMakeVersion. rewrite !bind_unfold. unfold exec_Output.
  fold cmake_version.
  destruct (cmd_result env cmake_version) as [out|] eqn:E.
  - rewrite (Hprobe out eq_refl). eexists. split; [reflexivity | by right].
  - eexists. split; [reflexivity | by left].
Qed.

Lemma X3_witness :
  exists err,
    main (mkEnv (fun _ => Some "cmake version 3.28") "") (demo "cpp" "vcpkg")
      (start ∅)
    = Exit 1 (mkWorld ∅ ([] ++ [msg_no_version err]) ([] ++ [cmake_version])) /\
    (err = ExitError cmake_version \/
     err = ErrorString "unable to parse CMake version").
Proof.
  apply (X3_no_version_no_project
           (mkEnv (fun _ => Some "cmake version 3.28") "")
           (demo "cpp" "vcpkg") (start ∅)).
  - reflexivity.
  - by intros out [= <-].
Defined.

(** ** Making a file, again *)


(** ** The directory loop, again *)

Lemma MkdirAll_fails (r : bool) (cs : list string) (disk : FS) (e : error) :
  MkdirAll_from r cs disk = inl e ->
  exists (q : path) c,
    e = ENOTDIR q /\ upto (r, cs) q /\ disk !! q = Some (File c).
Proof.
  induction cs as [|x up IH].
  { simpl. done. }
  rewrite MkdirAll_unfold.
  destruct (disk !! (r, x :: up)) as [[|c]|] eqn:Ep; [done | |].
  { intros [= <-]. exists (r, x :: up), c. by repeat split. }
  destruct (MkdirAll_from r up disk) as [e'|fs1] eqn:Eup.
  { intros [= <-]. destruct (IH eq_refl) as (q & c & -> & (Hr & Hs & Hne) & Hq).
    exists q, c. repeat split; try done. by apply suffix_cons_r. }
  intros H. exfalso.
  pose proof (MkdirAll_dir _ _ _ _ Eup) as Hdir.
  unfold os_Mkdir in H.
  change (os_Stat fs1 (r, x :: up)) with (fs1 !! (r, x :: up)) in H.
  change (parent (r, x :: up)) with (r, up) in H. rewrite Hdir in H.
  destruct (MkdirAll_lookup _ _ _ _ Eup (r, x :: up)) as [E | (_ & _ & Hup)].
  - rewrite E, Ep in H. done.
  - destruct Hup as (_ & Hs & _). by apply not_suffix_cons in Hs.
Qed.

Lemma MkdirAll_keeps_files (r : bool) (cs : list string) (disk disk' : FS)
  (q : path) c :
  MkdirAll_from r cs disk = inr disk' ->
  disk' !! q = Some (File c) <-> disk !! q = Some (File c).
Proof.
  intros H. destruct (MkdirAll_lookup _ _ _ _ H q) as [-> | (E1 & E2 & _)];
    [done |]. rewrite E1, E2. done.
Qed.



(** In a filesystem where every entry lies in a directory, whatever
    is above an entry is a directory. *)
Lemma closed_above (disk : FS) (r : bool) (cs l : list string) :
  closed disk -> is_Some (disk !! (r, cs)) ->
  l `suffix_of` cs -> l <> [] ->
  l = cs \/ disk !! (r, l) = Some Dir.
Proof.
  intros Hc. induction cs as [|x up IH]; intros Hsome Hs Hne.
  { by apply suffix_nil_inv in Hs. }
  destruct l as [|z l]; [done |].
  apply suffix_cons_inv in Hs as [-> | Hs]; [by left |]. right.
  pose proof (Hc r x up Hsome) as Hd.
  destruct up as [|y up]; [by apply suffix_nil_inv in Hs |].
  change (disk !! (r, y :: up) = Some Dir) in Hd.
  destruct IH as [-> | H]; by rewrite ?Hd.
Qed.

Lemma MkdirAll_blocked (r : bool) (cs : list string) (disk : FS) (q : path) c :
  closed disk -> upto (r, cs) q -> disk !! q = Some (File c) ->
  exists e, MkdirAll_from r cs disk = inl e.
Proof.
  intros Hc. induction cs as [|x up IH]; intros Hup Hq.
  { destruct Hup as (_ & Hs & Hne). by apply suffix_nil_inv in Hs. }
  rewrite MkdirAll_unfold.
  destruct q as [r' l]. destruct Hup as (Hr & Hs & Hne). simpl in Hr, Hs, Hne.
  subst r'.
  destruct (disk !! (r, x :: up)) as [[|c']|] eqn:Ep.
  - destruct (closed_above disk r (x :: up) l Hc) as [-> | Hd]; try done;
      congruence.
  - by eexists.
  - destruct l as [|z l]; [done |].
    apply suffix_cons_inv in Hs as [[= -> ->] | Hs]; [congruence |].
    destruct IH as [e ->]; [done | done |]. by eexists.
Qed.

(** X6: conversely, in a filesystem where every entry lies in a
    directory, a file at one of the directories to make, or above it,
    makes the directory loop end the run with status 1. *)
Theorem X6_a_file_in_the_way_stops_the_loop data ds w (d : string)
  (q : path) c :
  closed (fs w) ->
  In d ds ->
  upto (filepath_Join [ProjectName data; d]) q ->
  fs w !! q = Some (File c) ->
  exists w', createDirs data ds w = Exit 1 w'.
Proof.
  revert w. induction ds as [|d0 ds IH]; intros w Hc Hin Hup Hq; [done |].
  cbn [createDirs]. rewrite bind_unfold. unfold lift_fs.
  destruct (os_MkdirAll _ (fs w)) as [e|fs1] eqn:E; [by eexists |].
  unfold os_MkdirAll in E. cbn [fs stdout procs].
  destruct Hin as [-> | Hin].
  - destruct (filepath_Join [ProjectName data; d]) as [r cs].
    destruct (MkdirAll_blocked r cs (fs w) q c Hc Hup Hq) as [e' E'].
    simpl in E. congruence.
  - apply IH; cbn [fs]; try done.
    + by apply (MkdirAll_closed _ _ _ _ Hc E).
    + by apply (MkdirAll_keeps_files _ _ _ _ _ _ E).
Qed.

Lemma X6_witness :
  exists w',
    createDirs (newProjectData (demo "cpp" "vcpkg") "3.28.1")
      ["src"; "include"; "build"]
      (start {[ (false, ["demo"]) := File (Bytes "") ]})
    = Exit 1 w'.
Proof.
  apply (X6_a_file_in_the_way_stops_the_loop
           (newProjectData (demo "cpp" "vcpkg") "3.28.1")
           ["src"; "include"; "build"]
           (start {[ (false, ["demo"]) := File (Bytes "") ]})
           "include" (false, ["demo"]) (Bytes "")).
  - intros r c up [n Hn]. cbn [start fs] in Hn.
    apply lookup_singleton_Some in Hn as [[= <- <- <-] _]. done.
  - simpl. tauto.
  - split; [reflexivity |]. split; [| done]. by exists ["include"].
  - reflexivity.
Defined.

(** ** What a run leaves alone *)

Lemma allows_keeps_kinds dirs files : allows keeps_kinds dirs files.
Proof.
  split.
  - intros disk q. destruct (disk !! q) as [[|c]|]; eauto.
  - intros fs1 fs2 fs3 H12 H23 q. specialize (H12 q). specialize (H23 q).
    destruct (fs1 !! q) as [[|c]|]; [| | done].
    + by rewrite H12 in H23.
    + destruct H12 as [c' E]. by rewrite E in H23.
  - intros [r cs] disk disk' _ H q. unfold os_MkdirAll in H. simpl in H.
    destruct (MkdirAll_lookup _ _ _ _ H q) as [-> | (-> & _)]; [| done].
    destruct (disk !! q) as [[|c]|]; eauto.
  - intros p disk disk' _ (-> & Hp & _)%Create_inv q.
    destruct (decide (p = q)) as [<- | Hne].
    + rewrite lookup_insert_eq.
      destruct (disk !! p) as [[|c]|] eqn:E; [| by eauto | done].
      destruct Hp. unfold os_Stat. by destruct p.2.
    + rewrite lookup_insert_ne by done.
      destruct (disk !! q) as [[|c]|]; eauto.
  - intros p c c0 disk _ Hp q.
    destruct (decide (p = q)) as [<- | Hne].
    + rewrite lookup_insert_eq, Hp. eauto.
    + rewrite lookup_insert_ne by done.
      destruct (disk !! q) as [[|c']|]; eauto.
Qed.

(** X7: a run deletes nothing and changes the kind of nothing:
    however it ends, every directory there was is still a directory
    and every file still a file (its content may have been replaced). *)
Theorem X7_a_run_deletes_nothing env f w (q : path) :
  match fs w !! q with
  | Some Dir => fs (final (main env f w)) !! q = Some Dir
  | Some (File _) => exists c, fs (final (main env f w)) !! q = Some (File c)
  | None => True
  end.
Proof.
  apply (steps_main env keeps_kinds _ _
           (allows_keeps_kinds
              (project_dirs (flag_name f) ++ vcs_dirs (flag_name f))
              (project_files (flag_name f) ++ vcs_files (flag_name f)))
           f (incl_refl _) (incl_refl _) w q).
Qed.

Lemma inside_child (p : path) (x : string) : inside p (p.1, x :: p.2).
Proof.
  split; [done |]. split; [by apply suffix_cons_r | apply cons_ne].
Qed.

Lemma inside_grandchild (p : path) (x y : string) :
  inside p (p.1, y :: x :: p.2).
Proof.
  split; [done |]. split; [by apply suffix_cons_r, suffix_cons_r |].
  simpl. intros E. apply (f_equal length) in E. simpl in E. lia.
Qed.

Lemma allows_stays_inside (p : path) dirs files :
  (forall d, In d dirs -> exists x, d = (p.1, x :: p.2)) ->
  (forall q, In q files -> inside p q) ->
  allows (stays_inside p) dirs files.
Proof.
  intros Hdirs Hfiles. split.
  - intros disk q _. by left.
  - intros fs1 fs2 fs3 H12 H23 q Hq.
    destruct (H12 q Hq) as [E12 | (E1 & E2 & Hup)];
      destruct (H23 q Hq) as [E23 | (E2' & E3 & Hup')].
    + left. congruence.
    + right. rewrite <- E12. done.
    + right. rewrite E23. done.
    + congruence.
  - intros d disk disk' Hin H q Hq.
    destruct (Hdirs d Hin) as [x ->].
    change (MkdirAll_from p.1 (x :: p.2) disk = inr disk') in H.
    destruct (MkdirAll_lookup _ _ _ _ H q) as [-> | (E1 & E2 & Hup)];
      [by left |].
    right. split; [done |]. split; [done |].
    destruct q as [r l]. destruct Hup as (Hr & Hs & Hne). simpl in *.
    destruct l as [|z l]; [done |].
    apply suffix_cons_inv in Hs as [[= -> ->] | Hs].
    + destruct Hq. subst r. apply inside_child.
    + by repeat split.
  - intros q0 disk disk' Hin (-> & _)%Create_inv q Hq. left.
    rewrite lookup_insert_ne; [done |]. intros <-. by apply Hq, Hfiles.
  - intros q0 c c0 disk Hin _ q Hq. left.
    rewrite lookup_insert_ne; [done |]. intros <-. by apply Hq, Hfiles.
Qed.



(** ** No silent failure *)

Lemma reports_quiet {A} (m : M A) :
  (forall w, exists a, m w = Ret a (mkWorld (fs (final (m w))) (stdout w)
                                            (procs (final (m w))))) ->
  reports m.
Proof.
  intros H w. destruct (H w) as [a E]. rewrite E. exists [].
  by rewrite app_nil_r.
Qed.

Lemma reports_ret {A} (a : A) : reports (mret a).
Proof. intros w. exists []. by rewrite app_nil_r. Qed.

Lemma reports_emit o : reports (emit o).
Proof. intros w. by exists [o]. Qed.

Lemma reports_stat p : reports (stat p).
Proof. intros w. exists []. by rewrite app_nil_r. Qed.

Lemma reports_lift_fs op : reports (lift_fs op).
Proof.
  intros w. unfold lift_fs.
  destruct (op (fs w)); exists []; by rewrite app_nil_r.
Qed.

Lemma reports_write p c : reports (write p c).
Proof.
  intros w. unfold write.
  destruct (fs w !! p) as [[|?]|]; exists []; by rewrite app_nil_r.
Qed.

Lemma reports_exec_Run env c : reports (exec_Run env c).
Proof.
  intros w. unfold exec_Run.
  destruct (cmd_result env c); exists []; by rewrite app_nil_r.
Qed.

Lemma reports_exec_Output env c : reports (exec_Output env c).
Proof.
  intros w. unfold exec_Output.
  destruct (cmd_result env c); exists []; by rewrite app_nil_r.
Qed.

Lemma reports_bind {A B} (m : M A) (k : A -> M B) :
  reports m -> (forall a, reports (k a)) -> reports (m ≫= k).
Proof.
  intros Hm Hk w. rewrite bind_unfold. specialize (Hm w).
  destruct (m w) as [a w1|code w1]; [| done].
  destruct Hm as [os1 E1]. specialize (Hk a w1).
  destruct (k a w1) as [b w2|code w2].
  - destruct Hk as [os2 E2]. exists (os1 ++ os2).
    by rewrite E2, E1, app_assoc.
  - destruct Hk as (os2 & msg & E2 & Hmsg). exists (os1 ++ os2), msg.
    split; [| done]. by rewrite E2, E1, !app_assoc.
Qed.

(** The one way the program ends a run: print, then exit. *)
Lemma reports_fail {A} (o : output) (code : Z) :
  is_error_message o = true -> reports (emit o;; @os_Exit A code).
Proof. intros Ho w. by exists [], o. Qed.

Local Ltac reporting :=
  repeat match goal with
    | |- reports (mret _) => apply @reports_ret
    | |- reports (emit _ ≫= fun _ => os_Exit _) =>
        by apply @reports_fail
    | |- reports (emit _) => apply reports_emit
    | |- reports (stat _) => apply reports_stat
    | |- reports (lift_fs _) => apply reports_lift_fs
    | |- reports (write _ _) => apply reports_write
    | |- reports (exec_Run _ _) => apply reports_exec_Run
    | |- reports (exec_Output _ _) => apply reports_exec_Output
    | |- reports (_ ≫= _) => apply @reports_bind; [| intros ?]
    | |- reports (match ?x with _ => _ end) => destruct x
    end.

Lemma reports_createDirs data ds : reports (createDirs data ds).
Proof. induction ds as [|d ds IH]; cbn [createDirs]; reporting. apply IH. Qed.

Lemma reports_createProjectStructure env data :
  reports (createProjectStructure env data).
Proof.
  unfold createProjectStructure, createCMakeLists, setupVcpkg, fetchVcpkg,
    vcpkgStep, writeManifest, createCMakePresets, createMain, createFile.
  reporting. apply reports_createDirs.
Qed.

Lemma reports_initializeVersionControl env name :
  reports (initializeVersionControl env name).
Proof. unfold initializeVersionControl, createFile. reporting. Qed.

Lemma validate_Some f msg :
  validate f = Some msg -> is_error_message msg = true.
Proof.
  unfold validate.
  repeat match goal with |- context [if ?b then _ else _] => destruct b end;
    by intros [= <-].
Qed.

Lemma reports_main env f : reports (main env f).
Proof.
  unfold main. destruct (validate f) as [msg|] eqn:Hval.
  { by apply @reports_fail, (validate_Some f). }
  unfold getCMakeVersion. reporting.
  - apply reports_createProjectStructure.
  - apply reports_initializeVersionControl.
Qed.



(** ** The processes of a run *)

Lemma spawns_of_weaken {A} (m : M A) (l1 l2 : list Cmd) :
  l1 `sublist_of` l2 -> spawns_of l1 m -> spawns_of l2 m.
Proof.
  intros Hl Hm w. destruct (Hm w) as (l & E & Hs). exists l.
  split; [done |]. by transitivity l1.
Qed.

Lemma spawns_of_none {A} (m : M A) :
  (forall w, procs (final (m w)) = procs w) -> spawns_of [] m.
Proof. intros H w. exists []. by rewrite H, app_nil_r. Qed.

Lemma spawns_of_bind {A B} (m : M A) (k : A -> M B) (l1 l2 : list Cmd) :
  spawns_of l1 m -> (forall a, spawns_of l2 (k a)) ->
  spawns_of (l1 ++ l2) (m ≫= k).
Proof.
  intros Hm Hk w. rewrite bind_unfold. destruct (Hm w) as (x1 & E1 & S1).
  destruct (m w) as [a w1|code w1]; cbn [final] in *.
  - destruct (Hk a w1) as (x2 & E2 & S2). exists (x1 ++ x2).
    split; [by rewrite E2, E1, app_assoc | by apply sublist_app].
  - exists x1. split; [done |]. by apply sublist_inserts_r.
Qed.

Lemma spawns_of_then {A B} (m : M A) (k : A -> M B) (l : list Cmd) :
  spawns_of [] m -> (forall a, spawns_of l (k a)) -> spawns_of l (m ≫= k).
Proof. apply (spawns_of_bind m k [] l). Qed.

Lemma spawns_of_first {A B} (m : M A) (k : A -> M B) (l : list Cmd) :
  spawns_of l m -> (forall a, spawns_of [] (k a)) -> spawns_of l (m ≫= k).
Proof.
  intros Hm Hk. rewrite <- (app_nil_r l). by apply spawns_of_bind.
Qed.

Lemma spawns_of_skip {A} (m : M A) (l : list Cmd) :
  (forall w, procs (final (m w)) = procs w) -> spawns_of l m.
Proof.
  intros H. apply (spawns_of_weaken _ []); [apply sublist_nil_l |].
  by apply spawns_of_none.
Qed.

Lemma spawns_of_writing p c report : spawns_of [] (writing p c report).
Proof.
  apply spawns_of_none. intros w. unfold writing, lift_fs, write.
  rewrite bind_unfold.
  destruct (os_Create p (fs w)); [done |]. cbn [fs].
  by destruct (_ !! p) as [[|?]|].
Qed.

Lemma spawns_of_createDirs data ds : spawns_of [] (createDirs data ds).
Proof.
  apply spawns_of_none. induction ds as [|d ds IH]; intros w; [done |].
  cbn [createDirs]. rewrite bind_unfold. unfold lift_fs.
  destruct (os_MkdirAll _ (fs w)); [done |]. by rewrite IH.
Qed.

Lemma spawns_of_vcpkgStep env announce c :
  spawns_of [c] (vcpkgStep env announce c).
Proof.
  intros w. exists [c]. split; [| done]. unfold vcpkgStep, emit, exec_Run.
  rewrite !bind_unfold. cbn [fs stdout procs].
  by destruct (cmd_result env c).
Qed.

Lemma spawns_of_createMain data : spawns_of [] (createMain data).
Proof.
  unfold createMain. rewrite !createFile_eq.
  destruct (String.eqb (Lang data) "cpp").
  { apply spawns_of_then; [| intros _]; apply spawns_of_writing. }
  destruct (String.eqb (Lang data) "c"); [apply spawns_of_writing |].
  by apply spawns_of_none.
Qed.

Lemma spawns_of_fetchVcpkg env (p : path) :
  spawns_of
    [Command (W "git")
       [W "clone"; W "https://github.com/Microsoft/vcpkg.git"; WPath p] "";
     Command (WPathCat p "\bootstrap-vcpkg.bat") [] "";
     Command (WPathCat p "\vcpkg") [W "new"; W "--application"] ""]
    (fetchVcpkg env p).
Proof.
  unfold fetchVcpkg. apply spawns_of_then; [by apply spawns_of_none |].
  intros [n|]; [by apply spawns_of_skip |].
  apply (spawns_of_bind _ _ [_] [_; _]); [apply spawns_of_vcpkgStep |].
  intros _.
  apply (spawns_of_bind _ _ [_] [_]); [| intros _]; apply spawns_of_vcpkgStep.
Qed.

Lemma spawns_of_createProjectStructure env data :
  spawns_of (vcpkg_commands (ProjectName data))
    (createProjectStructure env data).
Proof.
  unfold createProjectStructure.
  apply spawns_of_then; [apply spawns_of_createDirs | intros _].
  apply spawns_of_then.
  { rewrite createCMakeLists_eq. apply spawns_of_writing. }
  intros _. apply spawns_of_first; cycle 1.
  { intros _. apply spawns_of_then; [apply spawns_of_createMain | intros _].
    by apply spawns_of_none. }
  destruct (String.eqb (PackageMgr data) "vcpkg");
    [| by apply spawns_of_skip].
  unfold setupVcpkg. apply spawns_of_first; [apply spawns_of_fetchVcpkg |].
  intros _. rewrite writeManifest_eq, createCMakePresets_eq.
  apply spawns_of_then; [| intros _]; apply spawns_of_writing.
Qed.

Lemma spawns_of_exec_Run env c : spawns_of [c] (exec_Run env c).
Proof.
  intros w. exists [c]. split; [| done]. unfold exec_Run.
  by destruct (cmd_result env c).
Qed.

Lemma spawns_of_initializeVersionControl env name :
  spawns_of [git_init name; git_add name] (initializeVersionControl env name).
Proof.
  unfold initializeVersionControl.
  apply spawns_of_then; [by apply spawns_of_none | intros _].
  destruct (_ || _); [| by apply spawns_of_skip].
  apply (spawns_of_bind _ _ [_] [_]); [apply spawns_of_exec_Run |].
  intros [e|]; [by apply spawns_of_skip |].
  rewrite !createFile_eq.
  apply spawns_of_then; [apply spawns_of_writing | intros _].
  apply spawns_of_then; [apply spawns_of_writing | intros _].
  apply spawns_of_first; [apply spawns_of_exec_Run |].
  intros [e|]; by apply spawns_of_none.
Qed.

Lemma spawns_of_getCMakeVersion env :
  spawns_of [cmake_version] (getCMakeVersion env).
Proof.
  unfold getCMakeVersion. apply spawns_of_first.
  - intros w. exists [cmake_version]. split; [| done]. unfold exec_Output.
    fold cmake_version. by destruct (cmd_result env cmake_version).
  - intros [e|out]; [by apply spawns_of_none |].
    destruct (Re.FindStringSubmatch out); by apply spawns_of_none.
Qed.

(** X10: the processes of a run.  Whatever the flags, the
    environment and the filesystem, and however the run ends, the
    processes it has spawned are, in this order and each at most once,
    some of: [cmake --version], the clone, the bootstrap and the
    manifest command of vcpkg, [git init], [git add].  Nothing else is
    ever run. *)
Theorem X10_processes_of_a_run env f w :
  exists l,
    procs (final (main env f w)) = procs w ++ l /\
    l `sublist_of` all_commands (flag_name f).
Proof.
  revert w. change (spawns_of (all_commands (flag_name f)) (main env f)).
  unfold main. destruct (validate f); [by apply spawns_of_skip |].
  apply (spawns_of_bind _ _ [cmake_version]
           (vcpkg_commands (flag_name f)
            ++ [git_init (flag_name f); git_add (flag_name f)]));
    [apply spawns_of_getCMakeVersion |].
  intros [e|v]; [by apply spawns_of_skip |].
  apply spawns_of_bind.
  - apply (spawns_of_createProjectStructure env (newProjectData f v)).
  - intros _. apply spawns_of_initializeVersionControl.
Qed.

(** ** What a completed generation has made *)

Lemma vcpkgStep_Ret env announce c w w' :
  vcpkgStep env announce c w = Ret tt w' ->
  cmd_result env c <> None /\
  w' = mkWorld (tool_effect c (fs w)) (stdout w ++ [Println announce])
               (procs w ++ [c]).
Proof.
  unfold vcpkgStep, emit, exec_Run. rewrite !bind_unfold.
  cbn [fs stdout procs]. destruct (cmd_result env c); [| done].
  by intros [= <-].
Qed.

Lemma fetchVcpkg_Ret env (p : path) w w' :
  fetchVcpkg env p w = Ret tt w' ->
  (os_Stat (fs w) p <> None /\ w' = w) \/
  (os_Stat (fs w) p = None /\ fs w' = ensure_dir p (fs w)).
Proof.
  unfold fetchVcpkg, stat. rewrite bind_unfold.
  destruct (os_Stat (fs w) p) as [n|] eqn:E.
  { intros [= <-]. by left. }
  intros H. right. split; [done |].
  apply bind_Ret_inv in H as ([] & w1 & (_ & ->)%vcpkgStep_Ret & H).
  apply bind_Ret_inv in H as ([] & w2 & (_ & ->)%vcpkgStep_Ret & H).
  apply vcpkgStep_Ret in H as (_ & ->). cbn [fs].
  by rewrite !tool_effect_cat, tool_effect_clone.
Qed.

(** Writing again what a file holds changes nothing. *)
Lemma writing_same (p : path) c report w :
  os_Stat (fs w) p = Some (File c) -> os_Stat (fs w) (parent p) = Some Dir ->
  writing p c report w = Ret tt w.
Proof.
  intros Hp Hup. rewrite writing_ok; [| by rewrite Hp | done].
  unfold os_Stat in Hp. destruct p as [r [|x l]]; [done |].
  by rewrite insert_id, World_eta.
Qed.

Lemma createMain_Ret data w w' :
  ProjectName data <> "" ->
  createMain data w = Ret tt w' ->
  (Lang data = "cpp" ->
   fs w' !! filepath_Join [ProjectName data; "src"; "main.cpp"]
   = Some (File (Bytes cppMainTemplate)) /\
   fs w' !! filepath_Join [ProjectName data; "include"; "pch.hpp"]
   = Some (File (Bytes pchTemplate))) /\
  (Lang data = "c" ->
   fs w' !! filepath_Join [ProjectName data; "src"; "main.c"]
   = Some (File (Bytes cppMainTemplate))).
Proof.
  intros Hn H. unfold createMain in H. rewrite !createFile_eq in H.
  rewrite !(Join2 _ _ _ Hn) in * by reflexivity.
  destruct (filepath_Clean (ProjectName data)) as [r rt]. cbn [fst snd] in *.
  split; intros Hl; rewrite Hl in H.
  - change (String.eqb "cpp" "cpp") with true in H. cbv iota in H.
    apply bind_Ret_inv in H as ([] & w1 & (-> & _)%writing_Ret & H).
    apply writing_Ret in H as (-> & _). cbn [fs].
    split; [| apply lookup_insert_eq].
    rewrite lookup_insert_ne by apart. apply lookup_insert_eq.
  - change (String.eqb "c" "cpp") with false in H.
    change (String.eqb "c" "c") with true in H. cbv iota in H.
    apply writing_Ret in H as (-> & _). apply lookup_insert_eq.
Qed.

(** The vcpkg block, returning, leaves the vcpkg directory in place
    and changes nothing but it, the manifest and the presets. *)
Lemma setupVcpkg_fs env data w w' :
  ProjectName data <> "" ->
  os_Stat (fs w) (filepath_Clean (ProjectName data)) = Some Dir ->
  setupVcpkg env data w = Ret tt w' ->
  is_Some (fs w' !! filepath_Join [ProjectName data; "vcpkg"]) /\
  (forall q : path,
     q <> filepath_Join [ProjectName data; "vcpkg"] ->
     q <> filepath_Join [ProjectName data; "vcpkg.json"] ->
     q <> filepath_Join [ProjectName data; "CMakePresets.json"] ->
     fs w' !! q = fs w !! q).
Proof.
  intros Hn Hroot H. unfold setupVcpkg in H.
  apply bind_Ret_inv in H as ([] & w1 & Hf & H).
  apply bind_Ret_inv in H as ([] & w2 & H2 & H3).
  rewrite writeManifest_eq in H2. rewrite createCMakePresets_eq in H3.
  apply writing_Ret in H2 as (-> & _). apply writing_Ret in H3 as (-> & _).
  cbn [fs]. apply fetchVcpkg_Ret in Hf.
  rewrite !(Join1 _ _ Hn) in * by reflexivity.
  destruct (filepath_Clean (ProjectName data)) as [r rt]. cbn [fst snd] in *.
  change (os_Stat (fs w) (r, "vcpkg" :: rt))
    with (fs w !! (r, "vcpkg" :: rt)) in Hf.
  assert (is_Some (fs w1 !! (r, "vcpkg" :: rt)) /\
          forall q : path, q <> (r, "vcpkg" :: rt) ->
                           fs w1 !! q = fs w !! q) as [Hv Hfr].
  { destruct Hf as [[Hs ->] | [Hs ->]].
    - split; [| done]. by destruct (fs w !! (r, "vcpkg" :: rt)).
    - rewrite ensure_dir_fresh by done.
      split; [by rewrite lookup_insert_eq |].
      intros q Hq. by rewrite lookup_insert_ne. }
  split.
  - rewrite !lookup_insert_ne by apart. done.
  - intros q Hq1 Hq2 Hq3. rewrite !lookup_insert_ne by done. by apply Hfr.
Qed.

(** The filesystem a completed generation leaves. *)
Lemma createProjectStructure_Ret env data w w1 :
  ProjectName data <> "" ->
  createProjectStructure env data w = Ret tt w1 ->
  os_Stat (fs w1) (filepath_Clean (ProjectName data)) = Some Dir /\
  (forall d, In d ["src"; "include"; "build"] ->
     os_Stat (fs w1) (filepath_Join [ProjectName data; d]) = Some Dir) /\
  fs w1 !! filepath_Join [ProjectName data; "CMakeLists.txt"]
  = Some (File (Bytes (Execute cmakeTemplate data))) /\
  (PackageMgr data = "vcpkg" ->
   is_Some (fs w1 !! filepath_Join [ProjectName data; "vcpkg"]) /\
   fs w1 !! filepath_Join [ProjectName data; "vcpkg.json"]
   = Some (File (MarshalIndent vcpkg_manifest "" "  ")) /\
   fs w1 !! filepath_Join [ProjectName data; "CMakePresets.json"]
   = Some (File (MarshalIndent (presets data) "" "  "))) /\
  (Lang data = "cpp" ->
   fs w1 !! filepath_Join [ProjectName data; "src"; "main.cpp"]
   = Some (File (Bytes cppMainTemplate)) /\
   fs w1 !! filepath_Join [ProjectName data; "include"; "pch.hpp"]
   = Some (File (Bytes pchTemplate))) /\
  (Lang data = "c" ->
   fs w1 !! filepath_Join [ProjectName data; "src"; "main.c"]
   = Some (File (Bytes cppMainTemplate))).
Proof.
  intros Hn H. unfold createProjectStructure in H.
  apply bind_Ret_inv in H as ([] & wa & Hdirs & H).
  apply bind_Ret_inv in H as ([] & wb & Hcm & H).
  apply bind_Ret_inv in H as ([] & wc & Hv & H).
  apply bind_Ret_inv in H as ([] & wd & Hm & ->%emit_Ret).
  cbn [fs].
  pose proof (createDirs_Ret _ _ _ _ Hdirs) as HD.
  (* directories are kept from the loop on *)
  assert (keeps_dirs (fs wa) (fs wb)) as Kab.
  { pose proof (steps_createCMakeLists keeps_dirs []
                  [filepath_Join [ProjectName data; "CMakeLists.txt"]]
                  (allows_keeps_dirs _ _) data (or_introl eq_refl) wa) as K.
    by rewrite Hcm in K. }
  assert (keeps_dirs (fs wb) (fs wc)) as Kbc.
  { destruct (String.eqb (PackageMgr data) "vcpkg").
    - pose proof (steps_setupVcpkg env keeps_dirs _ _
                    (allows_keeps_dirs _ _) data (incl_refl _) (incl_refl _)
                    wb) as K.
      by rewrite Hv in K.
    - injection Hv as <-. by intros q. }
  assert (keeps_dirs (fs wc) (fs wd)) as Kcd.
  { pose proof (steps_createMain keeps_dirs [] _ (allows_keeps_dirs _ _)
                  data (incl_refl _) wc) as K.
    by rewrite Hm in K. }
  assert (forall p, ~ In p (main_files (ProjectName data)) ->
                    fs wd !! p = fs wc !! p) as Hmf.
  { intros p Hp. pose proof (createMain_frame data wc p Hp) as E.
    by rewrite Hm in E. }
  destruct (main_files_apart _ Hn) as (Hm1 & Hm2 & Hm3 & _).
  rewrite createCMakeLists_eq in Hcm.
  apply writing_Ret in Hcm as (Ewb & _ & Hroot).
  assert (os_Stat (fs wb) (filepath_Clean (ProjectName data)) = Some Dir)
    as Hrootb.
  { apply Kab. revert Hroot. rewrite (Join1 _ _ Hn) by reflexivity.
    by destruct (filepath_Clean (ProjectName data)). }
  assert (fs wb !! filepath_Join [ProjectName data; "CMakeLists.txt"]
          = Some (File (Bytes (Execute cmakeTemplate data)))) as Hp0.
  { rewrite Ewb. apply lookup_insert_eq. }
  split; [by apply Kcd, Kbc |].
  split; [intros d Hd; by apply Kcd, Kbc, Kab, HD |].
  split; [| split; [| apply (createMain_Ret data wc wd Hn Hm)]].
  - rewrite Hmf by done.
    destruct (String.eqb (PackageMgr data) "vcpkg");
      [| by injection Hv as <-].
    destruct (setupVcpkg_fs env data wb wc Hn Hrootb Hv) as [_ Hfr].
    rewrite Hfr; [done | | |]; rewrite !(Join1 _ _ Hn) by reflexivity;
      destruct (filepath_Clean (ProjectName data)); apart.
  - intros Hp. rewrite Hp in Hv.
    change (String.eqb "vcpkg" "vcpkg") with true in Hv. cbv iota in Hv.
    destruct (setupVcpkg_fs env data wb wc Hn Hrootb Hv) as [Hvp _].
    destruct (setupVcpkg_Ret env data wb wc Hn Hv) as [Hmn Hpr].
    rewrite !Hmf; [done | done | done |].
    unfold main_files. rewrite (Join1 _ _ Hn), !(Join2 _ _ _ Hn) by reflexivity.
    destruct (filepath_Clean (ProjectName data)) as [r rt]. simpl.
    intros [E | [E | [E | []]]]; revert E; apart.
Qed.

Lemma writing_again (r : bool) (x : string) (l : list string) c report w :
  fs w !! (r, x :: l) = Some (File c) -> os_Stat (fs w) (r, l) = Some Dir ->
  writing (r, x :: l) c report w = Ret tt w.
Proof. intros Hp Hup. by apply writing_same. Qed.

Lemma setupVcpkg_again env data w :
  ProjectName data <> "" ->
  os_Stat (fs w) (filepath_Clean (ProjectName data)) = Some Dir ->
  is_Some (fs w !! filepath_Join [ProjectName data; "vcpkg"]) ->
  fs w !! filepath_Join [ProjectName data; "vcpkg.json"]
  = Some (File (MarshalIndent vcpkg_manifest "" "  ")) ->
  fs w !! filepath_Join [ProjectName data; "CMakePresets.json"]
  = Some (File (MarshalIndent (presets data) "" "  ")) ->
  setupVcpkg env data w = Ret tt w.
Proof.
  intros Hn Hroot [n Hvp] Hmn Hpr. unfold setupVcpkg, fetchVcpkg, stat.
  rewrite writeManifest_eq, createCMakePresets_eq.
  rewrite !(Join1 _ _ Hn) in * by reflexivity.
  destruct (filepath_Clean (ProjectName data)) as [r rt]. cbn [fst snd] in *.
  step. change (os_Stat (fs w) (r, "vcpkg" :: rt))
    with (fs w !! (r, "vcpkg" :: rt)).
  rewrite Hvp. step. step. rewrite writing_again by done.
  by rewrite writing_again.
Qed.

Lemma createMain_again data w :
  ProjectName data <> "" ->
  (forall d, In d ["src"; "include"; "build"] ->
     os_Stat (fs w) (filepath_Join [ProjectName data; d]) = Some Dir) ->
  (Lang data = "cpp" ->
   fs w !! filepath_Join [ProjectName data; "src"; "main.cpp"]
   = Some (File (Bytes cppMainTemplate)) /\
   fs w !! filepath_Join [ProjectName data; "include"; "pch.hpp"]
   = Some (File (Bytes pchTemplate))) ->
  (Lang data = "c" ->
   fs w !! filepath_Join [ProjectName data; "src"; "main.c"]
   = Some (File (Bytes cppMainTemplate))) ->
  createMain data w = Ret tt w.
Proof.
  intros Hn HD Hcpp Hc.
  pose proof (HD "src" ltac:(simpl; tauto)) as Hsrc.
  pose proof (HD "include" ltac:(simpl; tauto)) as Hinc. clear HD.
  unfold createMain. rewrite !createFile_eq.
  rewrite ?(Join1 _ _ Hn), ?(Join2 _ _ _ Hn) in * by reflexivity.
  destruct (filepath_Clean (ProjectName data)) as [r rt]. cbn [fst snd] in *.
  destruct (String.eqb_spec (Lang data) "cpp") as [Hl | _].
  { destruct (Hcpp Hl) as [H1 H2]. step. rewrite writing_again by done.
    by rewrite writing_again. }
  destruct (String.eqb_spec (Lang data) "c") as [Hl | _]; [| done].
  rewrite writing_again; [done | by apply Hc | done].
Qed.

(** X11: generating again.  On the filesystem a completed generation
    has left, a second generation for the same data completes too, in
    whatever environment: it spawns nothing, the vcpkg directory being
    there, and it leaves the filesystem exactly as it found it, every
    file being rewritten with what it holds; it only prints the message
    of success. *)
Theorem X11_generating_again_changes_nothing env env' data w w1 :
  ProjectName data <> "" ->
  createProjectStructure env data w = Ret tt w1 ->
  createProjectStructure env' data w1
  = Ret tt (printed w1 [msg_created (ProjectName data)]).
Proof.
  intros Hn H.
  destruct (createProjectStructure_Ret env data w w1 Hn H)
    as (Hroot & HD & Hp0 & Hvc & Hcpp & Hc).
  unfold createProjectStructure.
  rewrite (bind_Ret _ _ _ _ _ (createDirs_existing data _ w1 HD)).
  assert (createCMakeLists data w1 = Ret tt w1) as E.
  { rewrite createCMakeLists_eq. revert Hp0 Hroot.
    rewrite (Join1 _ _ Hn) by reflexivity.
    destruct (filepath_Clean (ProjectName data)) as [r rt].
    apply writing_again. }
  rewrite (bind_Ret _ _ _ _ _ E). clear E.
  assert ((if String.eqb (PackageMgr data) "vcpkg"
           then setupVcpkg env' data else mret tt) w1 = Ret tt w1) as E.
  { destruct (String.eqb_spec (PackageMgr data) "vcpkg") as [Hp | _];
      [| done].
    destruct (Hvc Hp) as (Hvp & Hmn & Hpr). by apply setupVcpkg_again. }
  rewrite (bind_Ret _ _ _ _ _ E). clear E.
  by rewrite (bind_Ret _ _ _ _ _ (createMain_again data w1 Hn HD Hcpp Hc)).
Qed.

Lemma X11_witness :
  let data := newProjectData (demo "cpp" "vcpkg") "3.28.1" in
  let w1 := final (createProjectStructure (sample_env "n") data (start ∅)) in
  createProjectStructure (mkEnv (fun _ => None) "") data w1
  = Ret tt (printed w1 [msg_created "demo"]).
Proof.
  intros data w1.
  apply (X11_generating_again_changes_nothing (sample_env "n")
           (mkEnv (fun _ => None) "") data (start ∅) w1).
  - discriminate.
  - vm_compute. reflexivity.
Defined.

(** What the prompt step leaves alone. *)
Lemma initializeVersionControl_frame env name w (q : path) :
  q <> filepath_Join [name; ".gitignore"] ->
  q <> filepath_Join [name; ".gitattributes"] ->
  ~ upto (filepath_Join [name; ".git"]) q ->
  fs (final (initializeVersionControl env name w)) !! q = fs w !! q.
Proof.
  intros H1 H2 H3.
  set (S := fun q : path =>
              In q (vcs_files name) \/ upto (filepath_Join [name; ".git"]) q).
  assert (allows (only_at S) (vcs_dirs name) (vcs_files name)) as HS.
  { apply allows_only_at.
    - intros d q' [<- | []] Hup. by right.
    - intros p Hp. by left. }
  apply (steps_initializeVersionControl env _ _ _ HS name (incl_refl _)
           (incl_refl _) w q).
  intros [[<- | [<- | []]] | Hup]; done.
Qed.

Lemma reports_Ret {A} (m : M A) w a w1 :
  reports m -> m w = Ret a w1 -> exists os, stdout w1 = stdout w ++ os.
Proof. intros R E. specialize (R w). by rewrite E in R. Qed.

Lemma createProjectStructure_says env data w w1 :
  createProjectStructure env data w = Ret tt w1 ->
  exists os, stdout w1 = stdout w ++ os ++ [msg_created (ProjectName data)].
Proof.
  intros H. unfold createProjectStructure in H.
  apply bind_Ret_inv in H as ([] & wa & Ha & H).
  apply bind_Ret_inv in H as ([] & wb & Hb & H).
  apply bind_Ret_inv in H as ([] & wc & Hc & H).
  apply bind_Ret_inv in H as ([] & wd & Hd & ->%emit_Ret).
  apply reports_Ret in Ha as [o1 E1]; [| apply reports_createDirs].
  apply reports_Ret in Hb as [o2 E2];
    [| unfold createCMakeLists; reporting].
  apply reports_Ret in Hc as [o3 E3]; cycle 1.
  { unfold setupVcpkg, fetchVcpkg, vcpkgStep, writeManifest,
      createCMakePresets. reporting. }
  apply reports_Ret in Hd as [o4 E4];
    [| unfold createMain, createFile; reporting].
  exists (o1 ++ o2 ++ o3 ++ o4). cbn [stdout].
  rewrite E4, E3, E2, E1. by rewrite <- !app_assoc.
Qed.

(** X12: what a completed run has made.  When a run returns, the
    probe had found a version in the output of [cmake --version], and
    on disk there are: the three directories, something at the place of
    the vcpkg directory, the build manifest rendered from the flags
    and that version, the vcpkg manifest, the presets, the starter file
    of the language (and the precompiled header for "cpp"), whatever
    the prompt step did afterwards; and the message of success has been
    printed. *)
Theorem X12_what_a_completed_run_has_made env f w w' :
  main env f w = Ret tt w' ->
  exists out v,
    cmd_result env cmake_version = Some out /\
    Re.FindStringSubmatch out = Some v /\
    (forall d, In d ["src"; "include"; "build"] ->
       os_Stat (fs w') (filepath_Join [flag_name f; d]) = Some Dir) /\
    is_Some (fs w' !! filepath_Join [flag_name f; "vcpkg"]) /\
    fs w' !! filepath_Join [flag_name f; "CMakeLists.txt"]
    = Some (File (Bytes (Execute cmakeTemplate (newProjectData f v)))) /\
    fs w' !! filepath_Join [flag_name f; "vcpkg.json"]
    = Some (File (MarshalIndent vcpkg_manifest "" "  ")) /\
    fs w' !! filepath_Join [flag_name f; "CMakePresets.json"]
    = Some (File (MarshalIndent (presets (newProjectData f v)) "" "  ")) /\
    (flag_lang f = "cpp" ->
     fs w' !! filepath_Join [flag_name f; "src"; "main.cpp"]
     = Some (File (Bytes cppMainTemplate)) /\
     fs w' !! filepath_Join [flag_name f; "include"; "pch.hpp"]
     = Some (File (Bytes pchTemplate))) /\
    (flag_lang f = "c" ->
     fs w' !! filepath_Join [flag_name f; "src"; "main.c"]
     = Some (File (Bytes cppMainTemplate))) /\
    In (msg_created (flag_name f)) (stdout w').
Proof.
  intros H. unfold main in H.
  destruct (validate f) as [msg|] eqn:Hval; [done |].
  apply validate_None in Hval as (Hn & _ & Hp).
  apply bind_Ret_inv in H as ([e|v] & w0 & H0 & H); [done |].
  apply getCMakeVersion_Ret in H0 as (_ & out & Hout & Hre).
  apply bind_Ret_inv in H as ([] & w1 & H1 & H2).
  exists out, v. split; [done |]. split; [done |].
  destruct (createProjectStructure_Ret env (newProjectData f v) _ _ Hn H1)
    as (_ & HD & Hp0 & Hvc & Hcpp & Hc).
  destruct (createProjectStructure_says env _ _ _ H1) as [os1 Hos1].
  cbn [newProjectData ProjectName PackageMgr Lang] in *.
  destruct (Hvc Hp) as (Hvp & Hmn & Hpr). clear Hvc.
  assert (forall q : path,
            q <> filepath_Join [flag_name f; ".gitignore"] ->
            q <> filepath_Join [flag_name f; ".gitattributes"] ->
            ~ upto (filepath_Join [flag_name f; ".git"]) q ->
            fs w' !! q = fs w1 !! q) as Hfr.
  { intros q Q1 Q2 Q3.
    pose proof (initializeVersionControl_frame env (flag_name f) w1 q Q1 Q2 Q3)
      as E. by rewrite H2 in E. }
  assert (keeps_dirs (fs w1) (fs w')) as Hk.
  { pose proof (steps_initializeVersionControl env keeps_dirs _ _
                  (allows_keeps_dirs _ _) (flag_name f) (incl_refl _)
                  (incl_refl _) w1) as K.
    by rewrite H2 in K. }
  apply reports_Ret in H2 as [os2 Hos2];
    [| apply reports_initializeVersionControl].
  split; [intros d Hd; by apply Hk, HD |].
  assert (forall x, x <> ".gitignore" -> x <> ".gitattributes" ->
                    x <> ".git" -> plain x = true ->
                    fs w' !! filepath_Join [flag_name f; x]
                    = fs w1 !! filepath_Join [flag_name f; x]) as Hfr1.
  { intros x X1 X2 X3 Hx. apply Hfr; rewrite !(Join1 _ _ Hn) by done;
      destruct (filepath_Clean (flag_name f)) as [r rt]; cbn [fst snd].
    - congruence.
    - congruence.
    - by apply not_upto_sibling. }
  assert (forall x y, plain x = true -> plain y = true ->
                      fs w' !! filepath_Join [flag_name f; x; y]
                      = fs w1 !! filepath_Join [flag_name f; x; y]) as Hfr2.
  { intros x y Hx Hy. apply Hfr;
      rewrite ?(Join1 _ _ Hn), ?(Join2 _ _ _ Hn) by done;
      destruct (filepath_Clean (flag_name f)) as [r rt]; cbn [fst snd].
    - intros [= _ E]. by apply cons_ne in E.
    - intros [= _ E]. by apply cons_ne in E.
    - apply not_upto_below. }
  rewrite !Hfr1, !Hfr2 by done.
  repeat (split; [done |]).
  rewrite Hos2, Hos1. rewrite !in_app_iff. left. right. right. by left.
Qed.

Lemma X12_witness :
  let f := demo "c" "vcpkg" in
  let w' := final (main (sample_env "y") f (start ∅)) in
  exists out v,
    cmd_result (sample_env "y") cmake_version = Some out /\
    Re.FindStringSubmatch out = Some v /\
    (forall d, In d ["src"; "include"; "build"] ->
       os_Stat (fs w') (filepath_Join [flag_name f; d]) = Some Dir) /\
    is_Some (fs w' !! filepath_Join [flag_name f; "vcpkg"]) /\
    fs w' !! filepath_Join [flag_name f; "CMakeLists.txt"]
    = Some (File (Bytes (Execute cmakeTemplate (newProjectData f v)))) /\
    fs w' !! filepath_Join [flag_name f; "vcpkg.json"]
    = Some (File (MarshalIndent vcpkg_manifest "" "  ")) /\
    fs w' !! filepath_Join [flag_name f; "CMakePresets.json"]
    = Some (File (MarshalIndent (presets (newProjectData f v)) "" "  ")) /\
    (flag_lang f = "cpp" ->
     fs w' !! filepath_Join [flag_name f; "src"; "main.cpp"]
     = Some (File (Bytes cppMainTemplate)) /\
     fs w' !! filepath_Join [flag_name f; "include"; "pch.hpp"]
     = Some (File (Bytes pchTemplate))) /\
    (flag_lang f = "c" ->
     fs w' !! filepath_Join [flag_name f; "src"; "main.c"]
     = Some (File (Bytes cppMainTemplate))) /\
    In (msg_created (flag_name f)) (stdout w').
Proof.
  intros f w'.
  apply (X12_what_a_completed_run_has_made (sample_env "y") f (start ∅) w').
  vm_compute. reflexivity.
Defined.

(** ** The prompt step, accepted *)

(** X13: accepting at the prompt.  The answer being "y" or "yes",
    [git init] succeeding, the project directory being there and
    neither .gitignore nor .gitattributes being a directory, the prompt
    step returns: both files hold their templates, whatever they held,
    [git init] and then [git add] have been spawned and nothing else,
    and after the prompt one message is printed, of success or, should
    [git add] fail, of that failure. *)
Theorem X13_accepting_sets_up_version_control env name w :
  answer env = "y" \/ answer env = "yes" ->
  name <> "" ->
  cmd_result env (git_init name) <> None ->
  os_Stat (fs w) (filepath_Clean name) = Some Dir ->
  (forall p, In p (vcs_files name) -> fs w !! p <> Some Dir) ->
  exists w',
    initializeVersionControl env name w = Ret tt w' /\
    fs w' !! filepath_Join [name; ".gitignore"]
    = Some (File (Bytes gitignoreTemplate)) /\
    fs w' !! filepath_Join [name; ".gitattributes"]
    = Some (File (Bytes gitattributesTemplate)) /\
    procs w' = procs w ++ [git_init name; git_add name] /\
    stdout w'
    = stdout w ++
      [prompt;
       match cmd_result env (git_add name) with
       | Some _ => msg_vcs_done
       | None => msg_add_failed (ExitError (git_add name))
       end].
Proof.
  intros Hans Hn Hinit Hroot Hfiles. unfold initializeVersionControl.
  fold (answer env).
  assert (String.eqb (answer env) "y" || String.eqb (answer env) "yes" = true)
    as ->.
  { destruct Hans as [-> | ->]; reflexivity. }
  step. unfold emit. step. unfold exec_Run. fold (git_init name) (git_add name).
  destruct (cmd_result env (git_init name)) as [o|]; [| done].
  step. rewrite tool_effect_init.
  pose proof (Hfiles _ (or_introl eq_refl)) as Hi.
  pose proof (Hfiles _ (or_intror (or_introl eq_refl))) as Ha.
  pose proof (ensure_dir_keeps (filepath_Join [name; ".git"]) (fs w) _ Hroot)
    as Hroot'.
  rewrite <- (ensure_dir_frame (filepath_Join [name; ".git"])) in Hi, Ha.
  - revert Hi Ha Hroot'.
    generalize (ensure_dir (filepath_Join [name; ".git"]) (fs w)).
    intros disk. rewrite !createFile_eq.
    rewrite ?(Join1 _ _ Hn) by reflexivity.
    destruct (filepath_Clean name) as [r rt]. cbn [fst snd].
    intros Hi Ha Hroot'.
    rewrite writing_ok; [| look; done | look; done].
    step. rewrite writing_ok; [| look; done | look; done].
    step.
    destruct (cmd_result env (git_add name)); step; unfold emit;
      (eexists; split; [reflexivity |]); cbn [fs stdout procs];
      change (tool_effect (git_add name) ?d) with d;
      (split; [look; apply lookup_insert_eq |]);
      (split; [apply lookup_insert_eq |]);
      by rewrite <- !app_assoc.
  - rewrite !(Join1 _ _ Hn) by reflexivity. by apply not_upto_sibling.
  - rewrite !(Join1 _ _ Hn) by reflexivity. by apply not_upto_sibling.
Qed.

Lemma X13_witness :
  exists w',
    initializeVersionControl (sample_env " YES ") "demo"
      (start {[ (false, ["demo"]) := Dir ]}) = Ret tt w' /\
    fs w' !! filepath_Join ["demo"; ".gitignore"]
    = Some (File (Bytes gitignoreTemplate)) /\
    fs w' !! filepath_Join ["demo"; ".gitattributes"]
    = Some (File (Bytes gitattributesTemplate)) /\
    procs w' = [] ++ [git_init "demo"; git_add "demo"] /\
    stdout w' = [] ++ [prompt; msg_vcs_done].
Proof.
  apply (X13_accepting_sets_up_version_control (sample_env " YES ") "demo"
           (start {[ (false, ["demo"]) := Dir ]})).
  - right. reflexivity.
  - discriminate.
  - discriminate.
  - reflexivity.
  - intros p [<- | [<- | []]]; vm_compute; discriminate.
Defined.

Lemma writing_procs p c report w :
  procs (final (writing p c report w)) = procs w.
Proof.
  destruct (spawns_of_writing p c report w) as (l & E & Hl).
  apply sublist_nil_r in Hl as ->. by rewrite app_nil_r in E.
Qed.

Lemma writing_bind_cases {B} p c report (k : unit -> M B) w :
  (exists code w',
     (writing p c report ≫= k) w = Exit code w' /\ procs w' = procs w) \/
  (writing p c report ≫= k) w
  = k tt (mkWorld (<[p := File c]> (fs w)) (stdout w) (procs w)).
Proof.
  rewrite bind_unfold. pose proof (writing_procs p c report w) as P.
  destruct (writing p c report w) as [[] w'|code w'] eqn:E.
  - right. by apply writing_Ret in E as (-> & _).
  - left. by exists code, w'.
Qed.

(** The three ways the prompt step can go, by what it has spawned. *)
Lemma initializeVersionControl_cases env name w :
  procs (final (initializeVersionControl env name w)) = procs w \/
  procs (final (initializeVersionControl env name w))
  = procs w ++ [git_init name] \/
  ((answer env = "y" \/ answer env = "yes") /\
   cmd_result env (git_init name) <> None /\
   procs (final (initializeVersionControl env name w))
   = procs w ++ [git_init name; git_add name] /\
   fs (final (initializeVersionControl env name w))
   = <[filepath_Join [name; ".gitattributes"] :=
         File (Bytes gitattributesTemplate)]>
       (<[filepath_Join [name; ".gitignore"] :=
            File (Bytes gitignoreTemplate)]>
          (ensure_dir (filepath_Join [name; ".git"]) (fs w)))).
Proof.
  remember (initializeVersionControl env name w) as res eqn:E.
  unfold initializeVersionControl in E. fold (answer env) in E.
  rewrite bind_unfold in E. unfold emit at 1 in E. cbv beta iota in E.
  destruct (String.eqb (answer env) "y" || String.eqb (answer env) "yes")
    eqn:Hans; cycle 1.
  { left. by subst res. }
  apply orb_true_iff in Hans. rewrite !String.eqb_eq in Hans.
  rewrite bind_unfold in E. unfold exec_Run at 1 in E.
  fold (git_init name) (git_add name) in E. cbn [fs stdout procs] in E.
  destruct (cmd_result env (git_init name)) as [o|]; cycle 1.
  { right. left. by subst res. }
  rewrite !createFile_eq, tool_effect_init in E.
  match type of E with
  | context [(writing ?p ?c ?rep ≫= ?k) ?w0] =>
      destruct (writing_bind_cases p c rep k w0) as [(code & w' & E' & P) | E']
  end; rewrite E' in E; clear E'.
  { right. left. subst res. cbn [final]. by rewrite P. }
  cbn [fs stdout procs] in E.
  match type of E with
  | context [(writing ?p ?c ?rep ≫= ?k) ?w0] =>
      destruct (writing_bind_cases p c rep k w0) as [(code & w' & E' & P) | E']
  end; rewrite E' in E; clear E'.
  { right. left. subst res. cbn [final]. by rewrite P. }
  cbn [fs stdout procs] in E. rewrite bind_unfold in E. unfold exec_Run in E.
  cbn [fs stdout procs] in E. right. right.
  split; [done |]. split; [done |].
  destruct (cmd_result env (git_add name)); subst res;
    cbn [final fs procs emit];
    change (tool_effect (git_add name) ?d) with d;
    by rewrite <- app_assoc.
Qed.

(** X14: [git add] comes last.  If the prompt step, however it ends,
    has spawned [git add], then the answer was "y" or "yes", [git init]
    had succeeded, the step has spawned exactly [git init] and then
    [git add], and both .gitignore and .gitattributes hold their
    templates. *)
Theorem X14_git_add_comes_last env name w (l : list Cmd) :
  name <> "" ->
  procs (final (initializeVersionControl env name w)) = procs w ++ l ->
  In (git_add name) l ->
  (answer env = "y" \/ answer env = "yes") /\
  cmd_result env (git_init name) <> None /\
  l = [git_init name; git_add name] /\
  fs (final (initializeVersionControl env name w))
    !! filepath_Join [name; ".gitignore"]
  = Some (File (Bytes gitignoreTemplate)) /\
  fs (final (initializeVersionControl env name w))
    !! filepath_Join [name; ".gitattributes"]
  = Some (File (Bytes gitattributesTemplate)).
Proof.
  intros Hn E Hin.
  destruct (initializeVersionControl_cases env name w)
    as [P | [P | (Hans & Hinit & P & F)]]; rewrite P in E.
  - rewrite <- (app_nil_r (procs w)) in E at 1. apply app_inv_head in E.
    by subst l.
  - apply app_inv_head in E. subst l. by destruct Hin as [[=] | []].
  - apply app_inv_head in E. subst l.
    split; [done |]. split; [done |]. split; [done |]. rewrite F.
    split; [| apply lookup_insert_eq].
    rewrite lookup_insert_ne; [apply lookup_insert_eq |].
    rewrite !(Join1 _ _ Hn) by reflexivity.
    destruct (filepath_Clean name). apart.
Qed.

Lemma X14_witness :
  let r := initializeVersionControl (sample_env "y") "demo"
             (start {[ (false, ["demo"]) := Dir ]}) in
  (answer (sample_env "y") = "y" \/ answer (sample_env "y") = "yes") /\
  cmd_result (sample_env "y") (git_init "demo") <> None /\
  [git_init "demo"; git_add "demo"] = [git_init "demo"; git_add "demo"] /\
  fs (final r) !! filepath_Join ["demo"; ".gitignore"]
  = Some (File (Bytes gitignoreTemplate)) /\
  fs (final r) !! filepath_Join ["demo"; ".gitattributes"]
  = Some (File (Bytes gitattributesTemplate)).
Proof.
  apply (X14_git_add_comes_last (sample_env "y") "demo"
           (start {[ (false, ["demo"]) := Dir ]})
           [git_init "demo"; git_add "demo"]).
  - discriminate.
  - reflexivity.
  - simpl. tauto.
Defined.

(** ** Reading the answer *)

Lemma ReadString_nl_line line rest :
  Str.mem Str.nl line = false ->
  Str.ReadString_nl (line +:+ LF +:+ rest) = line +:+ LF.
Proof.
  induction line as [|c s IH]; [done |].
  rewrite !append_cons. cbn [Str.mem Str.ReadString_nl].
  rewrite (Ascii.eqb_sym Str.nl c).
  destruct (Ascii.eqb c Str.nl); [done |]. cbn [orb]. by intros ->%IH.
Qed.

Lemma ReadString_nl_last line :
  Str.mem Str.nl line = false -> Str.ReadString_nl line = line.
Proof.
  induction line as [|c s IH]; [done |].
  cbn [Str.mem Str.ReadString_nl]. rewrite (Ascii.eqb_sym Str.nl c).
  destruct (Ascii.eqb c Str.nl); [done |]. cbn [orb]. by intros ->%IH.
Qed.

Lemma ToLower_app a b : Str.ToLower (a +:+ b) = Str.ToLower a +:+ Str.ToLower b.
Proof.
  induction a as [|c a IH]; [done |].
  rewrite append_cons. simpl. by rewrite IH.
Qed.

Lemma rev_onto_app (s t acc : string) :
  Str.rev_onto (s +:+ t) acc = Str.rev_onto t (Str.rev_onto s acc).
Proof.
  revert acc. induction s as [|c s IH]; intros acc; [done |].
  rewrite append_cons. cbn [Str.rev_onto]. apply IH.
Qed.

Lemma trim_right_LF s : Str.trim_right (s +:+ LF) = Str.trim_right s.
Proof.
  unfold Str.trim_right, Str.rev. rewrite rev_onto_app.
  change (Str.rev_onto LF ?a) with (String Str.nl a).
  reflexivity.
Qed.

Lemma is_space2_nl c : Str.is_space2 c Str.nl = false.
Proof. unfold Str.is_space2. apply andb_false_r. Qed.

Lemma is_space3_nl c1 c2 : Str.is_space3 c1 c2 Str.nl = false.
Proof.
  unfold Str.is_space3. change (nat_of_ascii Str.nl) with 10.
  cbn [Nat.eqb Nat.leb andb orb]. by rewrite !andb_false_r.
Qed.

Lemma trim_left_LF s :
  Str.trim_left (s +:+ LF) = Str.trim_left s +:+ LF \/
  (Str.trim_left (s +:+ LF) = "" /\ Str.trim_left s = "").
Proof.
  unfold Str.trim_left.
  assert (forall n s, String.length s <= n ->
    Str.trim_with Str.is_space2 Str.is_space3 (s +:+ LF)
    = Str.trim_with Str.is_space2 Str.is_space3 s +:+ LF \/
    (Str.trim_with Str.is_space2 Str.is_space3 (s +:+ LF) = "" /\
     Str.trim_with Str.is_space2 Str.is_space3 s = "")) as H.
  { clear s. induction n as [|n IH]; intros s Hn.
    { destruct s; [by right | simpl in Hn; lia]. }
    destruct s as [|c1 s1]; [by right |].
    rewrite append_cons. cbn [Str.trim_with].
    destruct (Str.is_space c1).
    { apply IH. simpl in Hn. lia. }
    destruct s1 as [|c2 s1].
    { rewrite append_nil_l. unfold LF. rewrite is_space2_nl. by left. }
    rewrite append_cons. destruct (Str.is_space2 c1 c2).
    { apply IH. simpl in Hn. lia. }
    destruct s1 as [|c3 s1].
    { rewrite append_nil_l. unfold LF. rewrite is_space3_nl. by left. }
    rewrite append_cons. destruct (Str.is_space3 c1 c2 c3); [| by left].
    apply IH. simpl in Hn. lia. }
  by apply (H (String.length s)).
Qed.

Lemma TrimSpace_LF s : Str.TrimSpace (s +:+ LF) = Str.TrimSpace s.
Proof.
  unfold Str.TrimSpace.
  destruct (trim_left_LF s) as [-> | [-> ->]]; [apply trim_right_LF | done].
Qed.

(** X15: only the first line of standard input counts.  Whatever
    follows the first line feed is not read, and the line feed itself
    is ignored: the prompt step behaves as if standard input held the
    first line alone. *)
Theorem X15_only_the_first_line_is_read cmds (line rest name : string) w :
  Str.mem Str.nl line = false ->
  initializeVersionControl (mkEnv cmds (line +:+ LF +:+ rest)) name w
  = initializeVersionControl (mkEnv cmds line) name w.
Proof.
  intros Hline. unfold initializeVersionControl. cbn [stdin].
  rewrite (ReadString_nl_line line rest Hline), (ReadString_nl_last line Hline).
  rewrite ToLower_app. change (Str.ToLower LF) with LF.
  by rewrite TrimSpace_LF.
Qed.

Lemma X15_witness :
  initializeVersionControl
    (mkEnv (cmd_result (sample_env "")) ("Yes" +:+ LF +:+ "no")) "demo"
    (start ∅)
  = initializeVersionControl (mkEnv (cmd_result (sample_env "")) "Yes") "demo"
      (start ∅).
Proof.
  apply (X15_only_the_first_line_is_read (cmd_result (sample_env "")) "Yes"
           "no" "demo" (start ∅)).
  reflexivity.
Defined.

(** ** The lines of the build manifest *)

Lemma has_prefix_app_same (a p s : string) :
  Str.has_prefix (a +:+ p) (a +:+ s) = Str.has_prefix p s.
Proof.
  induction a as [|c a IH]; [done |].
  rewrite !append_cons. cbn [Str.has_prefix]. by rewrite Ascii.eqb_refl, IH.
Qed.

Lemma has_prefix_app_l (p t r : string) :
  Str.has_prefix p t = true -> Str.has_prefix p (t +:+ r) = true.
Proof.
  revert t. induction p as [|c p IH]; intros t; [done |].
  destruct t as [|d t]; [done |].
  rewrite append_cons. cbn [Str.has_prefix].
  intros [-> H]%andb_true_iff. by rewrite (IH _ H).
Qed.

Lemma contains_here (p s : string) :
  Str.has_prefix p s = true -> Str.contains p s = true.
Proof. intros H. destruct s; cbn [Str.contains]; by rewrite H. Qed.

Lemma contains_app_l (p t r : string) :
  Str.contains p t = true -> Str.contains p (t +:+ r) = true.
Proof.
  induction t as [|c t IH].
  - cbn [Str.contains]. rewrite orb_false_r. intros H.
    apply contains_here. by apply (has_prefix_app_l p "" r).
  - rewrite append_cons. cbn [Str.contains].
    intros [H | H]%orb_true_iff.
    + apply (has_prefix_app_l _ _ r) in H. rewrite append_cons in H.
      by rewrite H.
    + rewrite (IH H). apply orb_true_r.
Qed.

(** Matching a text chunk by chunk. *)
Lemma contains_cat_skip (P t : string) (ts : list string) :
  Str.contains P (Str.cat ts) = true ->
  Str.contains P (Str.cat (t :: ts)) = true.
Proof. rewrite cat_cons. apply contains_app_r. Qed.

Lemma contains_cat_one (p t : string) (ts : list string) :
  Str.contains p t = true ->
  Str.contains (Str.cat [p]) (Str.cat (t :: ts)) = true.
Proof.
  intros H. rewrite !cat_cons. change (Str.cat []) with "".
  rewrite append_nil_r. by apply contains_app_l.
Qed.

Lemma contains_cat_here (a p t : string) (ps ts : list string) :
  t = a +:+ p ->
  Str.has_prefix (Str.cat ps) (Str.cat ts) = true ->
  Str.contains (Str.cat (p :: ps)) (Str.cat (t :: ts)) = true.
Proof.
  intros -> H. rewrite !cat_cons, append_assoc.
  apply contains_app_r, contains_here. by rewrite has_prefix_app_same.
Qed.

Lemma has_prefix_cat_same (c : string) (ps ts : list string) :
  Str.has_prefix (Str.cat ps) (Str.cat ts) = true ->
  Str.has_prefix (Str.cat (c :: ps)) (Str.cat (c :: ts)) = true.
Proof. intros H. by rewrite !cat_cons, has_prefix_app_same. Qed.

Lemma has_prefix_cat_last (p t : string) (ts : list string) :
  Str.has_prefix p t = true ->
  Str.has_prefix (Str.cat [p]) (Str.cat (t :: ts)) = true.
Proof.
  intros H. rewrite !cat_cons. change (Str.cat []) with "".
  rewrite append_nil_r. by apply has_prefix_app_l.
Qed.

Local Ltac match_rest :=
  repeat apply has_prefix_cat_same;
  apply has_prefix_cat_last; vm_compute; reflexivity.

Local Ltac find_line :=
  lazymatch goal with
  | |- Str.contains (Str.cat [?p]) (Str.cat (?t :: ?ts)) = true =>
      first [ apply contains_cat_one; vm_compute; reflexivity
            | apply contains_cat_skip; find_line ]
  | |- Str.contains (Str.cat (?p :: ?ps)) (Str.cat (?t :: ?ts)) = true =>
      first [ apply (contains_cat_here
                       (substring 0 (String.length t - String.length p) t));
              [ vm_compute; reflexivity | match_rest ]
            | apply contains_cat_skip; find_line ]
  end.

(** The line made of the chunks [P], the first one beginning with a
    line feed, is in the text. *)
Local Ltac line P :=
  apply orb_true_iff; right;
  let P' := eval cbv in P in
  lazymatch goal with
  | |- Str.contains _ (Str.cat ?T) = true =>
      let T' := grouped T in
      change (Str.contains (Str.cat P') (Str.cat T') = true)
  end;
  find_line.

Local Ltac render :=
  unfold Str.has_line_starting, Execute, chunks, cmakeTemplate;
  cbn [flat_map exec_node field_value newProjectData ProjectName Type_ Lang
       Standard CMakeVersion CMakeLang FileExt PackageMgr flag_lang flag_type
       flag_name flag_std flag_pkgmgr app];
  repeat match goal with
    | H : String.eqb _ _ = false |- _ => rewrite H
    end;
  match goal with
  | |- context [Str.cat ?l] => set (chunks := l); vm_compute in chunks
  end;
  match goal with chunks := _ |- _ => subst chunks end.

(** X16: the lines of the build manifest.  For every name, standard
    and version, and for both languages, the manifest rendered from the
    template has the line requiring that version of cmake, the line
    declaring the project with its name and the tag of the language,
    and the line setting the standard of that language; for a type
    "executable" (resp. "library") it has the line adding the
    executable (resp. the library) made from src/main with the
    extension of the language; and for "cpp" it has the two lines of
    the precompiled header, the second one naming include/pch.hpp. *)
Theorem X16_lines_of_the_manifest f v :
  flag_lang f = "cpp" \/ flag_lang f = "c" ->
  let data := newProjectData f v in
  let m := Execute cmakeTemplate data in
  Str.has_line_starting
    ("cmake_minimum_required(VERSION " +:+ v +:+ ")" +:+ LF) m = true /\
  Str.has_line_starting
    ("project(" +:+ flag_name f +:+ " LANGUAGES " +:+ CMakeLang data +:+ ")"
     +:+ LF) m = true /\
  Str.has_line_starting
    ("set(CMAKE_" +:+ CMakeLang data +:+ "_STANDARD " +:+ flag_std f +:+ ")"
     +:+ LF) m = true /\
  (flag_type f = "executable" ->
   Str.has_line_starting
     ("add_executable(" +:+ flag_name f +:+ " src/main." +:+ FileExt data
      +:+ ")" +:+ LF) m = true) /\
  (flag_type f = "library" ->
   Str.has_line_starting
     ("add_library(" +:+ flag_name f +:+ " src/main." +:+ FileExt data +:+ ")"
      +:+ LF) m = true) /\
  (flag_lang f = "cpp" ->
   Str.has_line_starting ("set(CMAKE_PCH_ENABLED ON)" +:+ LF) m = true /\
   Str.has_line_starting
     ("target_precompile_headers(" +:+ flag_name f
      +:+ " PRIVATE include/pch.hpp)" +:+ LF) m = true).
Proof.
  intros Hl data m. subst data m.
  destruct f as [name ty lang std pkg].
  cbn [flag_lang flag_type flag_name flag_std] in *.
  destruct (String.eqb_spec ty "executable") as [-> | Hexe];
    [| destruct (String.eqb_spec ty "library") as [-> | Hlib]];
    try apply String.eqb_neq in Hexe; try apply String.eqb_neq in Hlib;
    (destruct Hl as [-> | ->];
     (split; [render; line [String Str.nl "cmake_minimum_required(VERSION ";
                            v; ")" +:+ LF] |]);
     (split; [render;
              first [ line [String Str.nl "project("; name;
                            " LANGUAGES CXX)" +:+ LF]
                    | line [String Str.nl "project("; name;
                            " LANGUAGES C)" +:+ LF] ] |]);
     (split; [render;
              first [ line [String Str.nl "set(CMAKE_CXX_STANDARD "; std;
                            ")" +:+ LF]
                    | line [String Str.nl "set(CMAKE_C_STANDARD "; std;
                            ")" +:+ LF] ] |]);
     (split; [intros E; try discriminate E; try (by rewrite E in Hexe);
              render;
              first [ line [String Str.nl "add_executable("; name;
                            " src/main.cpp)" +:+ LF]
                    | line [String Str.nl "add_executable("; name;
                            " src/main.c)" +:+ LF] ] |]);
     (split; [intros E; try discriminate E; try (by rewrite E in Hlib);
              render;
              first [ line [String Str.nl "add_library("; name;
                            " src/main.cpp)" +:+ LF]
                    | line [String Str.nl "add_library("; name;
                            " src/main.c)" +:+ LF] ] |]);
     intros E; try discriminate E;
     (split; render;
      [ line [String Str.nl "set(CMAKE_PCH_ENABLED ON)" +:+ LF]
      | line [String Str.nl "target_precompile_headers("; name;
              " PRIVATE include/pch.hpp)" +:+ LF] ])).
Qed.

Lemma X16_witness :
  let f := mkFlags "my_app" "library" "c" "99" "vcpkg" in
  let data := newProjectData f "3.28.1" in
  let m := Execute cmakeTemplate data in
  Str.has_line_starting
    ("cmake_minimum_required(VERSION " +:+ "3.28.1" +:+ ")" +:+ LF) m = true /\
  Str.has_line_starting
    ("project(" +:+ flag_name f +:+ " LANGUAGES " +:+ CMakeLang data +:+ ")"
     +:+ LF) m = true /\
  Str.has_line_starting
    ("set(CMAKE_" +:+ CMakeLang data +:+ "_STANDARD " +:+ flag_std f +:+ ")"
     +:+ LF) m = true /\
  (flag_type f = "executable" ->
   Str.has_line_starting
     ("add_executable(" +:+ flag_name f +:+ " src/main." +:+ FileExt data
      +:+ ")" +:+ LF) m = true) /\
  (flag_type f = "library" ->
   Str.has_line_starting
     ("add_library(" +:+ flag_name f +:+ " src/main." +:+ FileExt data +:+ ")"
      +:+ LF) m = true) /\
  (flag_lang f = "cpp" ->
   Str.has_line_starting ("set(CMAKE_PCH_ENABLED ON)" +:+ LF) m = true /\
   Str.has_line_starting
     ("target_precompile_headers(" +:+ flag_name f
      +:+ " PRIVATE include/pch.hpp)" +:+ LF) m = true).
Proof.
  apply (X16_lines_of_the_manifest
           (mkFlags "my_app" "library" "c" "99" "vcpkg") "3.28.1").
  right. reflexivity.
Defined.

(** X17: a C project gets no precompiled header.  For the language
    "c", the name and the standard being single-line texts, no line
    of the manifest starts with [set(CMAKE_PCH_ENABLED], with
    [target_precompile_headers(] or with [set(CMAKE_CXX_STANDARD],
    whatever the type; and the starter step, which writes a main.c
    that includes pch.hpp, leaves include/pch.hpp as it was. *)
Theorem X17_no_precompiled_header_for_c f v out :
  flag_lang f = "c" ->
  Re.FindStringSubmatch out = Some v ->
  Str.mem Str.nl (flag_name f) = false ->
  Str.mem Str.nl (flag_std f) = false ->
  Str.has_line_starting "set(CMAKE_PCH_ENABLED"
    (Execute cmakeTemplate (newProjectData f v)) = false /\
  Str.has_line_starting "target_precompile_headers("
    (Execute cmakeTemplate (newProjectData f v)) = false /\
  Str.has_line_starting "set(CMAKE_CXX_STANDARD"
    (Execute cmakeTemplate (newProjectData f v)) = false /\
  (forall w,
     fs (final (createMain (newProjectData f v) w))
       !! filepath_Join [flag_name f; "include"; "pch.hpp"]
     = fs w !! filepath_Join [flag_name f; "include"; "pch.hpp"]).
Proof.
  intros Hl Hv Hname Hstd.
  pose proof (version_lacks out v Str.nl Hv eq_refl) as Hver.
  destruct f as [name ty lang std pkg].
  cbn [flag_lang flag_type flag_name flag_std] in *. subst lang.
  split; [| split; [| split]].
  4:{ intros w. unfold createMain. cbn [newProjectData Lang ProjectName].
      change (String.eqb "c" "cpp") with false.
      change (String.eqb "c" "c") with true. cbv iota.
      assert (allows
                (only_at (fun q => q = filepath_Join [name; "src"; "main.c"]))
                [] [filepath_Join [name; "src"; "main.c"]]) as HS.
      { apply allows_only_at; [by intros ? ? [] | by intros p [<- | []]]. }
      apply (steps_createFile _ _ _ HS _ cppMainTemplate (or_introl eq_refl) w).
      destruct (String.eqb_spec name "") as [-> | Hn]; [by vm_compute |].
      rewrite !(Join2 _ _ _ Hn) by reflexivity.
      destruct (filepath_Clean name). intros [= E]. }
  all: destruct (String.eqb_spec ty "executable") as [-> | Hexe];
    [| destruct (String.eqb_spec ty "library") as [-> | Hlib]];
    try apply String.eqb_neq in Hexe; try apply String.eqb_neq in Hlib;
    render; (apply orb_false_intro; [reflexivity |]); group_chunks;
    first [ apply (contains_cat_false Str.nl "set(CMAKE_PCH_ENABLED")
          | apply (contains_cat_false Str.nl "target_precompile_headers(")
          | apply (contains_cat_false Str.nl "set(CMAKE_CXX_STANDARD") ];
    literal_chunks; assumption.
Qed.

Lemma X17_witness :
  let f := mkFlags "demo" "library" "c" "99" "vcpkg" in
  Str.has_line_starting "set(CMAKE_PCH_ENABLED"
    (Execute cmakeTemplate (newProjectData f "3.28.1")) = false /\
  Str.has_line_starting "target_precompile_headers("
    (Execute cmakeTemplate (newProjectData f "3.28.1")) = false /\
  Str.has_line_starting "set(CMAKE_CXX_STANDARD"
    (Execute cmakeTemplate (newProjectData f "3.28.1")) = false /\
  (forall w,
     fs (final (createMain (newProjectData f "3.28.1") w))
       !! filepath_Join [flag_name f; "include"; "pch.hpp"]
     = fs w !! filepath_Join [flag_name f; "include"; "pch.hpp"]).
Proof.
  apply (X17_no_precompiled_header_for_c
           (mkFlags "demo" "library" "c" "99" "vcpkg") "3.28.1"
           ("cmake version 3.28.1" +:+ LF)); reflexivity.
Defined.

(** ** The vcpkg set-up *)

Lemma vcpkgStep_failed env announce c w :
  cmd_result env c = None ->
  vcpkgStep env announce c w
  = Exit 1 (mkWorld (fs w)
              (stdout w ++ [Println announce; msg_vcpkg_failed c])
              (procs w ++ [c])).
Proof.
  intros H. unfold vcpkgStep, emit, exec_Run. rewrite !bind_unfold.
  cbn [fs stdout procs]. rewrite H. step. unfold os_Exit.
  by rewrite <- app_assoc.
Qed.

(** X18: a failing command of the vcpkg set-up.  The vcpkg directory
    being absent, if one of the three commands of the set-up fails, the
    vcpkg block ends the run with status 1: the first failing command
    is the last process spawned, the message printed last carries that
    command but reads "Error cloning vcpkg" whichever command it is,
    and neither vcpkg.json nor CMakePresets.json has been touched. *)
Theorem X18_a_failing_vcpkg_command_stops_the_run env data w :
  ProjectName data <> "" ->
  os_Stat (fs w) (filepath_Join [ProjectName data; "vcpkg"]) = None ->
  Exists (fun c => cmd_result env c = None)
         (vcpkg_commands (ProjectName data)) ->
  exists c w' os l,
    In c (vcpkg_commands (ProjectName data)) /\
    cmd_result env c = None /\
    setupVcpkg env data w = Exit 1 w' /\
    stdout w' = stdout w ++ os ++ [msg_vcpkg_failed c] /\
    procs w' = procs w ++ l ++ [c] /\
    Forall (fun c' => cmd_result env c' <> None) l /\
    fs w' !! filepath_Join [ProjectName data; "vcpkg.json"]
    = fs w !! filepath_Join [ProjectName data; "vcpkg.json"] /\
    fs w' !! filepath_Join [ProjectName data; "CMakePresets.json"]
    = fs w !! filepath_Join [ProjectName data; "CMakePresets.json"].
Proof.
  intros Hn Hst Hex. unfold setupVcpkg, fetchVcpkg, stat.
  rewrite !bind_unfold. cbv beta iota. rewrite Hst.
  unfold vcpkg_commands in *.
  set (vp := filepath_Join [ProjectName data; "vcpkg"]) in *.
  set (c1 := Command (W "git") _ _) in *.
  set (c2 := Command (WPathCat vp "\bootstrap-vcpkg.bat") _ _) in *.
  set (c3 := Command (WPathCat vp "\vcpkg") _ _) in *.
  assert (forall q : path, ~ upto vp q ->
            tool_effect c1 (fs w) !! q = fs w !! q) as Hfr.
  { intros q Hq. subst c1. rewrite tool_effect_clone.
    by apply ensure_dir_frame. }
  assert (~ upto vp (filepath_Join [ProjectName data; "vcpkg.json"]) /\
          ~ upto vp (filepath_Join [ProjectName data; "CMakePresets.json"]))
    as [Hm Hp].
  { subst vp. rewrite !(Join1 _ _ Hn) by reflexivity.
    destruct (filepath_Clean (ProjectName data)).
    split; by apply not_upto_sibling. }
  destruct (cmd_result env c1) as [o1|] eqn:E1; cycle 1.
  { exists c1, (mkWorld (fs w)
                  (stdout w ++ [Println "Cloning vcpkg..."; msg_vcpkg_failed c1])
                  (procs w ++ [c1])), [Println "Cloning vcpkg..."], [].
    rewrite !bind_unfold, (vcpkgStep_failed _ _ _ _ E1).
    split; [by left |]. by repeat split. }
  rewrite !bind_unfold, (vcpkgStep_ok _ _ _ _ _ E1). cbv beta iota.
  destruct (cmd_result env c2) as [o2|] eqn:E2; cycle 1.
  { rewrite ?bind_unfold, (vcpkgStep_failed _ _ _ _ E2). cbn [fs stdout procs].
    eexists c2, _, [Println "Cloning vcpkg..."; Println "Bootstrapping vcpkg..."],
      [c1].
    split; [right; by left |]. split; [done |]. split; [reflexivity |].
    cbn [fs stdout procs]. rewrite <- !app_assoc.
    split; [done |]. split; [done |].
    split; [apply List.Forall_cons; [congruence | apply List.Forall_nil] |].
    split; by apply Hfr. }
  rewrite ?bind_unfold, (vcpkgStep_ok _ _ _ _ _ E2). cbv beta iota.
  destruct (cmd_result env c3) as [o3|] eqn:E3; cycle 1.
  { rewrite ?bind_unfold, (vcpkgStep_failed _ _ _ _ E3). cbn [fs stdout procs].
    eexists c3, _,
      [Println "Cloning vcpkg..."; Println "Bootstrapping vcpkg...";
       Println "Creting vcpkg manifes..."],
      [c1; c2].
    split; [right; right; by left |]. split; [done |]. split; [reflexivity |].
    cbn [fs stdout procs]. rewrite <- !app_assoc.
    split; [done |]. split; [done |].
    split; [repeat apply List.Forall_cons; try apply List.Forall_nil;
            congruence |].
    subst c2. rewrite tool_effect_cat. split; by apply Hfr. }
  exfalso. apply Exists_cons in Hex as [H | Hex]; [congruence |].
  apply Exists_cons in Hex as [H | Hex]; [congruence |].
  apply Exists_cons in Hex as [H | Hex]; [congruence |].
  by apply Exists_nil in Hex.
Qed.

Lemma X18_witness :
  let env := mkEnv (fun c => match cmd_name c with
                             | WPathCat _ _ => None
                             | _ => Some ""
                             end) "" in
  let data := newProjectData (demo "cpp" "vcpkg") "3.28.1" in
  let w := start {[ (false, ["demo"]) := Dir ]} in
  exists c w' os l,
    In c (vcpkg_commands "demo") /\
    cmd_result env c = None /\
    setupVcpkg env data w = Exit 1 w' /\
    stdout w' = stdout w ++ os ++ [msg_vcpkg_failed c] /\
    procs w' = procs w ++ l ++ [c] /\
    Forall (fun c' => cmd_result env c' <> None) l /\
    fs w' !! filepath_Join ["demo"; "vcpkg.json"]
    = fs w !! filepath_Join ["demo"; "vcpkg.json"] /\
    fs w' !! filepath_Join ["demo"; "CMakePresets.json"]
    = fs w !! filepath_Join ["demo"; "CMakePresets.json"].
Proof.
  intros env data w.
  apply (X18_a_failing_vcpkg_command_stops_the_run env data w).
  - discriminate.
  - reflexivity.
  - apply Exists_cons_tl, Exists_cons_hd. reflexivity.
Defined.

Lemma quiet_final {A} (m : M A) w :
  spawns_of [] m -> procs (final (m w)) = procs w.
Proof.
  intros H. destruct (H w) as (l & E & Hl).
  apply sublist_nil_r in Hl as ->. by rewrite app_nil_r in E.
Qed.

Lemma kept_is_Some (disk disk' : FS) (q : path) :
  keeps_kinds disk disk' -> is_Some (disk !! q) -> is_Some (disk' !! q).
Proof.
  intros K [n Hn]. specialize (K q). rewrite Hn in K.
  destruct n as [|c]; [by rewrite K | by destruct K as [c' ->]].
Qed.

(** X19: what is there is not fetched.  If something exists at the
    place of the vcpkg directory of the project, the generation spawns
    no process at all, however it ends. *)
Theorem X19_an_existing_vcpkg_is_not_fetched env data w :
  is_Some (fs w !! filepath_Join [ProjectName data; "vcpkg"]) ->
  procs (final (createProjectStructure env data w)) = procs w.
Proof.
  intros Hvp. unfold createProjectStructure.
  set (vp := filepath_Join [ProjectName data; "vcpkg"]) in *.
  (* the directories *)
  rewrite bind_unfold.
  pose proof (quiet_final _ w (spawns_of_createDirs data
                                 ["src"; "include"; "build"])) as P1.
  pose proof (steps_createDirs keeps_kinds
                (map (fun x => filepath_Join [ProjectName data; x])
                     ["src"; "include"; "build"]) []
                (allows_keeps_kinds _ _) data ["src"; "include"; "build"]
                (fun x Hx => List.in_map
                               (fun x => filepath_Join [ProjectName data; x])
                               _ x Hx) w) as K1.
  destruct (createDirs data _ w) as [[] wa|code wa]; cbn [final] in *;
    [| done].
  apply (kept_is_Some _ _ vp K1) in Hvp. clear K1.
  (* the build manifest *)
  rewrite bind_unfold.
  pose proof (quiet_final (createCMakeLists data) wa) as P2.
  rewrite createCMakeLists_eq in P2.
  specialize (P2 (spawns_of_writing _ _ _)). rewrite <- createCMakeLists_eq in P2.
  pose proof (steps_createCMakeLists keeps_kinds []
                [filepath_Join [ProjectName data; "CMakeLists.txt"]]
                (allows_keeps_kinds _ _) data (or_introl eq_refl) wa) as K2.
  destruct (createCMakeLists data wa) as [[] wb|code wb]; cbn [final] in *;
    [| congruence].
  apply (kept_is_Some _ _ vp K2) in Hvp. clear K2.
  (* the vcpkg block *)
  rewrite bind_unfold.
  assert (procs (final ((if String.eqb (PackageMgr data) "vcpkg"
                         then setupVcpkg env data else mret tt) wb))
          = procs wb) as P3.
  { destruct (String.eqb (PackageMgr data) "vcpkg"); [| done].
    unfold setupVcpkg, fetchVcpkg, stat. fold vp. rewrite !bind_unfold.
    cbv beta iota.
    assert (is_Some (os_Stat (fs wb) vp)) as [n ->].
    { unfold os_Stat. by destruct vp.2. }
    rewrite ret_unfold. cbv beta iota.
    rewrite writeManifest_eq, createCMakePresets_eq.
    apply (quiet_final
             (writing _ _ _ ≫= fun _ => writing _ _ _) wb).
    apply spawns_of_then; [| intros _]; apply spawns_of_writing. }
  destruct ((if String.eqb (PackageMgr data) "vcpkg"
             then setupVcpkg env data else mret tt) wb)
    as [[] wc|code wc]; cbn [final] in *; [| congruence].
  (* the starter files and the message *)
  rewrite (quiet_final (createMain data ≫= fun _ => emit _) wc); [congruence |].
  apply spawns_of_then; [apply spawns_of_createMain | intros _].
  by apply spawns_of_none.
Qed.

Lemma X19_witness :
  procs (final (createProjectStructure (sample_env "")
                  (newProjectData (demo "cpp" "vcpkg") "3.28.1")
                  (start {[ (false, ["vcpkg"; "demo"]) := Dir ]})))
  = procs (start {[ (false, ["vcpkg"; "demo"]) := Dir ]}).
Proof.
  apply (X19_an_existing_vcpkg_is_not_fetched (sample_env "")
           (newProjectData (demo "cpp" "vcpkg") "3.28.1")
           (start {[ (false, ["vcpkg"; "demo"]) := Dir ]})).
  by exists Dir.
Defined.

(** * The model at work *)

Example probe_finds_the_version :
  Re.FindStringSubmatch
    "cmake version 3.28.1

CMake suite maintained and supported by Kitware (kitware.com/cmake)."
  = Some "3.28.1" /\
  Re.FindStringSubmatch "cmake version 3.28" = None /\
  Re.FindStringSubmatch "xcmake version 12.0.77-rc1" = Some "12.0.77".
Proof. repeat split. Qed.

Example answers_are_trimmed_and_lowercased :
  answer (sample_env ("  YeS " +:+ LF +:+ "more")) = "yes" /\
  answer (sample_env "") = "".
Proof. split; reflexivity. Qed.

Example paths_are_cleaned :
  filepath_Join ["demo"; "src"; "main.cpp"]
  = (false, ["main.cpp"; "src"; "demo"]) /\
  filepath_Join ["/a/../b/./c//"; "src"] = (true, ["src"; "c"; "b"]) /\
  filepath_Join ["../.."; "src"] = (false, ["src"; ".."; ".."]) /\
  path_string (filepath_Join ["/a/../../b"; "src"]) = "/b/src".
Proof. repeat split. Qed.

(** The defaults, with a name, pass validation: the package manager
    defaults to vcpkg. *)
Example defaults_are_valid :
  validate default_flags = Some msg_name_required /\
  validate (mkFlags "demo" (flag_type default_flags) (flag_lang default_flags)
              (flag_std default_flags) (flag_pkgmgr default_flags)) = None.
Proof. split; reflexivity. Qed.

(** A whole run in an empty directory, the user answering "y": what is
    spawned, in order, and what is on disk at the end. *)
Example run_of_demo :
  let r := main (sample_env "y") (demo "cpp" "vcpkg") (start ∅) in
  exit_code r = 0%Z /\
  procs (final r)
  = cmake_version :: vcpkg_commands "demo" ++ [git_init "demo"; git_add "demo"] /\
  map fst (map_to_list (fs (final r)))
  ≡ₚ [(false, ["demo"]); (false, ["src"; "demo"]);
      (false, ["include"; "demo"]); (false, ["build"; "demo"]);
      (false, ["CMakeLists.txt"; "demo"]); (false, ["vcpkg"; "demo"]);
      (false, ["vcpkg.json"; "demo"]); (false, ["CMakePresets.json"; "demo"]);
      (false, ["main.cpp"; "src"; "demo"]);
      (false, ["pch.hpp"; "include"; "demo"]);
      (false, [".git"; "demo"]); (false, [".gitignore"; "demo"]);
      (false, [".gitattributes"; "demo"])].
Proof.
  repeat split. vm_compute.
  apply (Permutation_sym). solve_Permutation.
Qed.

(** With vcpkg, the manifest and the presets file are there. *)
Example C3_run_with_vcpkg :
  let w := final (main (sample_env "n") (demo "cpp" "vcpkg") (start ∅)) in
  fs w !! (false, ["vcpkg.json"; "demo"])
  = Some (File (MarshalIndent vcpkg_manifest "" "  ")) /\
  is_Some (fs w !! (false, ["CMakePresets.json"; "demo"])).
Proof. vm_compute. split; [done | by eexists]. Qed.
